(** * Sales backend: customers, products, sales and their line items

    A shallow embedding of [models.py], [schemas.py], [database.py] and
    [crud.py].  The relational store is a record of four tables, each a
    list of rows in rowid order.  Every function of [crud.py] is a
    computation in the [Session] monad (state plus the exceptions that
    reach the caller); [transaction] is the per-request session of
    [database.get_db]: the work is committed when the function returns
    and rolled back when it raises.

    Integers.  A Python [int] is a [Z].  The INTEGER of the engine has 64
    bits:
    - binding a parameter outside them raises [OverflowError] before the
      statement runs ([params], [param_key]);
    - the aggregate SUM raises "integer overflow" ([OperationalError])
      when its running sum of integers leaves them ([SUM_int], [SUM]);
    - a difference or a product that leaves them is a REAL ([sql_sub],
      [sql_mul]).  The floating-point arithmetic of the engine is not
      modelled: [Real] carries no value, and where the code turns a REAL
      sum into an [int] the result is the argument [real] of the request.

    What else the embedding abstracts:
    - [datetime.utcnow()] is the argument [now] of each request, one
      reading for the whole request;
    - [uuid4()] is an argument: [u] when the function draws one
      identifier, [uuid4 : nat -> string] (the k-th draw of the call)
      when it draws several;
    - a table never holds the largest rowid: the next rowid is one more
      than the largest in use. *)

From Stdlib Require Import ZArith List String Bool Lia Sorted Permutation.
Import ListNotations.
Open Scope Z_scope.

(** ** models.py: the four tables *)

Definition datetime := Z.

Module Cliente.
Record t := mk
  { id : Z; uuid : string; nombre : string; email : string; rut : string;
    created_at : datetime; modified_at : datetime }.
End Cliente.

Module Producto.
Record t := mk
  { id : Z; uuid : string; nombre : string;
    categoria : option string;           (* nullable *)
    precio : Z;
    created_at : datetime; modified_at : datetime }.
End Producto.

Module Venta.
Record t := mk
  { id : Z; uuid : string; fecha : datetime;
    total : Z;                           (* default 0, only written with an int *)
    created_at : datetime; modified_at : datetime;
    cliente_id : Z }.
End Venta.

Module DetalleVenta.
Record t := mk
  { id : Z; uuid : string; producto_id : Z; venta_id : Z;
    precio : Z;
    descuento : option Z;                (* Column(Integer, default=0): nullable *)
    cantidad : option Z;                 (* Column(Integer, default=1): nullable *)
    created_at : datetime; modified_at : datetime }.
End DetalleVenta.

Record DB := mkDB
  { clientes : list Cliente.t;
    productos : list Producto.t;
    ventas : list Venta.t;
    detalles_ventas : list DetalleVenta.t }.

Definition empty_db : DB := mkDB [] [] [] [].

Definition with_clientes (l : list Cliente.t) (db : DB) : DB :=
  mkDB l (productos db) (ventas db) (detalles_ventas db).
Definition with_productos (l : list Producto.t) (db : DB) : DB :=
  mkDB (clientes db) l (ventas db) (detalles_ventas db).
Definition with_ventas (l : list Venta.t) (db : DB) : DB :=
  mkDB (clientes db) (productos db) l (detalles_ventas db).
Definition with_detalles (l : list DetalleVenta.t) (db : DB) : DB :=
  mkDB (clientes db) (productos db) (ventas db) l.

(** ** schemas.py: the input models *)

(** A field of an update model, [Optional[T] = None] read through
    [model_dump(exclude_unset=True)]: absent from the request, or present
    with a value that may be [null]. *)
Inductive field (A : Type) : Type :=
| Unset : field A
| SetTo : option A -> field A.
Arguments Unset {A}.
Arguments SetTo {A} _.

Module ClienteCreate.
Record t := mk { nombre : string; email : string; rut : string }.
End ClienteCreate.

Module ClienteUpdate.
Record t := mk { nombre : field string; email : field string; rut : field string }.
End ClienteUpdate.

Module ProductoCreate.
Record t := mk { nombre : string; categoria : option string; precio : Z }.
End ProductoCreate.

Module ProductoUpdate.
Record t := mk { nombre : field string; categoria : field string; precio : field Z }.
End ProductoUpdate.

Module DetalleVentaCreate.
Record t := mk { producto_id : Z; precio : Z; descuento : Z; cantidad : Z }.
End DetalleVentaCreate.

Module DetalleVentaCreateStandalone.
Record t := mk
  { producto_id : Z; precio : Z; descuento : Z; cantidad : Z; venta_id : Z }.
End DetalleVentaCreateStandalone.

Module DetalleVentaUpdate.
Record t := mk { precio : field Z; descuento : field Z; cantidad : field Z }.
End DetalleVentaUpdate.

Module VentaCreate.
Record t := mk { cliente_id : Z; detalles : list DetalleVentaCreate.t }.
End VentaCreate.

Module VentaUpdate.
Record t := mk { cliente_id : field Z }.
End VentaUpdate.

(** ** The session: state and the exceptions *)

Inductive error : Type :=
| IntegrityError      (* sqlalchemy.exc.IntegrityError: a constraint of the schema *)
| OverflowError       (* a Python int that is no INTEGER of the engine, when bound *)
| OperationalError.   (* sqlalchemy.exc.OperationalError: integer overflow in SUM *)

Inductive result (A : Type) : Type :=
| Ok : A -> result A
| Raise : error -> result A.
Arguments Ok {A} _.
Arguments Raise {A} _.

Definition Session (A : Type) : Type := DB -> result (A * DB).

Definition ret {A} (a : A) : Session A := fun db => Ok (a, db).
Definition raise {A} (e : error) : Session A := fun _ => Raise e.
Definition bind {A B} (m : Session A) (k : A -> Session B) : Session B :=
  fun db => match m db with
            | Ok (a, db') => k a db'
            | Raise e => Raise e
            end.

Notation "x <- m ;; k" := (bind m (fun x => k))
  (at level 61, m at next level, right associativity).
Notation "m ;;; k" := (bind m (fun _ => k))
  (at level 61, right associativity).

Definition query {A} (q : DB -> A) : Session A := fun db => Ok (q db, db).

(** A query whose evaluation can raise. *)
Definition select {A} (q : DB -> result A) : Session A :=
  fun db => match q db with
            | Ok a => Ok (a, db)
            | Raise e => Raise e
            end.

(** A constraint of the schema, checked by the engine when a statement
    runs ([PRAGMA foreign_keys=ON] for the foreign keys). *)
Definition constraint (holds : DB -> bool) : Session unit :=
  fun db => if holds db then Ok (tt, db) else Raise IntegrityError.

Fixpoint forM_ {A} (l : list A) (f : A -> Session unit) : Session unit :=
  match l with
  | [] => ret tt
  | a :: rest => f a ;;; forM_ rest f
  end.

(** [get_db]: one session per request; what the function did is kept when
    it returns (it has committed) and dropped when it raises. *)
Definition transaction {A} (m : Session A) (db : DB) : result A * DB :=
  match m db with
  | Ok (a, db') => (Ok a, db')
  | Raise e => (Raise e, db)
  end.

(** ** The engine: 64-bit integers, rowids, NULLs, statements *)

Definition int64 (z : Z) : bool := (- 2 ^ 63 <=? z) && (z <? 2 ^ 63).

(** The integers of a statement are bound before it runs: one of them
    outside the 64 bits and the statement is not run. *)
Definition params (zs : list Z) : Session unit :=
  fun db => if forallb int64 zs then Ok (tt, db) else Raise OverflowError.

(** A parameter that is compared with a key column.  A value the column
    holds is an INTEGER of the engine, whatever its size here. *)
Definition param_key (held : DB -> bool) (z : Z) : Session unit :=
  fun db => if held db || int64 z then Ok (tt, db) else Raise OverflowError.

(** INTEGER PRIMARY KEY without a value: one more than the largest rowid
    in use, 1 in an empty table. *)
Definition next_rowid (ids : list Z) : Z :=
  match ids with
  | [] => 1
  | i :: rest => fold_left Z.max rest i + 1
  end.

Definition opt_eqb {A} (eqb : A -> A -> bool) (a b : option A) : bool :=
  match a, b with
  | Some x, Some y => eqb x y
  | None, None => true
  | _, _ => false
  end.

(** [setattr(obj, field, value)] for every entry of
    [data.model_dump(exclude_unset=True)]. *)
Definition setattr {A} (f : field A) (old : option A) : option A :=
  match f with
  | Unset => old
  | SetTo v => v
  end.

(** The integer an UPDATE binds for a column: the new value when there is
    one and it differs from the loaded one. *)
Definition cambio (nuevo viejo : option Z) : list Z :=
  if opt_eqb Z.eqb nuevo viejo then []
  else match nuevo with
       | Some z => [z]
       | None => []
       end.

(** A [nullable=False] column refuses NULL when the statement runs. *)
Definition not_null {A} (v : option A) : Session A :=
  match v with
  | Some a => ret a
  | None => raise IntegrityError
  end.

(** The value of an arithmetic expression of the engine that is not NULL:
    a 64-bit integer, or a REAL. *)
Inductive num : Type :=
| Entero (z : Z)
| Real.

Definition num_of (z : Z) : num := if int64 z then Entero z else Real.

(** A value of an INTEGER column. *)
Definition columna (x : option Z) : option num :=
  match x with
  | Some z => Some (Entero z)
  | None => None
  end.

(** NULL-propagating arithmetic: on integers the result is an integer
    when it fits the 64 bits and a REAL when it does not. *)
Definition sql_sub (a b : option num) : option num :=
  match a, b with
  | Some (Entero x), Some (Entero y) => Some (num_of (x - y))
  | Some _, Some _ => Some Real
  | _, _ => None
  end.

Definition sql_mul (a b : option num) : option num :=
  match a, b with
  | Some (Entero x), Some (Entero y) => Some (num_of (x * y))
  | Some _, Some _ => Some Real
  | _, _ => None
  end.

(** The aggregate SUM over an INTEGER column, row after row: NULLs are
    skipped, the result is NULL when nothing is left, and "integer
    overflow" is raised when the running sum leaves the 64 bits. *)
Fixpoint sum_int (acc : option Z) (xs : list (option Z)) : result (option Z) :=
  match xs with
  | [] => Ok acc
  | None :: rest => sum_int acc rest
  | Some v :: rest =>
      match acc with
      | None => sum_int (Some v) rest
      | Some s => if int64 (s + v) then sum_int (Some (s + v)) rest
                  else Raise OperationalError
      end
  end.

Definition SUM_int (xs : list (option Z)) : result (option Z) := sum_int None xs.

(** The aggregate SUM over an expression: as over a column while the
    values are integers; from the first REAL value on the sum is a REAL
    and no overflow is raised any more. *)
Inductive sum_state : Type :=
| SumNull
| SumInt (s : Z)
| SumReal
| SumOverflow.

Definition sum_step (acc : sum_state) (x : option num) : sum_state :=
  match x with
  | None => acc
  | Some (Entero v) =>
      match acc with
      | SumNull => SumInt v
      | SumInt s => if int64 (s + v) then SumInt (s + v) else SumOverflow
      | SumReal => SumReal
      | SumOverflow => SumOverflow
      end
  | Some Real =>
      match acc with
      | SumOverflow => SumOverflow
      | _ => SumReal
      end
  end.

Definition sql_sum (xs : list (option num)) : sum_state := fold_left sum_step xs SumNull.

Definition SUM (xs : list (option num)) : result (option num) :=
  match sql_sum xs with
  | SumNull => Ok None
  | SumInt s => Ok (Some (Entero s))
  | SumReal => Ok (Some Real)
  | SumOverflow => Raise OperationalError
  end.

(** [(DetalleVenta.precio - DetalleVenta.descuento) * DetalleVenta.cantidad]
    as the engine evaluates it on a row. *)
Definition subtotal_sql (d : DetalleVenta.t) : option num :=
  sql_mul (sql_sub (Some (Entero (DetalleVenta.precio d))) (columna (DetalleVenta.descuento d)))
          (columna (DetalleVenta.cantidad d)).

(** LIMIT n: the first n rows; a negative n is no bound at all. *)
Definition sql_limit {A} (n : Z) (rows : list A) : list A :=
  if n <? 0 then rows else firstn (Z.to_nat n) rows.













(** [query(T).filter(T.id == i).first()] *)
Definition first_by_id {A} (id : A -> Z) (tabla : DB -> list A) (i : Z)
  : Session (option A) :=
  param_key (fun db => existsb (fun r => id r =? i) (tabla db)) i ;;;
  query (fun db => find (fun r => id r =? i) (tabla db)).

(** [query(T).offset(skip).limit(limit).all()] *)
Definition offset_limit {A} (tabla : DB -> list A) (skip limit : Z)
  : Session (list A) :=
  params [limit; skip] ;;;
  query (fun db => sql_limit limit (skipn (Z.to_nat skip) (tabla db))).

(** ** crud.py: Clientes *)

Definition INSERT_cliente (now : datetime) (u nombre email rut : string)
  : Session Cliente.t :=
  constraint (fun db =>
    negb (existsb (fun c => String.eqb (Cliente.uuid c) u
                            || String.eqb (Cliente.email c) email
                            || String.eqb (Cliente.rut c) rut) (clientes db))) ;;;
  fun db =>
    let row := Cliente.mk (next_rowid (map Cliente.id (clientes db)))
                          u nombre email rut now now in
    Ok (row, with_clientes (clientes db ++ [row]) db).

(** The flush of a loaded [Cliente] whose attributes were assigned: no
    statement when no column has a new value; otherwise one
    [UPDATE clientes SET ... WHERE id = ?] that sets the columns with a
    new value and [modified_at] ([onupdate=datetime.utcnow]). *)
Definition UPDATE_cliente (now : datetime) (c : Cliente.t)
  (nombre email rut : option string) : Session Cliente.t :=
  if opt_eqb String.eqb nombre (Some (Cliente.nombre c))
     && opt_eqb String.eqb email (Some (Cliente.email c))
     && opt_eqb String.eqb rut (Some (Cliente.rut c))
  then ret c
  else
    nombre' <- not_null nombre ;;
    email' <- not_null email ;;
    rut' <- not_null rut ;;
    constraint (fun db =>
      (String.eqb email' (Cliente.email c)
       || negb (existsb (fun r => String.eqb (Cliente.email r) email') (clientes db)))
      && (String.eqb rut' (Cliente.rut c)
          || negb (existsb (fun r => String.eqb (Cliente.rut r) rut') (clientes db)))) ;;;
    let set := fun r =>
      Cliente.mk (Cliente.id r) (Cliente.uuid r)
        (if String.eqb nombre' (Cliente.nombre c) then Cliente.nombre r else nombre')
        (if String.eqb email' (Cliente.email c) then Cliente.email r else email')
        (if String.eqb rut' (Cliente.rut c) then Cliente.rut r else rut')
        (Cliente.created_at r) now in
    fun db =>
      Ok (set c, with_clientes
                   (map (fun r => if Cliente.id r =? Cliente.id c then set r else r)
                        (clientes db)) db).

Definition DELETE_cliente (cliente_id : Z) : Session unit :=
  constraint (fun db =>
    negb (existsb (fun v => Venta.cliente_id v =? cliente_id) (ventas db))) ;;;
  fun db =>
    Ok (tt, with_clientes
              (filter (fun c => negb (Cliente.id c =? cliente_id)) (clientes db)) db).

Definition create_cliente (now : datetime) (u : string) (data : ClienteCreate.t)
  : Session Cliente.t :=
  INSERT_cliente now u (ClienteCreate.nombre data) (ClienteCreate.email data)
                 (ClienteCreate.rut data).

Definition get_cliente (cliente_id : Z) : Session (option Cliente.t) :=
  first_by_id Cliente.id clientes cliente_id.

Definition list_clientes (skip limit : Z) : Session (list Cliente.t) :=
  offset_limit clientes skip limit.

Definition update_cliente (now : datetime) (cliente_id : Z) (data : ClienteUpdate.t)
  : Session (option Cliente.t) :=
  cliente <- get_cliente cliente_id ;;
  match cliente with
  | None => ret None
  | Some c =>
      c' <- UPDATE_cliente now c
              (setattr (ClienteUpdate.nombre data) (Some (Cliente.nombre c)))
              (setattr (ClienteUpdate.email data) (Some (Cliente.email c)))
              (setattr (ClienteUpdate.rut data) (Some (Cliente.rut c))) ;;
      ret (Some c')
  end.

(** ** crud.py: Productos *)

Definition INSERT_producto (now : datetime) (u nombre : string)
  (categoria : option string) (precio : Z) : Session Producto.t :=
  params [precio] ;;;
  constraint (fun db =>
    negb (existsb (fun p => String.eqb (Producto.uuid p) u) (productos db))) ;;;
  fun db =>
    let row := Producto.mk (next_rowid (map Producto.id (productos db)))
                           u nombre categoria precio now now in
    Ok (row, with_productos (productos db ++ [row]) db).

Definition UPDATE_producto (now : datetime) (p : Producto.t)
  (nombre categoria : option string) (precio : option Z) : Session Producto.t :=
  if opt_eqb String.eqb nombre (Some (Producto.nombre p))
     && opt_eqb String.eqb categoria (Producto.categoria p)
     && opt_eqb Z.eqb precio (Some (Producto.precio p))
  then ret p
  else
    params (cambio precio (Some (Producto.precio p))) ;;;
    nombre' <- not_null nombre ;;
    precio' <- not_null precio ;;
    let set := fun r =>
      Producto.mk (Producto.id r) (Producto.uuid r)
        (if String.eqb nombre' (Producto.nombre p) then Producto.nombre r else nombre')
        (if opt_eqb String.eqb categoria (Producto.categoria p)
         then Producto.categoria r else categoria)
        (if precio' =? Producto.precio p then Producto.precio r else precio')
        (Producto.created_at r) now in
    fun db =>
      Ok (set p, with_productos
                   (map (fun r => if Producto.id r =? Producto.id p then set r else r)
                        (productos db)) db).

Definition DELETE_producto (producto_id : Z) : Session unit :=
  constraint (fun db =>
    negb (existsb (fun d => DetalleVenta.producto_id d =? producto_id)
                  (detalles_ventas db))) ;;;
  fun db =>
    Ok (tt, with_productos
              (filter (fun p => negb (Producto.id p =? producto_id)) (productos db)) db).

Definition create_producto (now : datetime) (u : string) (data : ProductoCreate.t)
  : Session Producto.t :=
  INSERT_producto now u (ProductoCreate.nombre data) (ProductoCreate.categoria data)
                  (ProductoCreate.precio data).

Definition get_producto (producto_id : Z) : Session (option Producto.t) :=
  first_by_id Producto.id productos producto_id.

Definition list_productos (skip limit : Z) : Session (list Producto.t) :=
  offset_limit productos skip limit.

Definition update_producto (now : datetime) (producto_id : Z) (data : ProductoUpdate.t)
  : Session (option Producto.t) :=
  producto <- get_producto producto_id ;;
  match producto with
  | None => ret None
  | Some p =>
      p' <- UPDATE_producto now p
              (setattr (ProductoUpdate.nombre data) (Some (Producto.nombre p)))
              (setattr (ProductoUpdate.categoria data) (Producto.categoria p))
              (setattr (ProductoUpdate.precio data) (Some (Producto.precio p))) ;;
      ret (Some p')
  end.

(** ** crud.py: Ventas and their detalles, the statements *)

Definition INSERT_venta (now : datetime) (u : string) (cliente_id : Z)
  : Session Venta.t :=
  param_key (fun db => existsb (fun c => Cliente.id c =? cliente_id) (clientes db))
            cliente_id ;;;
  constraint (fun db =>
    negb (existsb (fun v => String.eqb (Venta.uuid v) u) (ventas db))
    && existsb (fun c => Cliente.id c =? cliente_id) (clientes db)) ;;;
  fun db =>
    let row := Venta.mk (next_rowid (map Venta.id (ventas db)))
                        u now 0 now now cliente_id in
    Ok (row, with_ventas (ventas db ++ [row]) db).

(** [UPDATE ventas SET ... WHERE id = ?] on behalf of the loaded object
    [v], which is refreshed. *)
Definition UPDATE_ventas (set : Venta.t -> Venta.t) (v : Venta.t) : Session Venta.t :=
  fun db =>
    Ok (set v, with_ventas
                 (map (fun r => if Venta.id r =? Venta.id v then set r else r)
                      (ventas db)) db).

(** The flush after [venta.total = ...]. *)
Definition UPDATE_venta_total (now : datetime) (v : Venta.t) (total : Z)
  : Session Venta.t :=
  if total =? Venta.total v then ret v
  else
    params [total] ;;;
    UPDATE_ventas
      (fun r => Venta.mk (Venta.id r) (Venta.uuid r) (Venta.fecha r) total
                         (Venta.created_at r) now (Venta.cliente_id r)) v.

(** The flush after [setattr(venta, "cliente_id", ...)]. *)
Definition UPDATE_venta_cliente (now : datetime) (v : Venta.t) (cliente_id : option Z)
  : Session Venta.t :=
  if opt_eqb Z.eqb cliente_id (Some (Venta.cliente_id v)) then ret v
  else
    cliente_id' <- not_null cliente_id ;;
    param_key (fun db => existsb (fun c => Cliente.id c =? cliente_id') (clientes db))
              cliente_id' ;;;
    constraint (fun db => existsb (fun c => Cliente.id c =? cliente_id') (clientes db)) ;;;
    UPDATE_ventas
      (fun r => Venta.mk (Venta.id r) (Venta.uuid r) (Venta.fecha r) (Venta.total r)
                         (Venta.created_at r) now cliente_id') v.

Definition DELETE_venta (venta_id : Z) : Session unit :=
  constraint (fun db =>
    negb (existsb (fun d => DetalleVenta.venta_id d =? venta_id) (detalles_ventas db))) ;;;
  fun db =>
    Ok (tt, with_ventas (filter (fun v => negb (Venta.id v =? venta_id)) (ventas db)) db).

Definition INSERT_detalle (now : datetime) (u : string)
  (producto_id venta_id precio descuento cantidad : Z) : Session DetalleVenta.t :=
  params [precio; descuento; cantidad] ;;;
  param_key (fun db => existsb (fun p => Producto.id p =? producto_id) (productos db))
            producto_id ;;;
  param_key (fun db => existsb (fun v => Venta.id v =? venta_id) (ventas db))
            venta_id ;;;
  constraint (fun db =>
    negb (existsb (fun d => String.eqb (DetalleVenta.uuid d) u) (detalles_ventas db))
    && existsb (fun p => Producto.id p =? producto_id) (productos db)
    && existsb (fun v => Venta.id v =? venta_id) (ventas db)) ;;;
  fun db =>
    let row := DetalleVenta.mk (next_rowid (map DetalleVenta.id (detalles_ventas db)))
                               u producto_id venta_id precio (Some descuento)
                               (Some cantidad) now now in
    Ok (row, with_detalles (detalles_ventas db ++ [row]) db).

Definition UPDATE_detalle (now : datetime) (d : DetalleVenta.t)
  (precio descuento cantidad : option Z) : Session DetalleVenta.t :=
  if opt_eqb Z.eqb precio (Some (DetalleVenta.precio d))
     && opt_eqb Z.eqb descuento (DetalleVenta.descuento d)
     && opt_eqb Z.eqb cantidad (DetalleVenta.cantidad d)
  then ret d
  else
    params (cambio precio (Some (DetalleVenta.precio d))
            ++ cambio descuento (DetalleVenta.descuento d)
            ++ cambio cantidad (DetalleVenta.cantidad d)) ;;;
    precio' <- not_null precio ;;
    let set := fun r =>
      DetalleVenta.mk (DetalleVenta.id r) (DetalleVenta.uuid r)
        (DetalleVenta.producto_id r) (DetalleVenta.venta_id r)
        (if precio' =? DetalleVenta.precio d then DetalleVenta.precio r else precio')
        (if opt_eqb Z.eqb descuento (DetalleVenta.descuento d)
         then DetalleVenta.descuento r else descuento)
        (if opt_eqb Z.eqb cantidad (DetalleVenta.cantidad d)
         then DetalleVenta.cantidad r else cantidad)
        (DetalleVenta.created_at r) now in
    fun db =>
      Ok (set d, with_detalles
                   (map (fun r => if DetalleVenta.id r =? DetalleVenta.id d then set r else r)
                        (detalles_ventas db)) db).

Definition DELETE_detalle (detalle_id : Z) : Session unit :=
  fun db =>
    Ok (tt, with_detalles
              (filter (fun d => negb (DetalleVenta.id d =? detalle_id))
                      (detalles_ventas db)) db).

(** ** [session.delete] and the cascades of the relationships

    [Venta.detalles] and [Cliente.ventas] are declared with
    [cascade="all, delete-orphan"]: the children are loaded and deleted
    before their parent.  [Producto.detalles] has no delete cascade: the
    children are loaded and their [producto_id] is set to NULL, which the
    [nullable=False] column refuses. *)

Definition detalles_de (venta_id : Z) (db : DB) : list DetalleVenta.t :=
  filter (fun d => DetalleVenta.venta_id d =? venta_id) (detalles_ventas db).

Definition ventas_de (cliente_id : Z) (db : DB) : list Venta.t :=
  filter (fun v => Venta.cliente_id v =? cliente_id) (ventas db).

Definition session_delete_detalle (d : DetalleVenta.t) : Session unit :=
  DELETE_detalle (DetalleVenta.id d).

Definition session_delete_venta (v : Venta.t) : Session unit :=
  hijos <- query (detalles_de (Venta.id v)) ;;
  forM_ hijos session_delete_detalle ;;;
  DELETE_venta (Venta.id v).

Definition session_delete_cliente (c : Cliente.t) : Session unit :=
  hijas <- query (ventas_de (Cliente.id c)) ;;
  forM_ hijas session_delete_venta ;;;
  DELETE_cliente (Cliente.id c).

Definition session_delete_producto (p : Producto.t) : Session unit :=
  hijos <- query (fun db =>
             filter (fun d => DetalleVenta.producto_id d =? Producto.id p)
                    (detalles_ventas db)) ;;
  forM_ hijos (fun _ => _ <- not_null (@None Z) ;; ret tt) ;;;
  DELETE_producto (Producto.id p).

Definition delete_cliente (cliente_id : Z) : Session bool :=
  cliente <- get_cliente cliente_id ;;
  match cliente with
  | None => ret false
  | Some c => session_delete_cliente c ;;; ret true
  end.

Definition delete_producto (producto_id : Z) : Session bool :=
  producto <- get_producto producto_id ;;
  match producto with
  | None => ret false
  | Some p => session_delete_producto p ;;; ret true
  end.

(** ** crud.py: Ventas *)

(** The [for det in data.detalles] loop of [create_venta]: [total] is the
    running sum, a Python [int].  The line items it adds to the session
    are written at the commit. *)
Fixpoint create_venta_loop (dets : list DetalleVentaCreate.t) (total : Z) : Z :=
  match dets with
  | [] => total
  | det :: rest =>
      let subtotal := (DetalleVentaCreate.precio det - DetalleVentaCreate.descuento det)
                      * DetalleVentaCreate.cantidad det in
      create_venta_loop rest (total + subtotal)
  end.

(** The line items of the loop, flushed in the order they were added;
    [k] counts the draws of [uuid4()]. *)
Fixpoint INSERT_detalles (now : datetime) (uuid4 : nat -> string) (venta_id : Z)
  (dets : list DetalleVentaCreate.t) (k : nat) : Session unit :=
  match dets with
  | [] => ret tt
  | det :: rest =>
      INSERT_detalle now (uuid4 k) (DetalleVentaCreate.producto_id det) venta_id
                     (DetalleVentaCreate.precio det) (DetalleVentaCreate.descuento det)
                     (DetalleVentaCreate.cantidad det) ;;;
      INSERT_detalles now uuid4 venta_id rest (S k)
  end.

(** [db.flush()] writes the sale; [db.commit()] writes what is pending,
    the sale before the line items that refer to it: the UPDATE of the
    total, then the INSERTs. *)
Definition create_venta (now : datetime) (uuid4 : nat -> string) (data : VentaCreate.t)
  : Session Venta.t :=
  venta <- INSERT_venta now (uuid4 O) (VentaCreate.cliente_id data) ;;
  let total := create_venta_loop (VentaCreate.detalles data) 0 in
  venta' <- UPDATE_venta_total now venta total ;;
  INSERT_detalles now uuid4 (Venta.id venta) (VentaCreate.detalles data) 1%nat ;;;
  ret venta'.

Definition get_venta (venta_id : Z) : Session (option Venta.t) :=
  first_by_id Venta.id ventas venta_id.

Definition list_ventas (skip limit : Z) : Session (list Venta.t) :=
  offset_limit ventas skip limit.

Definition delete_venta (venta_id : Z) : Session bool :=
  venta <- get_venta venta_id ;;
  match venta with
  | None => ret false
  | Some v => session_delete_venta v ;;; ret true
  end.

Definition update_venta (now : datetime) (venta_id : Z) (data : VentaUpdate.t)
  : Session (option Venta.t) :=
  venta <- get_venta venta_id ;;
  match venta with
  | None => ret None
  | Some v =>
      v' <- UPDATE_venta_cliente now v
              (setattr (VentaUpdate.cliente_id data) (Some (Venta.cliente_id v))) ;;
      ret (Some v')
  end.

(** ** crud.py: Reportes *)

Module ProductoMasVendido.
Record t := mk
  { producto_id : Z; nombre : string;
    total_cantidad : option Z; total_ingresos : option num }.
End ProductoMasVendido.

Module ClienteConMasVentas.
Record t := mk
  { cliente_id : Z; nombre : string; total_ventas : Z; total_monto : option Z }.
End ClienteConMasVentas.









(** ** crud.py: Detalles de venta *)

(** [COALESCE(SUM(...), 0)] over the line items of the sale. *)
Definition coalesce_sum (xs : list (option num)) : result num :=
  match SUM xs with
  | Ok (Some n) => Ok n
  | Ok None => Ok (Entero 0)
  | Raise e => Raise e
  end.

(** [int(suma or 0)]: the integer itself; of a REAL, the integer [real]
    that its truncation gives. *)
Definition int_suma (real : Z) (suma : num) : Z :=
  match suma with
  | Entero z => z
  | Real => real
  end.

Definition _recalcular_total_venta (now : datetime) (real : Z) (venta_id : Z)
  : Session unit :=
  suma <- select (fun db => coalesce_sum (map subtotal_sql (detalles_de venta_id db))) ;;
  venta <- query (fun db => find (fun v => Venta.id v =? venta_id) (ventas db)) ;;
  match venta with
  | Some v => UPDATE_venta_total now v (int_suma real suma) ;;; ret tt
  | None => ret tt
  end.

Definition create_detalle (now : datetime) (real : Z) (u : string)
  (data : DetalleVentaCreateStandalone.t) : Session DetalleVenta.t :=
  detalle <- INSERT_detalle now u
               (DetalleVentaCreateStandalone.producto_id data)
               (DetalleVentaCreateStandalone.venta_id data)
               (DetalleVentaCreateStandalone.precio data)
               (DetalleVentaCreateStandalone.descuento data)
               (DetalleVentaCreateStandalone.cantidad data) ;;
  _recalcular_total_venta now real (DetalleVentaCreateStandalone.venta_id data) ;;;
  ret detalle.

Definition get_detalle (detalle_id : Z) : Session (option DetalleVenta.t) :=
  first_by_id DetalleVenta.id detalles_ventas detalle_id.

Definition update_detalle (now : datetime) (real : Z) (detalle_id : Z)
  (data : DetalleVentaUpdate.t) : Session (option DetalleVenta.t) :=
  det <- get_detalle detalle_id ;;
  match det with
  | None => ret None
  | Some d =>
      d' <- UPDATE_detalle now d
              (setattr (DetalleVentaUpdate.precio data) (Some (DetalleVenta.precio d)))
              (setattr (DetalleVentaUpdate.descuento data) (DetalleVenta.descuento d))
              (setattr (DetalleVentaUpdate.cantidad data) (DetalleVenta.cantidad d)) ;;
      _recalcular_total_venta now real (DetalleVenta.venta_id d') ;;;
      ret (Some d')
  end.

Definition delete_detalle (now : datetime) (real : Z) (detalle_id : Z) : Session bool :=
  det <- get_detalle detalle_id ;;
  match det with
  | None => ret false
  | Some d =>
      let venta_id := DetalleVenta.venta_id d in
      session_delete_detalle d ;;;
      _recalcular_total_venta now real venta_id ;;;
      ret true
  end.

Definition list_detalles (skip limit : Z) : Session (list DetalleVenta.t) :=
  offset_limit detalles_ventas skip limit.

(** ** main.py: the line items of a sale *)

(** [listar_detalles_por_venta]: 404 ([None] here) when no sale has the
    id, otherwise [venta.detalles], which the relationship loads with
    [SELECT ... FROM detalles_ventas WHERE venta_id = ?]. *)
Definition listar_detalles_por_venta (venta_id : Z)
  : Session (option (list DetalleVenta.t)) :=
  venta <- get_venta venta_id ;;
  match venta with
  | None => ret None
  | Some v =>
      hijos <- query (detalles_de (Venta.id v)) ;;
      ret (Some hijos)
  end.

(** ** main.py: the requests that write, and the stores they reach *)

(** A request on line items carries [real], the integer the code would
    get from the engine should the sum of the sale be a REAL. *)
Inductive request : Type :=
| CreateCliente (u : string) (data : ClienteCreate.t)
| UpdateCliente (cliente_id : Z) (data : ClienteUpdate.t)
| DeleteCliente (cliente_id : Z)
| CreateProducto (u : string) (data : ProductoCreate.t)
| UpdateProducto (producto_id : Z) (data : ProductoUpdate.t)
| DeleteProducto (producto_id : Z)
| CreateVenta (uuid4 : nat -> string) (data : VentaCreate.t)
| UpdateVenta (venta_id : Z) (data : VentaUpdate.t)
| DeleteVenta (venta_id : Z)
| CreateDetalle (real : Z) (u : string) (data : DetalleVentaCreateStandalone.t)
| UpdateDetalle (real : Z) (detalle_id : Z) (data : DetalleVentaUpdate.t)
| DeleteDetalle (real : Z) (detalle_id : Z).

Definition handle (now : datetime) (r : request) (db : DB) : DB :=
  match r with
  | CreateCliente u data => snd (transaction (create_cliente now u data) db)
  | UpdateCliente i data => snd (transaction (update_cliente now i data) db)
  | DeleteCliente i => snd (transaction (delete_cliente i) db)
  | CreateProducto u data => snd (transaction (create_producto now u data) db)
  | UpdateProducto i data => snd (transaction (update_producto now i data) db)
  | DeleteProducto i => snd (transaction (delete_producto i) db)
  | CreateVenta uuid4 data => snd (transaction (create_venta now uuid4 data) db)
  | UpdateVenta i data => snd (transaction (update_venta now i data) db)
  | DeleteVenta i => snd (transaction (delete_venta i) db)
  | CreateDetalle real u data => snd (transaction (create_detalle now real u data) db)
  | UpdateDetalle real i data => snd (transaction (update_detalle now real i data) db)
  | DeleteDetalle real i => snd (transaction (delete_detalle now real i) db)
  end.

Inductive reachable : DB -> Prop :=
| reachable_empty : reachable empty_db
| reachable_step (db : DB) (now : datetime) (r : request) :
    reachable db -> reachable (handle now r db).

Definition run (rs : list (datetime * request)) (db : DB) : DB :=
  fold_left (fun acc nr => handle (fst nr) (snd nr) acc) rs db.

(** ** What the properties are stated with *)

(** The sum [(precio - descuento) * cantidad] over a batch of line items
    as they arrive in a [VentaCreate]. *)
Definition total_del_lote (dets : list DetalleVentaCreate.t) : Z :=
  fold_right Z.add 0
    (map (fun det => (DetalleVentaCreate.precio det - DetalleVentaCreate.descuento det)
                     * DetalleVentaCreate.cantidad det) dets).

(** Every line item points to a sale of the store. *)
Definition detalles_con_venta (db : DB) : bool :=
  forallb (fun d => existsb (fun v => Venta.id v =? DetalleVenta.venta_id d) (ventas db))
          (detalles_ventas db).

(** What [create_venta] needs from the store, from the request and from
    [uuid4] to go through: the customer and every product exist, no
    identifier drawn is already taken or drawn twice, and the price, the
    discount and the quantity of every line item and the total of the
    batch are 64-bit integers. *)
Fixpoint uuids_libres (uuid4 : nat -> string) (k n : nat) (taken : list string) : bool :=
  match n with
  | O => true
  | S n' => negb (existsb (String.eqb (uuid4 k)) taken)
            && uuids_libres uuid4 (S k) n' (taken ++ [uuid4 k])
  end.

Definition lote_int64 (dets : list DetalleVentaCreate.t) : bool :=
  forallb (fun det => int64 (DetalleVentaCreate.precio det)
                      && int64 (DetalleVentaCreate.descuento det)
                      && int64 (DetalleVentaCreate.cantidad det)) dets.

Definition create_venta_pre (uuid4 : nat -> string) (data : VentaCreate.t) (db : DB) : bool :=
  negb (existsb (fun v => String.eqb (Venta.uuid v) (uuid4 O)) (ventas db))
  && existsb (fun c => Cliente.id c =? VentaCreate.cliente_id data) (clientes db)
  && forallb (fun det => existsb (fun p => Producto.id p =? DetalleVentaCreate.producto_id det)
                                 (productos db))
             (VentaCreate.detalles data)
  && uuids_libres uuid4 1 (List.length (VentaCreate.detalles data))
                  (map DetalleVenta.uuid (detalles_ventas db))
  && lote_int64 (VentaCreate.detalles data)
  && int64 (total_del_lote (VentaCreate.detalles data)).











(** A primary key: no id twice. *)
Fixpoint unicos (ids : list Z) : bool :=
  match ids with
  | [] => true
  | i :: rest => negb (existsb (Z.eqb i) rest) && unicos rest
  end.

(** The values of a column that are not NULL, the sum of integers, and
    the sum of the values of a column that are not NULL: NULL when there
    is none. *)
Fixpoint no_nulos (xs : list (option Z)) : list Z :=
  match xs with
  | [] => []
  | None :: rest => no_nulos rest
  | Some a :: rest => a :: no_nulos rest
  end.

Definition suma (xs : list Z) : Z := fold_right Z.add 0 xs.

Definition suma_no_nula (xs : list (option Z)) : option Z :=
  match no_nulos xs with
  | [] => None
  | vs => Some (suma vs)
  end.

(** [(precio - descuento) * cantidad] of a line item as an integer: NULL
    when the discount or the quantity is. *)
Definition subtotal (d : DetalleVenta.t) : option Z :=
  match DetalleVenta.descuento d, DetalleVenta.cantidad d with
  | Some de, Some c => Some ((DetalleVenta.precio d - de) * c)
  | _, _ => None
  end.

(** The difference and the product of the line item are 64-bit integers:
    the engine computes its subtotal as an integer. *)
Definition en_enteros (d : DetalleVenta.t) : bool :=
  match DetalleVenta.descuento d, DetalleVenta.cantidad d with
  | Some de, Some c => int64 (DetalleVenta.precio d - de)
                       && int64 ((DetalleVenta.precio d - de) * c)
  | _, _ => true
  end.






(** ** Stores used as examples *)

Definition uuid_ej (k : nat) : string := String (Ascii.ascii_of_nat (97 + k)) EmptyString.

(** One customer, one product, one sale of one line item
    precio=100, descuento=10, cantidad=2. *)
Definition db_una_venta : DB :=
  run [ (1, CreateCliente "c1" (ClienteCreate.mk "Ana" "ana@example.com" "11111111-1"));
        (2, CreateProducto "p1" (ProductoCreate.mk "Pan" None 100));
        (3, CreateVenta uuid_ej (VentaCreate.mk 1 [DetalleVentaCreate.mk 1 100 10 2])) ]
      empty_db.


(** Two customers: Ana with one sale, Eva with three. *)
Definition db_ranking_clientes : DB :=
  run [ (1, CreateCliente "c1" (ClienteCreate.mk "Ana" "ana@example.com" "11111111-1"));
        (2, CreateCliente "c2" (ClienteCreate.mk "Eva" "eva@example.com" "22222222-2"));
        (3, CreateProducto "p1" (ProductoCreate.mk "Pan" None 100));
        (4, CreateVenta (fun k => uuid_ej k) (VentaCreate.mk 1 [DetalleVentaCreate.mk 1 100 0 1]));
        (5, CreateVenta (fun k => uuid_ej (k + 2)) (VentaCreate.mk 2 [DetalleVentaCreate.mk 1 100 0 2]));
        (6, CreateVenta (fun k => uuid_ej (k + 4)) (VentaCreate.mk 2 [DetalleVentaCreate.mk 1 100 10 1]));
        (7, CreateVenta (fun k => uuid_ej (k + 6)) (VentaCreate.mk 2 [])) ]
      empty_db.

(** One customer and one product, no sale yet. *)
Definition db_sin_ventas : DB :=
  run [ (1, CreateCliente "c1" (ClienteCreate.mk "Ana" "ana@example.com" "11111111-1"));
        (2, CreateProducto "p1" (ProductoCreate.mk "Pan" None 100)) ]
      empty_db.

(** [db_una_venta] after [PUT /detalles/1] with the body
    [{"descuento": null}]. *)
Definition db_descuento_nulo : DB :=
  run [ (4, UpdateDetalle 0 1 (DetalleVentaUpdate.mk Unset (SetTo None) Unset)) ]
      db_una_venta.

(** ** The invariant of the stored total *)

(** The sum of [(precio - descuento) * cantidad] over line items, as an
    integer: there is one when every line item has a discount and a
    quantity. *)
Fixpoint suma_exacta (xs : list (option Z)) : option Z :=
  match xs with
  | [] => Some 0
  | None :: _ => None
  | Some a :: rest =>
      match suma_exacta rest with
      | Some s => Some (a + s)
      | None => None
      end
  end.

Definition total_es_suma (db : DB) : Prop :=
  forall v, In v (ventas db) ->
    suma_exacta (map subtotal (detalles_de (Venta.id v) db)) = Some (Venta.total v).

(** The same for the sales whose line items the engine computes in
    integers. *)
Definition total_es_suma_en_enteros (db : DB) : Prop :=
  forall v, In v (ventas db) ->
    forallb en_enteros (detalles_de (Venta.id v) db) = true ->
    suma_exacta (map subtotal (detalles_de (Venta.id v) db)) = Some (Venta.total v).

(** What the stored total is after the creation of the sale and after
    every recomputation: the sum of the subtotals that are not NULL,
    unless the subtotal of some line item is a REAL. *)
Definition cuadra (total : Z) (items : list DetalleVenta.t) : Prop :=
  forallb en_enteros items = true -> total = suma (no_nulos (map subtotal items)).

Definition total_es_suma_sql (db : DB) : Prop :=
  forall v, In v (ventas db) -> cuadra (Venta.total v) (detalles_de (Venta.id v) db).

(** The primary keys and the foreign key of the line items to the sales. *)
Definition integra (db : DB) : bool :=
  unicos (map Cliente.id (clientes db))
  && unicos (map Producto.id (productos db))
  && unicos (map Venta.id (ventas db))
  && unicos (map DetalleVenta.id (detalles_ventas db))
  && detalles_con_venta db.

(** The same as propositions, with the total as the recomputation stores
    it: what every request keeps. *)
Definition Inv (db : DB) : Prop :=
  NoDup (map Cliente.id (clientes db))
  /\ NoDup (map Producto.id (productos db))
  /\ NoDup (map Venta.id (ventas db))
  /\ NoDup (map DetalleVenta.id (detalles_ventas db))
  /\ (forall d, In d (detalles_ventas db) ->
        exists v, In v (ventas db) /\ Venta.id v = DetalleVenta.venta_id d)
  /\ total_es_suma_sql db.

(** The same between the write of a line item of sale [venta_id] and the
    recomputation of that sale: its total is still to be set. *)
Definition Inv_salvo (venta_id : Z) (db : DB) : Prop :=
  NoDup (map Cliente.id (clientes db))
  /\ NoDup (map Producto.id (productos db))
  /\ NoDup (map Venta.id (ventas db))
  /\ NoDup (map DetalleVenta.id (detalles_ventas db))
  /\ (forall d, In d (detalles_ventas db) ->
        exists v, In v (ventas db) /\ Venta.id v = DetalleVenta.venta_id d)
  /\ (forall v, In v (ventas db) -> Venta.id v <> venta_id ->
        cuadra (Venta.total v) (detalles_de (Venta.id v) db)).

(** Requests that send no explicit [null] for the discount or the
    quantity of a line item, and stores without such NULLs. *)
Definition no_null {A} (f : field A) : bool :=
  match f with
  | SetTo None => false
  | _ => true
  end.

Definition request_sin_nulos (r : request) : bool :=
  match r with
  | UpdateDetalle _ _ data =>
      no_null (DetalleVentaUpdate.descuento data)
      && no_null (DetalleVentaUpdate.cantidad data)
  | _ => true
  end.

Definition sin_nulos (db : DB) : Prop :=
  forall d, In d (detalles_ventas db) ->
    DetalleVenta.descuento d <> None /\ DetalleVenta.cantidad d <> None.

(** ** The constraints of the schema, on a store *)

(** [ForeignKey("clientes.id")] and [ForeignKey("productos.id")]. *)
Definition ventas_con_cliente (db : DB) : bool :=
  forallb (fun v => existsb (fun c => Cliente.id c =? Venta.cliente_id v) (clientes db))
          (ventas db).

Definition detalles_con_producto (db : DB) : bool :=
  forallb (fun d => existsb (fun p => Producto.id p =? DetalleVenta.producto_id d)
                            (productos db))
          (detalles_ventas db).

(** [unique=True] on [uuid], [email] and [rut]. *)
Fixpoint unicas (l : list string) : bool :=
  match l with
  | [] => true
  | s :: rest => negb (existsb (String.eqb s) rest) && unicas rest
  end.

Definition unicidad (db : DB) : bool :=
  unicas (map Cliente.uuid (clientes db))
  && unicas (map Cliente.email (clientes db))
  && unicas (map Cliente.rut (clientes db))
  && unicas (map Producto.uuid (productos db))
  && unicas (map Venta.uuid (ventas db))
  && unicas (map DetalleVenta.uuid (detalles_ventas db)).

(** Ids in strictly increasing order, as a scan of the table meets them. *)
Fixpoint ascendente (ids : list Z) : bool :=
  match ids with
  | [] => true
  | i :: rest =>
      match rest with
      | [] => true
      | j :: _ => (i <? j) && ascendente rest
      end
  end.

Definition ids_ascendentes (db : DB) : bool :=
  ascendente (map Cliente.id (clientes db))
  && ascendente (map Producto.id (productos db))
  && ascendente (map Venta.id (ventas db))
  && ascendente (map DetalleVenta.id (detalles_ventas db)).

(** The stored total of every sale is what the recomputation would
    store, when the sum of the engine over its line items is an integer
    or NULL. *)
Definition totales_ok (db : DB) : bool :=
  forallb (fun v =>
             match coalesce_sum (map subtotal_sql (detalles_de (Venta.id v) db)) with
             | Ok (Entero s) => Venta.total v =? s
             | _ => true
             end)
          (ventas db).

(** The constraints as propositions, and what it is for a computation of
    the session to keep a property of the store. *)
Definition Esquema (db : DB) : Prop :=
  StronglySorted Z.lt (map Cliente.id (clientes db))
  /\ StronglySorted Z.lt (map Producto.id (productos db))
  /\ StronglySorted Z.lt (map Venta.id (ventas db))
  /\ StronglySorted Z.lt (map DetalleVenta.id (detalles_ventas db))
  /\ (forall v, In v (ventas db) ->
        exists c, In c (clientes db) /\ Cliente.id c = Venta.cliente_id v)
  /\ (forall d, In d (detalles_ventas db) ->
        exists p, In p (productos db) /\ Producto.id p = DetalleVenta.producto_id d)
  /\ (forall d, In d (detalles_ventas db) ->
        exists v, In v (ventas db) /\ Venta.id v = DetalleVenta.venta_id d)
  /\ NoDup (map Cliente.uuid (clientes db))
  /\ NoDup (map Cliente.email (clientes db))
  /\ NoDup (map Cliente.rut (clientes db))
  /\ NoDup (map Producto.uuid (productos db))
  /\ NoDup (map Venta.uuid (ventas db))
  /\ NoDup (map DetalleVenta.uuid (detalles_ventas db)).

Definition preserves {A} (P : DB -> Prop) (m : Session A) : Prop :=
  forall db a db', P db -> m db = Ok (a, db') -> P db'.

(** A computation of the session returns, on a store, a value with a
    property. *)
Definition devuelve {A} (m : Session A) (db : DB) (P : A -> Prop) : Prop :=
  exists a db', m db = Ok (a, db') /\ P a.

(** What a line item carries of the request that made it: the product,
    the price, the discount and the quantity. *)
Definition linea (d : DetalleVenta.t) : Z * Z * option Z * option Z :=
  (DetalleVenta.producto_id d, DetalleVenta.precio d,
   DetalleVenta.descuento d, DetalleVenta.cantidad d).

Definition linea_pedida (det : DetalleVentaCreate.t) : Z * Z * option Z * option Z :=
  (DetalleVentaCreate.producto_id det, DetalleVentaCreate.precio det,
   Some (DetalleVentaCreate.descuento det), Some (DetalleVentaCreate.cantidad det)).



(** ** The tables a request can write *)

(** Read off the functions of crud.py behind each request: which tables
    carry an INSERT, UPDATE or DELETE of theirs, cascades and the
    recomputation of the total included. *)
Definition escribe_clientes (r : request) : bool :=
  match r with
  | CreateCliente _ _ | UpdateCliente _ _ | DeleteCliente _ => true
  | _ => false
  end.

Definition escribe_productos (r : request) : bool :=
  match r with
  | CreateProducto _ _ | UpdateProducto _ _ | DeleteProducto _ => true
  | _ => false
  end.

Definition escribe_ventas (r : request) : bool :=
  match r with
  | DeleteCliente _
  | CreateVenta _ _ | UpdateVenta _ _ | DeleteVenta _
  | CreateDetalle _ _ _ | UpdateDetalle _ _ _ | DeleteDetalle _ _ => true
  | _ => false
  end.

Definition escribe_detalles (r : request) : bool :=
  match r with
  | DeleteCliente _
  | CreateVenta _ _ | DeleteVenta _
  | CreateDetalle _ _ _ | UpdateDetalle _ _ _ | DeleteDetalle _ _ => true
  | _ => false
  end.

(** ** The session monad *)

Lemma bind_Ok {A B} (m : Session A) (k : A -> Session B) db b db2 :
  bind m k db = Ok (b, db2) ->
  exists a db1, m db = Ok (a, db1) /\ k a db1 = Ok (b, db2).
Proof.
  unfold bind. destruct (m db) as [[a db1]|e]; [|discriminate].
  intros H. exists a, db1. split; [reflexivity|exact H].
Qed.

Lemma bind_eq {A B} (m : Session A) (k : A -> Session B) db a db1 :
  m db = Ok (a, db1) -> bind m k db = k a db1.
Proof. unfold bind. intros ->. reflexivity. Qed.

Lemma constraint_Ok holds db u db' :
  constraint holds db = Ok (u, db') -> holds db = true /\ db' = db.
Proof.
  unfold constraint. destruct (holds db); [|discriminate].
  intros H. inversion H. split; reflexivity.
Qed.

Lemma constraint_true holds db :
  holds db = true -> constraint holds db = Ok (tt, db).
Proof. unfold constraint. intros ->. reflexivity. Qed.

Lemma not_null_Ok {A} (v : option A) db a db' :
  not_null v db = Ok (a, db') -> v = Some a /\ db' = db.
Proof.
  destruct v as [x|]; simpl; [|discriminate]. unfold ret. intros H.
  inversion H. split; reflexivity.
Qed.

Lemma bind_Raise {A B} (m : Session A) (k : A -> Session B) db e :
  m db = Raise e -> bind m k db = Raise e.
Proof. unfold bind. intros ->. reflexivity. Qed.

Lemma constraint_false holds db :
  holds db = false -> constraint holds db = Raise IntegrityError.
Proof. unfold constraint. intros ->. reflexivity. Qed.

Lemma params_Ok zs db u db' :
  params zs db = Ok (u, db') -> forallb int64 zs = true /\ db' = db.
Proof.
  unfold params. destruct (forallb int64 zs); [|discriminate].
  intros H. inversion H. split; reflexivity.
Qed.

Lemma params_true zs db : forallb int64 zs = true -> params zs db = Ok (tt, db).
Proof. unfold params. intros ->. reflexivity. Qed.

Lemma params_false zs db : forallb int64 zs = false -> params zs db = Raise OverflowError.
Proof. unfold params. intros ->. reflexivity. Qed.

Lemma param_key_Ok held z db u db' :
  param_key held z db = Ok (u, db') -> (held db = true \/ int64 z = true) /\ db' = db.
Proof.
  unfold param_key. destruct (held db || int64 z) eqn:E; [|discriminate].
  intros H. inversion H; subst. apply orb_true_iff in E. split; [exact E|reflexivity].
Qed.

Lemma param_key_held held z db : held db = true -> param_key held z db = Ok (tt, db).
Proof. unfold param_key. intros ->. reflexivity. Qed.

Lemma param_key_int64 held z db : int64 z = true -> param_key held z db = Ok (tt, db).
Proof. unfold param_key. intros ->. rewrite orb_true_r. reflexivity. Qed.

Lemma param_key_false held z db :
  held db = false -> int64 z = false -> param_key held z db = Raise OverflowError.
Proof. unfold param_key. intros -> ->. reflexivity. Qed.

Lemma select_Ok {A} (q : DB -> result A) db a db' :
  select q db = Ok (a, db') -> q db = Ok a /\ db' = db.
Proof.
  unfold select. destruct (q db) as [x|e]; [|discriminate].
  intros H. inversion H. split; reflexivity.
Qed.

Ltac session_inv H :=
  match type of H with
  | bind _ _ _ = Ok _ =>
      let a := fresh "a" in let db1 := fresh "db" in
      let H1 := fresh "H" in let H2 := fresh "H" in
      apply bind_Ok in H; destruct H as (a & db1 & H1 & H2);
      session_inv H1; session_inv H2
  | constraint _ _ = Ok _ =>
      let H1 := fresh "Hc" in
      apply constraint_Ok in H; destruct H as [H1 ->]
  | params _ _ = Ok _ =>
      let H1 := fresh "Hpar" in
      apply params_Ok in H; destruct H as [H1 ->]
  | param_key _ _ _ = Ok _ =>
      let H1 := fresh "Hkey" in
      apply param_key_Ok in H; destruct H as [H1 ->]
  | select _ _ = Ok _ =>
      let H1 := fresh "Hsel" in
      apply select_Ok in H; destruct H as [H1 ->]
  | not_null _ _ = Ok _ =>
      let H1 := fresh "Hnn" in
      apply not_null_Ok in H; destruct H as [H1 ->]
  | ret _ _ = Ok _ => unfold ret in H; inversion H; subst; clear H
  | query _ _ = Ok _ => unfold query in H; inversion H; subst; clear H
  | _ => idtac
  end.

(** ** Rowids *)

Lemma fold_left_max_ge (l : list Z) (a : Z) :
  a <= fold_left Z.max l a /\ forall i, In i l -> i <= fold_left Z.max l a.
Proof.
  revert a. induction l as [|x l IH]; intros a; simpl.
  - split; [lia|intros i []].
  - destruct (IH (Z.max a x)) as [H1 H2]. split; [lia|].
    intros i [<-|Hi]; [lia|auto].
Qed.

Lemma next_rowid_fresh (ids : list Z) (i : Z) : In i ids -> i < next_rowid ids.
Proof.
  destruct ids as [|a l]; [intros []|].
  unfold next_rowid. destruct (fold_left_max_ge l a) as [H1 H2].
  intros [<-|Hi]; [lia|]. specialize (H2 i Hi). lia.
Qed.

(** ** Lists *)

Lemma existsb_map_eq {A B} (f : A -> B) (p : B -> bool) (l : list A) :
  existsb p (map f l) = existsb (fun a => p (f a)) l.
Proof. induction l as [|a l IH]; simpl; [reflexivity|]. rewrite IH. reflexivity. Qed.

Lemma existsb_false_iff {A} (p : A -> bool) (l : list A) :
  existsb p l = false <-> forall a, In a l -> p a = false.
Proof.
  induction l as [|x l IH]; simpl.
  - split; [intros _ a []|reflexivity].
  - rewrite orb_false_iff, IH. split.
    + intros [Hx Hl] a [<-|Ha]; auto.
    + intros H. split; [apply H; auto|intros a Ha; apply H; auto].
Qed.

Lemma existsb_ext_eq {A} (p q : A -> bool) (l : list A) :
  (forall a, p a = q a) -> existsb p l = existsb q l.
Proof.
  intros H. induction l as [|a l IH]; simpl; [reflexivity|]. rewrite H, IH. reflexivity.
Qed.

Lemma unicos_NoDup (ids : list Z) : unicos ids = true -> NoDup ids.
Proof.
  induction ids as [|i ids IH]; simpl; intros H; constructor.
  - apply andb_prop in H. destruct H as [H _]. apply negb_true_iff in H.
    rewrite existsb_false_iff in H. intros Hin. specialize (H i Hin).
    rewrite Z.eqb_refl in H. discriminate.
  - apply IH. apply andb_prop in H. apply H.
Qed.

Lemma pid_inj {P} (pid : P -> Z) (ps : list P) (p q : P) :
  NoDup (map pid ps) -> In p ps -> In q ps -> pid p = pid q -> p = q.
Proof.
  induction ps as [|x ps IH]; intros Hnd Hp Hq E; [destruct Hp|].
  simpl in Hnd. inversion Hnd as [|? ? Hx Hnd']; subst.
  destruct Hp as [->|Hp], Hq as [->|Hq]; auto.
  - destruct Hx. rewrite E. apply in_map. exact Hq.
  - destruct Hx. rewrite <- E. apply in_map. exact Hp.
Qed.

Lemma filter_nil_iff {A} (p : A -> bool) (l : list A) :
  (forall a, In a l -> p a = false) -> filter p l = [].
Proof.
  induction l as [|x l IH]; intros H; simpl; [reflexivity|].
  rewrite (H x (or_introl eq_refl)). apply IH. intros a Ha. apply H. right. exact Ha.
Qed.

Lemma existsb_false_filter_nil {A} (p : A -> bool) (l : list A) :
  existsb p l = false -> filter p l = [].
Proof. intros H. apply filter_nil_iff. apply existsb_false_iff. exact H. Qed.

Lemma map_update_absent {A} (id : A -> Z) (set : A -> A) (i : Z) (l : list A) :
  (forall r, In r l -> id r <> i) ->
  map (fun r => if id r =? i then set r else r) l = l.
Proof.
  induction l as [|x l IH]; intros H; simpl; [reflexivity|].
  rewrite IH by (intros r Hr; apply H; right; exact Hr).
  replace (id x =? i) with false; [reflexivity|].
  symmetry. apply Z.eqb_neq. apply H. left. reflexivity.
Qed.

Lemma find_snoc_fresh {A} (id : A -> Z) (l : list A) (a : A) (i : Z) :
  i = next_rowid (map id l) -> id a = i ->
  find (fun r => id r =? i) (l ++ [a]) = Some a.
Proof.
  intros E Ea.
  assert (H : forall r, In r l -> (id r =? i) = false).
  { intros r Hr. apply Z.eqb_neq. rewrite E.
    pose proof (next_rowid_fresh (map id l) (id r) (in_map id _ _ Hr)). lia. }
  clear E. induction l as [|x l IH]; simpl.
  - rewrite Ea, Z.eqb_refl. reflexivity.
  - rewrite (H x (or_introl eq_refl)). apply IH. intros r Hr. apply H. right. exact Hr.
Qed.

Lemma find_map_update {A} (id : A -> Z) (set : A -> A) (i : Z) (l : list A) (c : A) :
  (forall r, id (set r) = id r) ->
  find (fun r => id r =? i) l = Some c ->
  find (fun r => id r =? i) (map (fun r => if id r =? id c then set r else r) l)
  = Some (set c).
Proof.
  intros Hset Hfind.
  assert (Hc : id c = i) by (apply find_some in Hfind; apply Z.eqb_eq; apply Hfind).
  rewrite Hc. clear Hc. induction l as [|x l IH]; simpl in *; [discriminate|].
  destruct (id x =? i) eqn:E.
  - inversion Hfind; subst. rewrite Hset, E. reflexivity.
  - rewrite E. apply IH. exact Hfind.
Qed.

Lemma filter_snoc_fresh {A} (id : A -> Z) (l : list A) (a : A) :
  id a = next_rowid (map id l) ->
  filter (fun r => negb (id r =? id a)) (l ++ [a]) = l.
Proof.
  intros E. rewrite filter_app. simpl. rewrite Z.eqb_refl. simpl. rewrite app_nil_r.
  apply forallb_filter_id. apply forallb_forall. intros r Hr.
  apply negb_true_iff. apply Z.eqb_neq. rewrite E.
  pose proof (next_rowid_fresh (map id l) (id r) (in_map id _ _ Hr)). lia.
Qed.

Lemma filter_snoc_at {A} (id : A -> Z) (l : list A) (a : A) (i : Z) :
  i = next_rowid (map id l) -> id a = i ->
  filter (fun r => negb (id r =? i)) (l ++ [a]) = l.
Proof. intros -> E. rewrite <- E. apply filter_snoc_fresh. exact E. Qed.

Lemma with_clientes_same db : with_clientes (clientes db) db = db.
Proof. destruct db; reflexivity. Qed.

Lemma with_productos_same db : with_productos (productos db) db = db.
Proof. destruct db; reflexivity. Qed.

Lemma fk_fresh {C P} (fk : C -> Z) (pid : P -> Z) (cs : list C) (ps : list P) :
  forallb (fun c => existsb (fun p => pid p =? fk c) ps) cs = true ->
  existsb (fun c => fk c =? next_rowid (map pid ps)) cs = false.
Proof.
  intros H. apply existsb_false_iff. intros c Hc.
  rewrite forallb_forall in H. specialize (H c Hc).
  apply existsb_exists in H. destruct H as (p & Hp & E). apply Z.eqb_eq in E.
  apply Z.eqb_neq. rewrite <- E.
  pose proof (next_rowid_fresh (map pid ps) (pid p) (in_map pid _ _ Hp)). lia.
Qed.

Lemma fk_forallb {C P} (fk : C -> Z) (pid : P -> Z) (cs : list C) (ps : list P) :
  (forall c, In c cs -> exists p, In p ps /\ pid p = fk c) ->
  forallb (fun c => existsb (fun p => pid p =? fk c) ps) cs = true.
Proof.
  intros H. apply forallb_forall. intros c Hc. destruct (H c Hc) as (p & Hp & E).
  apply existsb_exists. exists p. split; [exact Hp|]. apply Z.eqb_eq. exact E.
Qed.

Lemma transaction_Ok {A} (m : Session A) db a db' :
  transaction m db = (Ok a, db') <-> m db = Ok (a, db').
Proof.
  unfold transaction. destruct (m db) as [[x d]|e]; split; intros H;
    inversion H; subst; reflexivity.
Qed.

Lemma find_existsb {A} (p : A -> bool) (l : list A) (a : A) :
  find p l = Some a -> existsb p l = true.
Proof.
  intros H. apply find_some in H. apply existsb_exists. exists a. exact H.
Qed.

Lemma find_none_existsb {A} (p : A -> bool) (l : list A) :
  find p l = None -> existsb p l = false.
Proof.
  intros H. apply existsb_false_iff. intros a Ha. exact (find_none p l H a Ha).
Qed.

Lemma transaction_Raise {A} (m : Session A) db e :
  m db = Raise e -> transaction m db = (Raise e, db).
Proof. unfold transaction. intros ->. reflexivity. Qed.

(** ** Reading by id *)

Lemma first_by_id_found {A} (id : A -> Z) (tabla : DB -> list A) i db a :
  find (fun r => id r =? i) (tabla db) = Some a ->
  first_by_id id tabla i db = Ok (Some a, db).
Proof.
  intros F. unfold first_by_id.
  rewrite (bind_eq _ _ db tt db); [unfold query; rewrite F; reflexivity|].
  apply param_key_held. exact (find_existsb _ _ _ F).
Qed.

Lemma first_by_id_missing {A} (id : A -> Z) (tabla : DB -> list A) i db :
  find (fun r => id r =? i) (tabla db) = None -> int64 i = true ->
  first_by_id id tabla i db = Ok (None, db).
Proof.
  intros F Hi. unfold first_by_id.
  rewrite (bind_eq _ _ db tt db); [unfold query; rewrite F; reflexivity|].
  apply param_key_int64. exact Hi.
Qed.

Lemma first_by_id_overflow {A} (id : A -> Z) (tabla : DB -> list A) i db :
  find (fun r => id r =? i) (tabla db) = None -> int64 i = false ->
  first_by_id id tabla i db = Raise OverflowError.
Proof.
  intros F Hi. unfold first_by_id. apply bind_Raise.
  apply param_key_false; [exact (find_none_existsb _ _ F)|exact Hi].
Qed.

Lemma first_by_id_Ok {A} (id : A -> Z) (tabla : DB -> list A) i db r db' :
  first_by_id id tabla i db = Ok (r, db') ->
  db' = db /\ r = find (fun r => id r =? i) (tabla db)
  /\ (r = None -> int64 i = true).
Proof.
  unfold first_by_id. intros H.
  apply bind_Ok in H. destruct H as ([] & db1 & Hk & H).
  apply param_key_Ok in Hk. destruct Hk as [Hk ->].
  unfold query in H. inversion H; subst. split; [reflexivity|]. split; [reflexivity|].
  intros F. destruct Hk as [Hk|Hk]; [|exact Hk].
  rewrite (find_none_existsb _ _ F) in Hk. discriminate.
Qed.

(** Either way of a lookup: the row, or none and then the id is a 64-bit
    integer, or [OverflowError]. *)
Lemma first_by_id_cases {A} (id : A -> Z) (tabla : DB -> list A) i db :
  (exists a, find (fun r => id r =? i) (tabla db) = Some a
             /\ first_by_id id tabla i db = Ok (Some a, db))
  \/ (find (fun r => id r =? i) (tabla db) = None
      /\ first_by_id id tabla i db = Ok (None, db))
  \/ (find (fun r => id r =? i) (tabla db) = None
      /\ first_by_id id tabla i db = Raise OverflowError).
Proof.
  destruct (find (fun r => id r =? i) (tabla db)) as [a|] eqn:F.
  - left. exists a. split; [reflexivity|]. apply first_by_id_found. exact F.
  - right. destruct (int64 i) eqn:Hi.
    + left. split; [reflexivity|]. apply first_by_id_missing; assumption.
    + right. split; [reflexivity|]. apply first_by_id_overflow; assumption.
Qed.

(** ** create_venta *)

Ltac ok_inv :=
  match goal with
  | H : _ = Ok (_, _) |- _ => cbv beta zeta in H; inversion H; subst; clear H
  end.

Lemma INSERT_detalle_Ok now u p v pr de ca db row db' :
  INSERT_detalle now u p v pr de ca db = Ok (row, db') ->
  row = DetalleVenta.mk (next_rowid (map DetalleVenta.id (detalles_ventas db)))
                        u p v pr (Some de) (Some ca) now now
  /\ db' = with_detalles (detalles_ventas db ++ [row]) db
  /\ existsb (fun x => Producto.id x =? p) (productos db) = true
  /\ existsb (fun x => Venta.id x =? v) (ventas db) = true
  /\ existsb (fun d => String.eqb (DetalleVenta.uuid d) u) (detalles_ventas db) = false
  /\ int64 pr && int64 de && int64 ca = true.
Proof.
  unfold INSERT_detalle. intros H.
  apply bind_Ok in H. destruct H as ([] & db1 & Hpar & H).
  apply params_Ok in Hpar. destruct Hpar as [Hpar ->].
  apply bind_Ok in H. destruct H as ([] & db1 & Hk1 & H).
  apply param_key_Ok in Hk1. destruct Hk1 as [_ ->].
  apply bind_Ok in H. destruct H as ([] & db1 & Hk2 & H).
  apply param_key_Ok in Hk2. destruct Hk2 as [_ ->].
  apply bind_Ok in H. destruct H as ([] & db1 & Hc & H).
  apply constraint_Ok in Hc. destruct Hc as [Hc ->].
  apply andb_prop in Hc. destruct Hc as [Hc Hv].
  apply andb_prop in Hc. destruct Hc as [Hu Hp].
  apply negb_true_iff in Hu.
  inversion H; subst. simpl in Hpar. rewrite andb_true_r in Hpar.
  rewrite andb_assoc in Hpar. auto 10.
Qed.

Lemma INSERT_detalle_succeeds now u p v pr de ca db :
  int64 pr && int64 de && int64 ca = true ->
  existsb (fun x => Producto.id x =? p) (productos db) = true ->
  existsb (fun x => Venta.id x =? v) (ventas db) = true ->
  existsb (fun d => String.eqb (DetalleVenta.uuid d) u) (detalles_ventas db) = false ->
  exists row,
    INSERT_detalle now u p v pr de ca db
    = Ok (row, with_detalles (detalles_ventas db ++ [row]) db).
Proof.
  intros Hpar Hp Hv Hu. unfold INSERT_detalle.
  rewrite (bind_eq _ _ db tt db).
  2:{ apply params_true. simpl. rewrite andb_true_r, andb_assoc. exact Hpar. }
  rewrite (bind_eq _ _ db tt db) by (apply param_key_held; exact Hp).
  rewrite (bind_eq _ _ db tt db) by (apply param_key_held; exact Hv).
  rewrite (bind_eq _ _ db tt db).
  2:{ apply constraint_true. rewrite Hu, Hp, Hv. reflexivity. }
  eexists. reflexivity.
Qed.

Lemma create_venta_loop_total (dets : list DetalleVentaCreate.t) : forall total,
  create_venta_loop dets total = total + total_del_lote dets.
Proof.
  induction dets as [|det rest IH]; intros total; simpl.
  - unfold total_del_lote. simpl. lia.
  - rewrite IH. unfold total_del_lote. simpl. lia.
Qed.

Lemma subtotal_linea (d : DetalleVenta.t) (det : DetalleVentaCreate.t) :
  linea d = linea_pedida det ->
  subtotal d = Some ((DetalleVentaCreate.precio det - DetalleVentaCreate.descuento det)
                     * DetalleVentaCreate.cantidad det).
Proof.
  unfold linea, linea_pedida, subtotal. intros H. inversion H as [[H1 H2 H3 H4]].
  rewrite H3, H4, H2. reflexivity.
Qed.

Lemma INSERT_detalles_Ok now uuid4 vid dets : forall k db x db',
  INSERT_detalles now uuid4 vid dets k db = Ok (x, db') ->
  clientes db' = clientes db /\ productos db' = productos db
  /\ ventas db' = ventas db
  /\ lote_int64 dets = true
  /\ forallb (fun det => existsb (fun p => Producto.id p =? DetalleVentaCreate.producto_id det)
                                 (productos db)) dets = true
  /\ exists nuevos,
       detalles_ventas db' = detalles_ventas db ++ nuevos
       /\ Forall (fun d => DetalleVenta.venta_id d = vid) nuevos
       /\ map linea nuevos = map linea_pedida dets
       /\ Forall (fun d => forall o, In o (detalles_ventas db) ->
                                     DetalleVenta.id o < DetalleVenta.id d) nuevos.
Proof.
  induction dets as [|det rest IH]; intros k db x db' H; simpl in H.
  - unfold ret in H. inversion H; subst.
    repeat split. exists []. rewrite app_nil_r. auto.
  - apply bind_Ok in H. destruct H as (row & db1 & Hins & H).
    apply INSERT_detalle_Ok in Hins. destruct Hins as (Hrow & -> & Hp & _ & _ & Hpar).
    apply IH in H. destruct H as (Hc & Hpr & Hv & Hl & Hps & nuevos & Hd & Hvid & Hlin & Hid).
    simpl in Hc, Hpr, Hv, Hd, Hid, Hps.
    split; [exact Hc|]. split; [exact Hpr|]. split; [exact Hv|].
    split; [simpl; rewrite Hpar, Hl; reflexivity|].
    split; [simpl; rewrite Hp, Hps; reflexivity|].
    exists (row :: nuevos). rewrite Hd, <- app_assoc. split; [reflexivity|].
    split; [constructor; [rewrite Hrow; reflexivity|exact Hvid]|].
    split; [simpl; rewrite Hlin, Hrow; reflexivity|].
    constructor.
    + intros o Ho. rewrite Hrow. simpl.
      apply next_rowid_fresh. apply in_map. exact Ho.
    + eapply Forall_impl; [|exact Hid]. intros d Hd' o Ho. apply Hd'.
      apply in_or_app. left. exact Ho.
Qed.

Lemma INSERT_detalles_succeeds now uuid4 vid dets : forall k db,
  lote_int64 dets = true ->
  forallb (fun det => existsb (fun p => Producto.id p =? DetalleVentaCreate.producto_id det)
                              (productos db)) dets = true ->
  existsb (fun v => Venta.id v =? vid) (ventas db) = true ->
  uuids_libres uuid4 k (List.length dets) (map DetalleVenta.uuid (detalles_ventas db)) = true ->
  exists db', INSERT_detalles now uuid4 vid dets k db = Ok (tt, db').
Proof.
  induction dets as [|det rest IH]; intros k db Hl Hp Hv Hu; simpl.
  - eexists. reflexivity.
  - simpl in Hl, Hp, Hu. apply andb_prop in Hl. destruct Hl as [Hl1 Hl2].
    apply andb_prop in Hp. destruct Hp as [Hp1 Hp2].
    apply andb_prop in Hu. destruct Hu as [Hu1 Hu2].
    destruct (INSERT_detalle_succeeds now (uuid4 k) (DetalleVentaCreate.producto_id det) vid
                (DetalleVentaCreate.precio det) (DetalleVentaCreate.descuento det)
                (DetalleVentaCreate.cantidad det) db Hl1 Hp1 Hv) as (row & Hins).
    { apply negb_true_iff in Hu1. rewrite existsb_map_eq in Hu1.
      erewrite existsb_ext_eq; [exact Hu1|].
      intros d. cbv beta. apply String.eqb_sym. }
    rewrite (bind_eq _ _ _ _ _ Hins).
    assert (Hrow : DetalleVenta.uuid row = uuid4 k).
    { apply INSERT_detalle_Ok in Hins. destruct Hins as (-> & _). reflexivity. }
    apply IH; simpl; try assumption.
    rewrite map_app. simpl. rewrite Hrow. exact Hu2.
Qed.

Lemma UPDATE_venta_total_Ok now v total db v' db' :
  UPDATE_venta_total now v total db = Ok (v', db') ->
  v' = (if total =? Venta.total v then v
        else Venta.mk (Venta.id v) (Venta.uuid v) (Venta.fecha v) total
                      (Venta.created_at v) now (Venta.cliente_id v))
  /\ Venta.total v' = total
  /\ clientes db' = clientes db /\ productos db' = productos db
  /\ detalles_ventas db' = detalles_ventas db
  /\ ventas db'
     = map (fun r => if Venta.id r =? Venta.id v
                     then (if total =? Venta.total v then r
                           else Venta.mk (Venta.id r) (Venta.uuid r) (Venta.fecha r) total
                                         (Venta.created_at r) now (Venta.cliente_id r))
                     else r) (ventas db)
  /\ (total = Venta.total v \/ int64 total = true).
Proof.
  unfold UPDATE_venta_total. destruct (total =? Venta.total v) eqn:E; intros H.
  - unfold ret in H. inversion H; subst. apply Z.eqb_eq in E.
    repeat split; auto.
    rewrite <- (map_id (ventas db')) at 1. apply map_ext.
    intros r. destruct (Venta.id r =? Venta.id v'); reflexivity.
  - apply bind_Ok in H. destruct H as ([] & db1 & Hpar & H).
    apply params_Ok in Hpar. destruct Hpar as [Hpar ->].
    unfold UPDATE_ventas in H. inversion H; subst. simpl in Hpar.
    rewrite andb_true_r in Hpar. simpl. repeat split; auto.
Qed.

Lemma UPDATE_venta_total_succeeds now v total db :
  total = Venta.total v \/ int64 total = true ->
  exists v' db', UPDATE_venta_total now v total db = Ok (v', db').
Proof.
  intros H. unfold UPDATE_venta_total. destruct (total =? Venta.total v) eqn:E.
  - eexists _, _. reflexivity.
  - destruct H as [H|H]; [apply Z.eqb_neq in E; contradiction|].
    rewrite (bind_eq _ _ db tt db) by (apply params_true; simpl; rewrite H; reflexivity).
    eexists _, _. reflexivity.
Qed.

Lemma UPDATE_venta_total_overflow now v total db :
  int64 total = false -> total <> Venta.total v ->
  UPDATE_venta_total now v total db = Raise OverflowError.
Proof.
  intros H Hne. unfold UPDATE_venta_total. apply Z.eqb_neq in Hne. rewrite Hne.
  apply bind_Raise. apply params_false. simpl. rewrite H. reflexivity.
Qed.

Lemma INSERT_venta_Ok now u cliente_id db row db' :
  INSERT_venta now u cliente_id db = Ok (row, db') ->
  row = Venta.mk (next_rowid (map Venta.id (ventas db))) u now 0 now now cliente_id
  /\ db' = with_ventas (ventas db ++ [row]) db
  /\ existsb (fun c => Cliente.id c =? cliente_id) (clientes db) = true
  /\ existsb (fun v => String.eqb (Venta.uuid v) u) (ventas db) = false.
Proof.
  unfold INSERT_venta. intros H.
  apply bind_Ok in H. destruct H as ([] & db1 & Hk & H).
  apply param_key_Ok in Hk. destruct Hk as [_ ->].
  apply bind_Ok in H. destruct H as ([] & db1 & Hc & H).
  apply constraint_Ok in Hc. destruct Hc as [Hc ->].
  apply andb_prop in Hc. destruct Hc as [Hu Hc]. apply negb_true_iff in Hu.
  inversion H; subst. auto.
Qed.

Lemma INSERT_venta_succeeds now u cliente_id db :
  existsb (fun c => Cliente.id c =? cliente_id) (clientes db) = true ->
  existsb (fun v => String.eqb (Venta.uuid v) u) (ventas db) = false ->
  exists row, INSERT_venta now u cliente_id db
              = Ok (row, with_ventas (ventas db ++ [row]) db).
Proof.
  intros Hc Hu. unfold INSERT_venta.
  rewrite (bind_eq _ _ db tt db) by (apply param_key_held; exact Hc).
  rewrite (bind_eq _ _ db tt db) by (apply constraint_true; rewrite Hu, Hc; reflexivity).
  eexists. reflexivity.
Qed.

Lemma create_venta_Ok now uuid4 data db v db' :
  create_venta now uuid4 data db = Ok (v, db') ->
  v = Venta.mk (next_rowid (map Venta.id (ventas db))) (uuid4 O) now
               (total_del_lote (VentaCreate.detalles data)) now now
               (VentaCreate.cliente_id data)
  /\ clientes db' = clientes db /\ productos db' = productos db
  /\ ventas db' = ventas db ++ [v]
  /\ existsb (fun c => Cliente.id c =? VentaCreate.cliente_id data) (clientes db) = true
  /\ forallb (fun det => existsb (fun p => Producto.id p =? DetalleVentaCreate.producto_id det)
                                 (productos db)) (VentaCreate.detalles data) = true
  /\ lote_int64 (VentaCreate.detalles data) = true
  /\ int64 (total_del_lote (VentaCreate.detalles data)) = true
  /\ exists nuevos,
       detalles_ventas db' = detalles_ventas db ++ nuevos
       /\ Forall (fun d => DetalleVenta.venta_id d = Venta.id v) nuevos
       /\ map linea nuevos = map linea_pedida (VentaCreate.detalles data)
       /\ Forall (fun d => forall o, In o (detalles_ventas db) ->
                                     DetalleVenta.id o < DetalleVenta.id d) nuevos.
Proof.
  unfold create_venta. intros H.
  apply bind_Ok in H. destruct H as (row & db1 & Hins & H).
  apply bind_Ok in H. destruct H as (v' & db2 & Hup & H).
  apply bind_Ok in H. destruct H as ([] & db3 & Hdets & H).
  unfold ret in H. inversion H; subst v' db3; clear H.
  apply INSERT_venta_Ok in Hins. destruct Hins as (Hrow & -> & Hc & _).
  apply UPDATE_venta_total_Ok in Hup.
  destruct Hup as (Hv & _ & Hc2 & Hp2 & Hd2 & Hv2 & Hint).
  apply INSERT_detalles_Ok in Hdets.
  destruct Hdets as (Hc3 & Hp3 & Hv3 & Hl & Hps & nuevos & Hd3 & Hvid & Hlin & Hid).
  rewrite create_venta_loop_total in Hv, Hv2, Hint. simpl in Hv, Hv2, Hint.
  set (T := total_del_lote (VentaCreate.detalles data)) in *.
  assert (Hold : forall r, In r (ventas db) -> Venta.id r <> Venta.id row).
  { intros r Hr. rewrite Hrow. simpl.
    pose proof (next_rowid_fresh (map Venta.id (ventas db)) (Venta.id r)
                  (in_map Venta.id _ _ Hr)). lia. }
  assert (Ev : v = Venta.mk (next_rowid (map Venta.id (ventas db))) (uuid4 O) now
                            T now now (VentaCreate.cliente_id data)).
  { rewrite Hv, Hrow. simpl. destruct (T =? 0) eqn:E; [|reflexivity].
    apply Z.eqb_eq in E. rewrite E. reflexivity. }
  assert (Eid : Venta.id v = Venta.id row) by (rewrite Ev, Hrow; reflexivity).
  split; [exact Ev|].
  split; [rewrite Hc3, Hc2; reflexivity|].
  split; [rewrite Hp3, Hp2; reflexivity|].
  split.
  { rewrite Hv3, Hv2. simpl. rewrite map_app. simpl. rewrite Z.eqb_refl.
    rewrite (map_update_absent Venta.id) by exact Hold.
    f_equal. rewrite Ev, Hrow. simpl. destruct (T =? 0) eqn:E; [|reflexivity].
    apply Z.eqb_eq in E. rewrite E. reflexivity. }
  split; [exact Hc|].
  split; [rewrite Hp2 in Hps; exact Hps|].
  split; [exact Hl|].
  split.
  { destruct Hint as [Hint|Hint]; [|exact Hint]. rewrite Hint, Hrow. reflexivity. }
  rewrite Hd2 in Hid. simpl in Hid.
  exists nuevos. rewrite Hd3, Hd2. simpl. rewrite Eid. auto.
Qed.

Lemma create_venta_succeeds now uuid4 data db :
  create_venta_pre uuid4 data db = true ->
  exists v db', create_venta now uuid4 data db = Ok (v, db').
Proof.
  unfold create_venta_pre. intros H.
  apply andb_prop in H. destruct H as [H Hint].
  apply andb_prop in H. destruct H as [H Hl].
  apply andb_prop in H. destruct H as [H Hu].
  apply andb_prop in H. destruct H as [H Hp].
  apply andb_prop in H. destruct H as [Hv Hc]. apply negb_true_iff in Hv.
  unfold create_venta.
  destruct (INSERT_venta_succeeds now (uuid4 O) (VentaCreate.cliente_id data) db Hc Hv)
    as (row & Hins).
  rewrite (bind_eq _ _ _ _ _ Hins).
  destruct (UPDATE_venta_total_succeeds now row
              (create_venta_loop (VentaCreate.detalles data) 0)
              (with_ventas (ventas db ++ [row]) db)) as (v' & db2 & Hup).
  { right. rewrite create_venta_loop_total. exact Hint. }
  rewrite (bind_eq _ _ _ _ _ Hup).
  pose proof (UPDATE_venta_total_Ok _ _ _ _ _ _ Hup) as (_ & _ & _ & Hp2 & Hd2 & Hv2 & _).
  destruct (INSERT_detalles_succeeds now uuid4 (Venta.id row) (VentaCreate.detalles data)
              1%nat db2) as (db3 & Hdets).
  - exact Hl.
  - rewrite Hp2. exact Hp.
  - rewrite Hv2. simpl. rewrite existsb_map_eq, existsb_app. simpl.
    apply orb_true_iff. right.
    destruct (Venta.id row =? Venta.id row) eqn:E;
      [|rewrite Z.eqb_refl in E; discriminate].
    destruct (_ =? Venta.total row); simpl; rewrite Z.eqb_refl; reflexivity.
  - rewrite Hd2. exact Hu.
  - rewrite (bind_eq _ _ _ _ _ Hdets). eexists _, _. reflexivity.
Qed.

Lemma detalles_de_fresh db :
  detalles_con_venta db = true ->
  forall d, In d (detalles_ventas db) ->
    (DetalleVenta.venta_id d =? next_rowid (map Venta.id (ventas db))) = false.
Proof.
  unfold detalles_con_venta. intros H d Hd.
  rewrite forallb_forall in H. specialize (H d Hd).
  apply existsb_exists in H. destruct H as (v & Hv & E).
  apply Z.eqb_eq in E. apply Z.eqb_neq.
  pose proof (next_rowid_fresh (map Venta.id (ventas db)) (Venta.id v)
                (in_map Venta.id _ _ Hv)). lia.
Qed.

(** C2: when the customer and the products exist, the identifiers drawn
    are free, and the integers of the line items and the sum of the batch
    are 64-bit integers, [create_venta] commits a sale, stored in the
    table, whose total is the sum of [(precio - descuento) * cantidad]
    over the batch of the request; whenever it commits, this is the
    total; a batch of the one item precio=100, descuento=10, cantidad=2
    gives 180; and when the sum of the batch is no 64-bit integer
    [create_venta] raises and nothing is stored. *)
Theorem create_venta_total now uuid4 data db :
  (create_venta_pre uuid4 data db = true ->
   exists v db', transaction (create_venta now uuid4 data) db = (Ok v, db'))
  /\ (forall v db',
        transaction (create_venta now uuid4 data) db = (Ok v, db') ->
        In v (ventas db')
        /\ Venta.total v = total_del_lote (VentaCreate.detalles data)
        /\ (forall p, VentaCreate.detalles data = [DetalleVentaCreate.mk p 100 10 2] ->
                      Venta.total v = 180))
  /\ (int64 (total_del_lote (VentaCreate.detalles data)) = false ->
      exists e, transaction (create_venta now uuid4 data) db = (Raise e, db)).
Proof.
  split; [|split].
  - intros Hpre. destruct (create_venta_succeeds now uuid4 data db Hpre) as (v & db' & E).
    exists v, db'. apply transaction_Ok. exact E.
  - intros v db' H. apply transaction_Ok in H.
    apply create_venta_Ok in H. destruct H as (Ev & _ & _ & Hv & _).
    split; [rewrite Hv; apply in_or_app; right; left; reflexivity|].
    split; [rewrite Ev; reflexivity|].
    intros p Hp. rewrite Ev, Hp. reflexivity.
  - intros Hint. unfold transaction.
    destruct (create_venta now uuid4 data db) as [[v db']|e] eqn:E.
    + apply create_venta_Ok in E. destruct E as (_ & _ & _ & _ & _ & _ & _ & Hi & _).
      rewrite Hi in Hint. discriminate.
    + exists e. reflexivity.
Qed.

(** C9: with an existing customer and a free identifier, [create_venta]
    with no line items commits: the new sale is stored with total 0 and,
    in a store whose line items all point to sales, no line item is its. *)
Theorem create_venta_sin_detalles now uuid4 cliente_id db :
  existsb (fun c => Cliente.id c =? cliente_id) (clientes db) = true ->
  existsb (fun v => String.eqb (Venta.uuid v) (uuid4 O)) (ventas db) = false ->
  detalles_con_venta db = true ->
  exists v db',
    transaction (create_venta now uuid4 (VentaCreate.mk cliente_id [])) db = (Ok v, db')
    /\ In v (ventas db')
    /\ Venta.cliente_id v = cliente_id
    /\ Venta.total v = 0
    /\ detalles_de (Venta.id v) db' = []
    /\ detalles_ventas db' = detalles_ventas db.
Proof.
  intros Hc Hu Hfk.
  destruct (create_venta_succeeds now uuid4 (VentaCreate.mk cliente_id []) db)
    as (v & db' & E).
  { unfold create_venta_pre. simpl. rewrite Hu, Hc. reflexivity. }
  exists v, db'. split; [apply transaction_Ok; exact E|].
  apply create_venta_Ok in E. simpl in E.
  destruct E as (Ev & _ & _ & Hv & _ & _ & _ & _ & nuevos & Hd & _ & Hlin & _).
  destruct nuevos; [|discriminate]. rewrite app_nil_r in Hd.
  split; [rewrite Hv; apply in_or_app; right; left; reflexivity|].
  split; [rewrite Ev; reflexivity|].
  split; [rewrite Ev; reflexivity|].
  split; [|exact Hd].
  unfold detalles_de. rewrite Hd, Ev. simpl. apply filter_nil_iff.
  apply detalles_de_fresh. exact Hfk.
Qed.

(** ** The functions that start with a lookup *)

Lemma by_id_found {A B} (id : A -> Z) (tabla : DB -> list A) i db a
  (k : option A -> Session B) :
  find (fun r => id r =? i) (tabla db) = Some a ->
  bind (first_by_id id tabla i) k db = k (Some a) db.
Proof. intros F. apply bind_eq. apply first_by_id_found. exact F. Qed.

Lemma by_id_missing {A B} (id : A -> Z) (tabla : DB -> list A) i db
  (k : option A -> Session B) :
  find (fun r => id r =? i) (tabla db) = None -> int64 i = true ->
  bind (first_by_id id tabla i) k db = k None db.
Proof. intros F Hi. apply bind_eq. apply first_by_id_missing; assumption. Qed.

Lemma by_id_overflow {A B} (id : A -> Z) (tabla : DB -> list A) i db
  (k : option A -> Session B) :
  find (fun r => id r =? i) (tabla db) = None -> int64 i = false ->
  bind (first_by_id id tabla i) k db = Raise OverflowError.
Proof. intros F Hi. apply bind_Raise. apply first_by_id_overflow; assumption. Qed.

Lemma by_id_Ok {A B} (id : A -> Z) (tabla : DB -> list A) i db
  (k : option A -> Session B) b db' :
  bind (first_by_id id tabla i) k db = Ok (b, db') ->
  k (find (fun r => id r =? i) (tabla db)) db = Ok (b, db')
  /\ (find (fun r => id r =? i) (tabla db) = None -> int64 i = true).
Proof.
  intros H. apply bind_Ok in H. destruct H as (r & db1 & Hf & H).
  apply first_by_id_Ok in Hf. destruct Hf as (-> & -> & Hi). auto.
Qed.

(** ** update_venta *)

Lemma UPDATE_venta_cliente_Ok now v cid db v' db' :
  UPDATE_venta_cliente now v cid db = Ok (v', db') ->
  Some (Venta.cliente_id v') = cid
  /\ Venta.id v' = Venta.id v
  /\ Venta.uuid v' = Venta.uuid v
  /\ Venta.fecha v' = Venta.fecha v
  /\ Venta.total v' = Venta.total v
  /\ Venta.created_at v' = Venta.created_at v
  /\ Venta.modified_at v'
     = (if Venta.cliente_id v' =? Venta.cliente_id v then Venta.modified_at v else now)
  /\ clientes db' = clientes db /\ productos db' = productos db
  /\ detalles_ventas db' = detalles_ventas db
  /\ ventas db'
     = map (fun r => if Venta.id r =? Venta.id v
                     then (if Venta.cliente_id v' =? Venta.cliente_id v then r
                           else Venta.mk (Venta.id r) (Venta.uuid r) (Venta.fecha r)
                                         (Venta.total r) (Venta.created_at r) now
                                         (Venta.cliente_id v'))
                     else r) (ventas db)
  /\ (Venta.cliente_id v' = Venta.cliente_id v
      \/ existsb (fun c => Cliente.id c =? Venta.cliente_id v') (clientes db) = true).
Proof.
  unfold UPDATE_venta_cliente.
  destruct (opt_eqb Z.eqb cid (Some (Venta.cliente_id v))) eqn:Esame; intros H.
  - unfold ret in H. inversion H; subst.
    destruct cid as [c|]; [|discriminate]. simpl in Esame. apply Z.eqb_eq in Esame.
    subst c. rewrite Z.eqb_refl. repeat split; auto.
    rewrite <- (map_id (ventas db')) at 1. apply map_ext.
    intros r. destruct (Venta.id r =? Venta.id v'); reflexivity.
  - apply bind_Ok in H. destruct H as (c & db1 & Hnn & H).
    apply not_null_Ok in Hnn. destruct Hnn as [-> ->].
    apply bind_Ok in H. destruct H as ([] & db1 & Hk & H).
    apply param_key_Ok in Hk. destruct Hk as [_ ->].
    apply bind_Ok in H. destruct H as ([] & db1 & Hc & H).
    apply constraint_Ok in Hc. destruct Hc as [Hc ->].
    unfold UPDATE_ventas in H. inversion H; subst; clear H. simpl in *.
    rewrite Esame. repeat split; auto.
Qed.


(** C10: whatever the request, [update_venta] leaves the stored total of
    every sale as it was, and a sale it returns carries the total it had
    before. *)
Theorem update_venta_keeps_total now venta_id data db :
  map Venta.total (ventas (snd (transaction (update_venta now venta_id data) db)))
  = map Venta.total (ventas db)
  /\ map Venta.id (ventas (snd (transaction (update_venta now venta_id data) db)))
     = map Venta.id (ventas db)
  /\ (forall v', fst (transaction (update_venta now venta_id data) db) = Ok (Some v') ->
        exists v, find (fun v => Venta.id v =? venta_id) (ventas db) = Some v
                  /\ Venta.total v' = Venta.total v).
Proof.
  unfold transaction.
  destruct (update_venta now venta_id data db) as [[r db']|e] eqn:E; simpl.
  2:{ repeat split. intros v' H. discriminate. }
  unfold update_venta, get_venta in E. apply by_id_Ok in E. destruct E as [E _].
  destruct (find _ (ventas db)) as [v|] eqn:Hfind.
  2:{ unfold ret in E. inversion E; subst. repeat split. intros v' H. discriminate. }
  apply bind_Ok in E. destruct E as (v1 & db1 & Hup & E).
  unfold ret in E. inversion E; subst; clear E.
  apply UPDATE_venta_cliente_Ok in Hup.
  destruct Hup as (_ & _ & _ & _ & Ht & _ & _ & _ & _ & _ & Hv & _).
  rewrite Hv, !map_map. split; [|split].
  - apply map_ext. intros r. destruct (Venta.id r =? Venta.id v); [|reflexivity].
    destruct (_ =? _); reflexivity.
  - apply map_ext. intros r. destruct (Venta.id r =? Venta.id v); [|reflexivity].
    destruct (_ =? _); reflexivity.
  - intros v' H. inversion H; subst. exists v. auto.
Qed.

(** ** Partial updates *)

Lemma opt_eqb_string_eq (a b : option string) :
  opt_eqb String.eqb a b = true <-> a = b.
Proof.
  destruct a as [x|], b as [y|]; simpl; split; intros H;
    try discriminate; try reflexivity.
  - apply String.eqb_eq in H. subst. reflexivity.
  - inversion H. apply String.eqb_refl.
Qed.

Lemma opt_eqb_Z_eq (a b : option Z) :
  opt_eqb Z.eqb a b = true <-> a = b.
Proof.
  destruct a as [x|], b as [y|]; simpl; split; intros H;
    try discriminate; try reflexivity.
  - apply Z.eqb_eq in H. subst. reflexivity.
  - inversion H. apply Z.eqb_refl.
Qed.

Lemma if_string_eqb (x y : string) : (if String.eqb x y then y else x) = x.
Proof. destruct (String.eqb x y) eqn:E; [|reflexivity]. apply String.eqb_eq in E. auto. Qed.

Lemma if_Z_eqb (x y : Z) : (if x =? y then y else x) = x.
Proof. destruct (x =? y) eqn:E; [|reflexivity]. apply Z.eqb_eq in E. auto. Qed.

Lemma if_opt_string_eqb (x y : option string) :
  (if opt_eqb String.eqb x y then y else x) = x.
Proof.
  destruct (opt_eqb String.eqb x y) eqn:E; [|reflexivity].
  apply opt_eqb_string_eq in E. auto.
Qed.

Lemma if_opt_Z_eqb (x y : option Z) : (if opt_eqb Z.eqb x y then y else x) = x.
Proof.
  destruct (opt_eqb Z.eqb x y) eqn:E; [|reflexivity].
  apply opt_eqb_Z_eq in E. auto.
Qed.




Lemma UPDATE_producto_Ok now p nombre categoria precio db p' db' :
  UPDATE_producto now p nombre categoria precio db = Ok (p', db') ->
  Some (Producto.nombre p') = nombre
  /\ Producto.categoria p' = categoria
  /\ Some (Producto.precio p') = precio
  /\ Producto.id p' = Producto.id p
  /\ Producto.uuid p' = Producto.uuid p
  /\ Producto.created_at p' = Producto.created_at p
  /\ Producto.modified_at p'
     = (if String.eqb (Producto.nombre p') (Producto.nombre p)
           && opt_eqb String.eqb (Producto.categoria p') (Producto.categoria p)
           && (Producto.precio p' =? Producto.precio p)
        then Producto.modified_at p else now)
  /\ (In p (productos db) -> In p' (productos db')).
Proof.
  unfold UPDATE_producto.
  destruct (opt_eqb String.eqb nombre _ && opt_eqb String.eqb categoria _
            && opt_eqb Z.eqb precio _) eqn:Esame.
  - unfold ret. intros H. inversion H; subst.
    apply andb_prop in Esame. destruct Esame as [Esame E3].
    apply andb_prop in Esame. destruct Esame as [E1 E2].
    apply opt_eqb_string_eq in E1, E2. apply opt_eqb_Z_eq in E3. subst.
    rewrite String.eqb_refl, Z.eqb_refl, (proj2 (opt_eqb_string_eq _ _) eq_refl).
    repeat split; auto.
  - intros H.
    apply bind_Ok in H. destruct H as ([] & db1 & Hpar & H).
    apply params_Ok in Hpar. destruct Hpar as [_ ->].
    apply bind_Ok in H. destruct H as (n & db1 & Hn & H).
    apply not_null_Ok in Hn. destruct Hn as [-> ->].
    apply bind_Ok in H. destruct H as (r & db1 & Hr & H).
    apply not_null_Ok in Hr. destruct Hr as [-> ->].
    inversion H; subst; clear H. cbn [opt_eqb] in Esame. simpl.
    rewrite !if_string_eqb, !if_Z_eqb, !if_opt_string_eqb, Esame.
    repeat split; try reflexivity.
    intros Hin. apply in_map_iff. exists p. rewrite Z.eqb_refl.
    split; [|exact Hin].
    rewrite !if_string_eqb, !if_Z_eqb, !if_opt_string_eqb. reflexivity.
Qed.




Lemma _recalcular_total_venta_Ok now real venta_id db x db' :
  _recalcular_total_venta now real venta_id db = Ok (x, db') ->
  clientes db' = clientes db /\ productos db' = productos db
  /\ detalles_ventas db' = detalles_ventas db
  /\ map Venta.id (ventas db') = map Venta.id (ventas db)
  /\ exists s,
       coalesce_sum (map subtotal_sql (detalles_de venta_id db)) = Ok s
       /\ match find (fun v => Venta.id v =? venta_id) (ventas db) with
          | Some v =>
              ventas db'
              = map (fun r => if Venta.id r =? Venta.id v
                              then (if int_suma real s =? Venta.total v then r
                                    else Venta.mk (Venta.id r) (Venta.uuid r) (Venta.fecha r)
                                                  (int_suma real s) (Venta.created_at r) now
                                                  (Venta.cliente_id r))
                              else r) (ventas db)
          | None => ventas db' = ventas db
          end.
Proof.
  unfold _recalcular_total_venta. intros H.
  apply bind_Ok in H. destruct H as (s & db1 & Hs & H).
  apply select_Ok in Hs. destruct Hs as [Hs ->].
  apply bind_Ok in H. destruct H as (r & db1 & Hq & H).
  unfold query in Hq. inversion Hq; subst; clear Hq.
  destruct (find _ (ventas db1)) as [v|] eqn:Hfind.
  - apply bind_Ok in H. destruct H as (v' & db2 & Hup & H).
    unfold ret in H. inversion H; subst; clear H.
    apply UPDATE_venta_total_Ok in Hup.
    destruct Hup as (_ & _ & Hc & Hp & Hd & Hv & _).
    repeat split; auto.
    + rewrite Hv, map_map. apply map_ext. intros r.
      destruct (Venta.id r =? Venta.id v); [|reflexivity].
      destruct (_ =? Venta.total v); reflexivity.
    + exists s. split; [exact Hs|exact Hv].
  - unfold ret in H. inversion H; subst. repeat split; auto.
    exists s. split; [exact Hs|reflexivity].
Qed.



Lemma UPDATE_detalle_Ok now d precio descuento cantidad db d' db' :
  UPDATE_detalle now d precio descuento cantidad db = Ok (d', db') ->
  Some (DetalleVenta.precio d') = precio
  /\ DetalleVenta.descuento d' = descuento
  /\ DetalleVenta.cantidad d' = cantidad
  /\ DetalleVenta.id d' = DetalleVenta.id d
  /\ DetalleVenta.uuid d' = DetalleVenta.uuid d
  /\ DetalleVenta.producto_id d' = DetalleVenta.producto_id d
  /\ DetalleVenta.venta_id d' = DetalleVenta.venta_id d
  /\ DetalleVenta.created_at d' = DetalleVenta.created_at d
  /\ DetalleVenta.modified_at d'
     = (if (DetalleVenta.precio d' =? DetalleVenta.precio d)
           && opt_eqb Z.eqb (DetalleVenta.descuento d') (DetalleVenta.descuento d)
           && opt_eqb Z.eqb (DetalleVenta.cantidad d') (DetalleVenta.cantidad d)
        then DetalleVenta.modified_at d else now)
  /\ (In d (detalles_ventas db) -> In d' (detalles_ventas db'))
  /\ clientes db' = clientes db /\ productos db' = productos db
  /\ ventas db' = ventas db.
Proof.
  unfold UPDATE_detalle.
  destruct (opt_eqb Z.eqb precio _ && opt_eqb Z.eqb descuento _
            && opt_eqb Z.eqb cantidad _) eqn:Esame.
  - unfold ret. intros H. inversion H; subst.
    apply andb_prop in Esame. destruct Esame as [Esame E3].
    apply andb_prop in Esame. destruct Esame as [E1 E2].
    apply opt_eqb_Z_eq in E1, E2, E3. subst.
    rewrite Z.eqb_refl, !(proj2 (opt_eqb_Z_eq _ _) eq_refl).
    repeat split; auto.
  - intros H.
    apply bind_Ok in H. destruct H as ([] & db1 & Hpar & H).
    apply params_Ok in Hpar. destruct Hpar as [_ ->].
    apply bind_Ok in H. destruct H as (r & db1 & Hr & H).
    apply not_null_Ok in Hr. destruct Hr as [-> ->].
    inversion H; subst; clear H. cbn [opt_eqb] in Esame. simpl.
    rewrite !if_Z_eqb, !if_opt_Z_eqb, Esame.
    repeat split; try reflexivity.
    intros Hin. apply in_map_iff. exists d. rewrite Z.eqb_refl.
    split; [|exact Hin].
    rewrite !if_Z_eqb, !if_opt_Z_eqb. reflexivity.
Qed.








(** ** The sums of the engine *)






(** SUM over a column: the sum of the values that are not NULL, when it
    returns; and it returns when the absolute values add up to less than
    2^63. *)
Lemma sum_int_Some_Ok xs : forall s r,
  sum_int (Some s) xs = Ok r -> r = Some (s + suma (no_nulos xs)).
Proof.
  induction xs as [|[v|] xs IH]; intros s r H; cbn [sum_int no_nulos suma fold_right] in *.
  - inversion H. f_equal. lia.
  - destruct (int64 (s + v)); [|discriminate].
    apply IH in H. rewrite H. f_equal. fold (suma (no_nulos xs)). lia.
  - apply IH. exact H.
Qed.

Lemma sum_int_error xs : forall acc e,
  sum_int acc xs = Raise e -> e = OperationalError.
Proof.
  induction xs as [|[v|] xs IH]; intros acc e H; cbn [sum_int] in H.
  - discriminate.
  - destruct acc as [s|]; [|apply IH in H; exact H].
    destruct (int64 (s + v)); [apply IH in H; exact H|].
    inversion H. reflexivity.
  - apply IH in H. exact H.
Qed.

Lemma SUM_int_Ok xs r : SUM_int xs = Ok r -> r = suma_no_nula xs.
Proof.
  unfold SUM_int, suma_no_nula.
  induction xs as [|[v|] xs IH]; cbn [sum_int no_nulos]; intros H.
  - inversion H. reflexivity.
  - apply sum_int_Some_Ok in H. exact H.
  - apply IH. exact H.
Qed.



(** SUM over an expression whose values are all integers is SUM over a
    column. *)
Lemma sum_step_enteros xs : forall s,
  fold_left sum_step (map columna xs) (SumInt s)
  = match sum_int (Some s) xs with
    | Ok (Some t) => SumInt t
    | Ok None => SumNull
    | Raise _ => SumOverflow
    end.
Proof.
  induction xs as [|[v|] xs IH]; intros s; cbn [map columna fold_left sum_step sum_int].
  - reflexivity.
  - destruct (int64 (s + v)); [apply IH|].
    clear IH. induction xs as [|[w|] xs IH]; cbn [map columna fold_left sum_step]; auto.
  - apply IH.
Qed.

Lemma SUM_enteros xs :
  SUM (map columna xs)
  = match SUM_int xs with
    | Ok r => Ok (columna r)
    | Raise e => Raise e
    end.
Proof.
  unfold SUM, sql_sum, SUM_int.
  induction xs as [|[v|] xs IH]; cbn [map columna fold_left sum_step sum_int].
  - reflexivity.
  - rewrite sum_step_enteros.
    destruct (sum_int (Some v) xs) as [[t|]|e] eqn:E; try reflexivity.
    apply sum_int_error in E. subst e. reflexivity.
  - exact IH.
Qed.

(** Once a value is a REAL the sum is a REAL, unless it had overflowed
    before. *)
Lemma sum_step_overflow xs : fold_left sum_step xs SumOverflow = SumOverflow.
Proof.
  induction xs as [|[[v|]|] xs IH]; cbn [fold_left sum_step]; auto.
Qed.

Lemma sum_step_real xs : fold_left sum_step xs SumReal = SumReal.
Proof.
  induction xs as [|[[v|]|] xs IH]; cbn [fold_left sum_step]; auto.
Qed.

Lemma sum_step_In_real xs : forall acc,
  In (Some Real) xs ->
  fold_left sum_step xs acc = SumReal \/ fold_left sum_step xs acc = SumOverflow.
Proof.
  induction xs as [|x xs IH]; intros acc Hin; [destruct Hin|].
  destruct Hin as [->|Hin]; [|apply IH; exact Hin].
  cbn [fold_left sum_step].
  destruct acc; rewrite ?sum_step_real, ?sum_step_overflow; auto.
Qed.

(** The subtotal of a line item as the engine has it. *)
Lemma subtotal_sql_en_enteros d :
  en_enteros d = true -> subtotal_sql d = columna (subtotal d).
Proof.
  unfold en_enteros, subtotal_sql, subtotal.
  destruct (DetalleVenta.descuento d) as [de|], (DetalleVenta.cantidad d) as [c|];
    cbn [columna sql_sub sql_mul]; try reflexivity.
  - intros H. apply andb_prop in H. destruct H as [H1 H2].
    unfold num_of. rewrite H1. cbn [sql_mul]. unfold num_of. rewrite H2. reflexivity.
  - intros _. unfold num_of. destruct (int64 _); reflexivity.
Qed.

Lemma subtotal_sql_real d : en_enteros d = false -> subtotal_sql d = Some Real.
Proof.
  unfold en_enteros, subtotal_sql.
  destruct (DetalleVenta.descuento d) as [de|], (DetalleVenta.cantidad d) as [c|];
    cbn [columna sql_sub sql_mul]; try discriminate.
  intros H. unfold num_of. destruct (int64 (DetalleVenta.precio d - de)); cbn [sql_mul].
  - simpl in H. unfold num_of. rewrite H. reflexivity.
  - reflexivity.
Qed.

Lemma map_subtotal_sql items :
  forallb en_enteros items = true ->
  map subtotal_sql items = map columna (map subtotal items).
Proof.
  intros H. rewrite map_map. apply map_ext_in. intros d Hd.
  apply subtotal_sql_en_enteros. rewrite forallb_forall in H. apply H. exact Hd.
Qed.

Lemma SUM_subtotales_Ok items x :
  SUM (map subtotal_sql items) = Ok x ->
  x = if forallb en_enteros items
      then columna (suma_no_nula (map subtotal items))
      else Some Real.
Proof.
  destruct (forallb en_enteros items) eqn:E.
  - rewrite (map_subtotal_sql _ E), SUM_enteros.
    destruct (SUM_int _) as [r|e] eqn:Hs; [|discriminate].
    apply SUM_int_Ok in Hs. intros H. inversion H. rewrite Hs. reflexivity.
  - assert (In (Some Real) (map subtotal_sql items)) as Hin.
    { apply in_map_iff.
      destruct (forallb_forall en_enteros items) as [_ Hall].
      destruct (existsb (fun d => negb (en_enteros d)) items) eqn:Ex.
      - apply existsb_exists in Ex. destruct Ex as (d & Hd & Hn).
        apply negb_true_iff in Hn. exists d. split; [|exact Hd].
        apply subtotal_sql_real. exact Hn.
      - rewrite Hall in E; [discriminate|]. intros d Hd.
        rewrite existsb_false_iff in Ex. specialize (Ex d Hd).
        apply negb_false_iff in Ex. exact Ex. }
    unfold SUM, sql_sum.
    destruct (sum_step_In_real _ SumNull Hin) as [-> | ->]; intros H; inversion H.
    reflexivity.
Qed.


Lemma coalesce_suma_no_nula xs :
  match columna (suma_no_nula xs) with
  | Some n => n
  | None => Entero 0
  end = Entero (suma (no_nulos xs)).
Proof.
  unfold suma_no_nula. destruct (no_nulos xs); reflexivity.
Qed.

Lemma coalesce_sum_Ok items s :
  coalesce_sum (map subtotal_sql items) = Ok s ->
  forallb en_enteros items = true ->
  s = Entero (suma (no_nulos (map subtotal items))).
Proof.
  unfold coalesce_sum. intros H E.
  destruct (SUM _) as [x|e] eqn:Hs; [|discriminate].
  apply SUM_subtotales_Ok in Hs. rewrite E in Hs. subst x.
  rewrite <- coalesce_suma_no_nula.
  destruct (columna _); inversion H; reflexivity.
Qed.


(** ** Deleting: the cascades and the foreign keys *)

Lemma filter_filter {A} (p q : A -> bool) (l : list A) :
  filter p (filter q l) = filter (fun a => q a && p a) l.
Proof.
  induction l as [|a l IH]; simpl; [reflexivity|].
  destruct (q a); simpl; [destruct (p a)|]; rewrite IH; reflexivity.
Qed.

Lemma forM_delete_detalles ds : forall db,
  forM_ ds session_delete_detalle db
  = Ok (tt, with_detalles
              (filter (fun d => negb (existsb (fun x => DetalleVenta.id d =? DetalleVenta.id x) ds))
                      (detalles_ventas db)) db).
Proof.
  induction ds as [|x ds IH]; intros db; simpl.
  - unfold ret. f_equal. f_equal. destruct db; unfold with_detalles; simpl. f_equal.
    symmetry. apply forallb_filter_id. apply forallb_forall. reflexivity.
  - unfold bind, session_delete_detalle at 1, DELETE_detalle.
    rewrite IH. simpl. unfold with_detalles. simpl. f_equal. f_equal. f_equal.
    rewrite filter_filter. apply filter_ext. intros d.
    rewrite negb_orb. reflexivity.
Qed.

Lemma session_delete_venta_Ok v db :
  exists db',
    session_delete_venta v db = Ok (tt, db')
    /\ clientes db' = clientes db /\ productos db' = productos db
    /\ ventas db' = filter (fun r => negb (Venta.id r =? Venta.id v)) (ventas db)
    /\ (forall d, In d (detalles_ventas db') ->
          In d (detalles_ventas db) /\ DetalleVenta.venta_id d <> Venta.id v)
    /\ (forall d, In d (detalles_ventas db) ->
          (forall x, In x (detalles_ventas db) ->
             DetalleVenta.id x = DetalleVenta.id d ->
             DetalleVenta.venta_id x <> Venta.id v) ->
          In d (detalles_ventas db')).
Proof.
  unfold session_delete_venta, bind, query. rewrite forM_delete_detalles.
  set (keep := fun d => negb (existsb _ (detalles_de (Venta.id v) db))).
  assert (Hkeep : forall d, In d (detalles_ventas db) -> keep d = true ->
                            DetalleVenta.venta_id d <> Venta.id v).
  { intros d Hd Hk E. unfold keep in Hk. apply negb_true_iff in Hk.
    rewrite existsb_false_iff in Hk. specialize (Hk d).
    rewrite Z.eqb_refl in Hk. enough (true = false) by discriminate.
    apply Hk. unfold detalles_de. apply filter_In. split; [exact Hd|].
    apply Z.eqb_eq. exact E. }
  unfold DELETE_venta, bind, constraint. simpl.
  destruct (existsb _ (filter keep (detalles_ventas db))) eqn:Efk; simpl.
  { apply existsb_exists in Efk. destruct Efk as (d & Hd & E).
    apply filter_In in Hd. destruct Hd as [Hd Hk].
    apply Z.eqb_eq in E. destruct (Hkeep d Hd Hk E). }
  eexists. split; [reflexivity|]. simpl. repeat split; try reflexivity.
  - apply filter_In in H. apply H.
  - apply filter_In in H. destruct H as [Hd Hk]. apply Hkeep; assumption.
  - intros d Hd Hother. apply filter_In. split; [exact Hd|].
    unfold keep. apply negb_true_iff. apply existsb_false_iff.
    intros x Hx. apply Z.eqb_neq. intros E.
    unfold detalles_de in Hx. apply filter_In in Hx. destruct Hx as [Hx Hv].
    apply Z.eqb_eq in Hv. apply (Hother x Hx); auto.
Qed.

Lemma forM_delete_ventas vs : forall db,
  exists db',
    forM_ vs session_delete_venta db = Ok (tt, db')
    /\ clientes db' = clientes db /\ productos db' = productos db
    /\ ventas db'
       = filter (fun r => negb (existsb (fun v => Venta.id r =? Venta.id v) vs)) (ventas db)
    /\ (forall d, In d (detalles_ventas db') ->
          In d (detalles_ventas db)
          /\ forall v, In v vs -> DetalleVenta.venta_id d <> Venta.id v)
    /\ (forall d, In d (detalles_ventas db) ->
          (forall x v, In x (detalles_ventas db) -> In v vs ->
             DetalleVenta.id x = DetalleVenta.id d ->
             DetalleVenta.venta_id x <> Venta.id v) ->
          In d (detalles_ventas db')).
Proof.
  induction vs as [|v vs IH]; intros db; simpl.
  - exists db. unfold ret.
    split; [reflexivity|]. split; [reflexivity|]. split; [reflexivity|].
    split; [|split].
    + symmetry. apply forallb_filter_id. apply forallb_forall. reflexivity.
    + intros d Hd. split; [exact Hd|]. intros v [].
    + intros d Hd _. exact Hd.
  - destruct (session_delete_venta_Ok v db) as (db1 & E1 & Hc1 & Hp1 & Hv1 & Hd1 & Hk1).
    destruct (IH db1) as (db2 & E2 & Hc2 & Hp2 & Hv2 & Hd2 & Hk2).
    exists db2. unfold bind. rewrite E1, E2.
    split; [reflexivity|]. split; [congruence|]. split; [congruence|].
    split; [|split].
    + rewrite Hv2, Hv1, filter_filter. apply filter_ext. intros r.
      rewrite negb_orb. reflexivity.
    + intros d Hd. apply Hd2 in Hd. destruct Hd as [Hd Hvs].
      apply Hd1 in Hd. destruct Hd as [Hd Hv]. split; [exact Hd|].
      intros w [<-|Hw]; auto.
    + intros d Hd Hother. apply Hk2.
      * apply Hk1; [exact Hd|]. intros x Hx E. apply (Hother x v); auto.
      * intros x w Hx Hw E. apply Hd1 in Hx. destruct Hx as [Hx _].
        apply (Hother x w); auto.
Qed.

Lemma find_none_filter {A} (key : A -> Z) (i : Z) (l : list A) :
  find (fun a => key a =? i) (filter (fun a => negb (key a =? i)) l) = None.
Proof.
  induction l as [|a l IH]; simpl; [reflexivity|].
  destruct (key a =? i) eqn:E; simpl; [exact IH|]. rewrite E. exact IH.
Qed.

Lemma find_id_eq {A} (key : A -> Z) (i : Z) (l : list A) (a : A) :
  find (fun a => key a =? i) l = Some a -> In a l /\ key a = i.
Proof.
  intros H. apply find_some in H. destruct H as [Hin E].
  apply Z.eqb_eq in E. auto.
Qed.

Lemma delete_cliente_found cliente_id c db :
  find (fun c => Cliente.id c =? cliente_id) (clientes db) = Some c ->
  exists db',
    delete_cliente cliente_id db = Ok (true, db')
    /\ clientes db' = filter (fun r => negb (Cliente.id r =? cliente_id)) (clientes db)
    /\ productos db' = productos db
    /\ ventas db'
       = filter (fun r => negb (existsb (fun v => Venta.id r =? Venta.id v)
                                        (ventas_de cliente_id db))) (ventas db)
    /\ (forall d, In d (detalles_ventas db') ->
          In d (detalles_ventas db)
          /\ forall v, In v (ventas_de cliente_id db) ->
                       DetalleVenta.venta_id d <> Venta.id v)
    /\ ventas_de cliente_id db' = []
    /\ (forall d, In d (detalles_ventas db) ->
          (forall x v, In x (detalles_ventas db) -> In v (ventas_de cliente_id db) ->
             DetalleVenta.id x = DetalleVenta.id d ->
             DetalleVenta.venta_id x <> Venta.id v) ->
          In d (detalles_ventas db')).
Proof.
  intros Hfind. unfold delete_cliente, get_cliente.
  rewrite (by_id_found _ _ _ _ _ _ Hfind). unfold bind, query.
  apply find_id_eq in Hfind. destruct Hfind as [Hin Hid].
  unfold session_delete_cliente, bind, query. rewrite Hid.
  destruct (forM_delete_ventas (ventas_de cliente_id db) db)
    as (db1 & -> & Hc & Hp & Hv & Hd & Hk).
  assert (Hnone : ventas_de cliente_id db1 = []).
  { unfold ventas_de at 1. rewrite Hv, filter_filter. apply filter_nil_iff.
    intros r Hr. destruct (Venta.cliente_id r =? cliente_id) eqn:E;
      [|apply andb_false_r].
    rewrite andb_true_r. apply negb_false_iff. apply existsb_exists.
    exists r. rewrite Z.eqb_refl. split; [|reflexivity].
    unfold ventas_de. apply filter_In. auto. }
  unfold DELETE_cliente, bind, constraint.
  replace (existsb _ (ventas db1)) with false.
  2:{ symmetry. apply existsb_false_iff. intros r Hr.
      destruct (Venta.cliente_id r =? cliente_id) eqn:E; [|reflexivity].
      assert (In r (ventas_de cliente_id db1)) as Hr'
        by (unfold ventas_de; apply filter_In; auto).
      rewrite Hnone in Hr'. destruct Hr'. }
  simpl. unfold ret. eexists. split; [reflexivity|]. simpl.
  rewrite Hc. repeat split; try assumption; try reflexivity.
  - apply Hd. assumption.
  - apply Hd. assumption.
Qed.

Lemma delete_venta_found venta_id v db :
  find (fun v => Venta.id v =? venta_id) (ventas db) = Some v ->
  exists db',
    delete_venta venta_id db = Ok (true, db')
    /\ clientes db' = clientes db /\ productos db' = productos db
    /\ ventas db' = filter (fun r => negb (Venta.id r =? venta_id)) (ventas db)
    /\ (forall d, In d (detalles_ventas db') -> In d (detalles_ventas db))
    /\ detalles_de venta_id db' = []
    /\ (forall d, In d (detalles_ventas db) ->
          (forall x, In x (detalles_ventas db) ->
             DetalleVenta.id x = DetalleVenta.id d ->
             DetalleVenta.venta_id x <> venta_id) ->
          In d (detalles_ventas db')).
Proof.
  intros Hfind. unfold delete_venta, get_venta.
  rewrite (by_id_found _ _ _ _ _ _ Hfind). unfold bind, query.
  apply find_id_eq in Hfind. destruct Hfind as [Hin Hid].
  destruct (session_delete_venta_Ok v db) as (db1 & -> & Hc & Hp & Hv & Hd & Hk).
  unfold ret. exists db1. rewrite Hid in *.
  split; [reflexivity|]. split; [exact Hc|]. split; [exact Hp|]. split; [exact Hv|].
  split; [|split].
  - apply Hd.
  - unfold detalles_de. apply filter_nil_iff. intros d Hdin.
    apply Z.eqb_neq. apply Hd. exact Hdin.
  - exact Hk.
Qed.

Lemma delete_detalle_found now real detalle_id d db :
  find (fun d => DetalleVenta.id d =? detalle_id) (detalles_ventas db) = Some d ->
  delete_detalle now real detalle_id db
  = match _recalcular_total_venta now real (DetalleVenta.venta_id d)
            (with_detalles
               (filter (fun r => negb (DetalleVenta.id r =? detalle_id))
                       (detalles_ventas db)) db) with
    | Ok (_, db') => Ok (true, db')
    | Raise e => Raise e
    end.
Proof.
  intros Hfind. unfold delete_detalle, get_detalle.
  rewrite (by_id_found _ _ _ _ _ _ Hfind).
  apply find_id_eq in Hfind. destruct Hfind as [Hin Hid].
  unfold bind, session_delete_detalle, DELETE_detalle. rewrite Hid.
  destruct (_recalcular_total_venta _ _ _ _) as [[[] db2]|e]; reflexivity.
Qed.

Lemma delete_detalle_Ok now real detalle_id db b db' :
  delete_detalle now real detalle_id db = Ok (b, db') ->
  clientes db' = clientes db /\ productos db' = productos db
  /\ map Venta.id (ventas db') = map Venta.id (ventas db)
  /\ ((b = false /\ db' = db
       /\ find (fun d => DetalleVenta.id d =? detalle_id) (detalles_ventas db) = None)
      \/ (b = true
          /\ detalles_ventas db'
             = filter (fun r => negb (DetalleVenta.id r =? detalle_id))
                      (detalles_ventas db))).
Proof.
  intros H.
  destruct (find (fun d => DetalleVenta.id d =? detalle_id) (detalles_ventas db))
    as [d|] eqn:Hfind.
  - rewrite (delete_detalle_found _ _ _ _ _ Hfind) in H.
    destruct (_recalcular_total_venta _ _ _ _) as [[[] db2]|e] eqn:Hrec; [|discriminate].
    inversion H; subst; clear H.
    apply _recalcular_total_venta_Ok in Hrec.
    destruct Hrec as (Hc & Hp & Hd & Hv & _). simpl in *.
    repeat split; auto.
  - unfold delete_detalle, get_detalle in H. apply by_id_Ok in H.
    destruct H as [H _]. rewrite Hfind in H. unfold ret in H. inversion H; subst.
    repeat split; auto.
Qed.


Lemma delete_producto_found producto_id p db :
  find (fun p => Producto.id p =? producto_id) (productos db) = Some p ->
  delete_producto producto_id db
  = if existsb (fun d => DetalleVenta.producto_id d =? producto_id) (detalles_ventas db)
    then Raise IntegrityError
    else Ok (true, with_productos
                     (filter (fun r => negb (Producto.id r =? producto_id)) (productos db))
                     db).
Proof.
  intros Hfind. unfold delete_producto, get_producto.
  rewrite (by_id_found _ _ _ _ _ _ Hfind). unfold bind, query.
  apply find_id_eq in Hfind. destruct Hfind as [Hin Hid].
  unfold session_delete_producto, bind, query. rewrite Hid.
  destruct (filter _ (detalles_ventas db)) as [|d ds] eqn:Ef; simpl.
  - replace (existsb _ (detalles_ventas db)) with false.
    2:{ symmetry. apply existsb_false_iff. intros d Hd.
        destruct (DetalleVenta.producto_id d =? producto_id) eqn:E; [|reflexivity].
        assert (In d []) as [] . rewrite <- Ef. apply filter_In. auto. }
    unfold DELETE_producto, bind, constraint.
    replace (existsb _ (detalles_ventas db)) with false; [reflexivity|].
    symmetry. apply existsb_false_iff. intros d Hd.
    destruct (DetalleVenta.producto_id d =? producto_id) eqn:E; [|reflexivity].
    assert (In d []) as []. rewrite <- Ef. apply filter_In. auto.
  - replace (existsb _ (detalles_ventas db)) with true; [reflexivity|].
    symmetry. apply existsb_exists. exists d.
    assert (In d (d :: ds)) as Hd by (left; reflexivity).
    rewrite <- Ef in Hd. apply filter_In in Hd. exact Hd.
Qed.


(** C7: deleting a customer that exists commits; no sale of that customer
    is left, no line item of a sale that was that customer's is left,
    nothing is added, and the table of products is as it was; with ids
    unique, the sales of other customers and their line items stay.
    Deleting a sale that exists commits; the sale is gone, no line item of
    it is left, nothing is added, customers and products are as they were;
    the other sales stay and, with ids unique, so do their line items. *)
Theorem delete_cascades db :
  (forall cliente_id c,
      find (fun c => Cliente.id c =? cliente_id) (clientes db) = Some c ->
      exists db',
        transaction (delete_cliente cliente_id) db = (Ok true, db')
        /\ find (fun c => Cliente.id c =? cliente_id) (clientes db') = None
        /\ ventas_de cliente_id db' = []
        /\ (forall v, In v (ventas db) -> Venta.cliente_id v = cliente_id ->
              ~ In v (ventas db') /\ detalles_de (Venta.id v) db' = [])
        /\ (forall v, In v (ventas db') -> In v (ventas db))
        /\ (forall d, In d (detalles_ventas db') -> In d (detalles_ventas db))
        /\ productos db' = productos db
        /\ (unicos (map Venta.id (ventas db)) = true ->
            unicos (map DetalleVenta.id (detalles_ventas db)) = true ->
            (forall v, In v (ventas db) -> Venta.cliente_id v <> cliente_id ->
               In v (ventas db'))
            /\ (forall d, In d (detalles_ventas db) ->
                  (forall v, In v (ventas db) -> Venta.cliente_id v = cliente_id ->
                     DetalleVenta.venta_id d <> Venta.id v) ->
                  In d (detalles_ventas db'))))
  /\ (forall venta_id v,
        find (fun v => Venta.id v =? venta_id) (ventas db) = Some v ->
        exists db',
          transaction (delete_venta venta_id) db = (Ok true, db')
          /\ find (fun v => Venta.id v =? venta_id) (ventas db') = None
          /\ detalles_de venta_id db' = []
          /\ (forall d, In d (detalles_ventas db') -> In d (detalles_ventas db))
          /\ clientes db' = clientes db
          /\ productos db' = productos db
          /\ (forall w, In w (ventas db) -> Venta.id w <> venta_id -> In w (ventas db'))
          /\ (unicos (map DetalleVenta.id (detalles_ventas db)) = true ->
              forall d, In d (detalles_ventas db) ->
                DetalleVenta.venta_id d <> venta_id -> In d (detalles_ventas db'))).
Proof.
  unfold transaction. split.
  - intros cid c H.
    destruct (delete_cliente_found cid c db H)
      as (db' & -> & Hc & Hp & Hv & Hd & Hnone & Hk).
    exists db'. split; [reflexivity|].
    split; [rewrite Hc; apply (find_none_filter Cliente.id)|].
    split; [exact Hnone|].
    split; [|split; [|split; [|split]]].
    + intros v Hin Hcid.
      assert (Hown : In v (ventas_de cid db)).
      { unfold ventas_de. apply filter_In. split; [exact Hin|].
        apply Z.eqb_eq. exact Hcid. }
      split.
      * intros Hin'. rewrite Hv in Hin'. apply filter_In in Hin'.
        destruct Hin' as [_ Hn]. apply negb_true_iff in Hn.
        rewrite existsb_false_iff in Hn. specialize (Hn v Hown).
        rewrite Z.eqb_refl in Hn. discriminate.
      * unfold detalles_de. apply filter_nil_iff. intros d Hdin.
        apply Z.eqb_neq. apply (Hd d Hdin). exact Hown.
    + intros v Hin. rewrite Hv in Hin. apply filter_In in Hin. apply Hin.
    + intros d Hdin. apply Hd. exact Hdin.
    + exact Hp.
    + intros Huv Hud. apply unicos_NoDup in Huv, Hud. split.
      * intros v Hin Hne. rewrite Hv. apply filter_In. split; [exact Hin|].
        apply negb_true_iff. apply existsb_false_iff. intros w Hw.
        apply Z.eqb_neq. intros E. unfold ventas_de in Hw. apply filter_In in Hw.
        destruct Hw as [Hw Hcw]. apply Z.eqb_eq in Hcw.
        rewrite (pid_inj Venta.id _ v w Huv Hin Hw E) in Hne. contradiction.
      * intros d Hdin Hother. apply Hk; [exact Hdin|].
        intros x w Hx Hw E. unfold ventas_de in Hw. apply filter_In in Hw.
        destruct Hw as [Hw Hcw]. apply Z.eqb_eq in Hcw.
        rewrite (pid_inj DetalleVenta.id _ x d Hud Hx Hdin E).
        apply Hother; assumption.
  - intros vid v H.
    destruct (delete_venta_found vid v db H)
      as (db' & -> & Hc & Hp & Hv & Hd & Hnone & Hk).
    exists db'. split; [reflexivity|].
    split; [rewrite Hv; apply (find_none_filter Venta.id)|].
    split; [exact Hnone|]. split; [exact Hd|]. split; [exact Hc|].
    split; [exact Hp|]. split.
    + intros w Hin Hne. rewrite Hv. apply filter_In. split; [exact Hin|].
      apply negb_true_iff. apply Z.eqb_neq. exact Hne.
    + intros Hud d Hdin Hne. apply unicos_NoDup in Hud. apply Hk; [exact Hdin|].
      intros x Hx E. rewrite (pid_inj DetalleVenta.id _ x d Hud Hx Hdin E). exact Hne.
Qed.

(** ** Foreign keys at creation *)

Lemma bind_Raise_inv {A B} (m : Session A) (k : A -> Session B) db e :
  bind m k db = Raise e ->
  m db = Raise e \/ exists a db1, m db = Ok (a, db1) /\ k a db1 = Raise e.
Proof.
  unfold bind. destruct (m db) as [[a db1]|e0]; intros H.
  - right. exists a, db1. auto.
  - left. inversion H. reflexivity.
Qed.

(** With its integers in the 64 bits, what an INSERT of a line item can
    raise is [IntegrityError]. *)
Lemma INSERT_detalle_error now u p v pr de ca db e :
  INSERT_detalle now u p v pr de ca db = Raise e ->
  int64 pr && int64 de && int64 ca = true ->
  existsb (fun x => Producto.id x =? p) (productos db) || int64 p = true ->
  existsb (fun x => Venta.id x =? v) (ventas db) || int64 v = true ->
  e = IntegrityError.
Proof.
  unfold INSERT_detalle, bind, params, param_key, constraint. cbn [forallb].
  intros H H1 H2 H3. rewrite andb_true_r, andb_assoc, H1, H2, H3 in H.
  destruct (negb _ && _ && _); inversion H. reflexivity.
Qed.

Lemma INSERT_detalles_error now uuid4 vid dets : forall k db e,
  INSERT_detalles now uuid4 vid dets k db = Raise e ->
  lote_int64 dets = true ->
  forallb (fun det => int64 (DetalleVentaCreate.producto_id det)) dets = true ->
  existsb (fun v => Venta.id v =? vid) (ventas db) = true ->
  e = IntegrityError.
Proof.
  induction dets as [|det rest IH]; intros k db e H Hl Hp Hv; cbn [INSERT_detalles] in H.
  - discriminate.
  - cbn [lote_int64 forallb] in Hl, Hp.
    apply andb_prop in Hl. destruct Hl as [Hl1 Hl2].
    apply andb_prop in Hp. destruct Hp as [Hp1 Hp2].
    apply bind_Raise_inv in H. destruct H as [H|(row & db1 & Hins & H)].
    + apply INSERT_detalle_error in H; auto.
      * rewrite Hp1. apply orb_true_r.
      * rewrite Hv. reflexivity.
    + apply INSERT_detalle_Ok in Hins. destruct Hins as (_ & -> & _).
      apply IH in H; auto.
Qed.

Lemma create_venta_error now uuid4 data db e :
  create_venta now uuid4 data db = Raise e ->
  int64 (VentaCreate.cliente_id data) = true ->
  lote_int64 (VentaCreate.detalles data) = true ->
  forallb (fun det => int64 (DetalleVentaCreate.producto_id det))
          (VentaCreate.detalles data) = true ->
  int64 (total_del_lote (VentaCreate.detalles data)) = true ->
  e = IntegrityError.
Proof.
  unfold create_venta. intros H Hc Hl Hp Ht.
  apply bind_Raise_inv in H. destruct H as [H|(row & db1 & Hins & H)].
  { unfold INSERT_venta, bind, param_key, constraint in H.
    rewrite Hc, orb_true_r in H. destruct (negb _ && _); inversion H. reflexivity. }
  apply INSERT_venta_Ok in Hins. destruct Hins as (Erow & -> & _).
  apply bind_Raise_inv in H. destruct H as [H|(v' & db2 & Hup & H)].
  { destruct (UPDATE_venta_total_succeeds now row
                (create_venta_loop (VentaCreate.detalles data) 0)
                (with_ventas (ventas db ++ [row]) db)) as (v' & db2 & Hup).
    { right. rewrite create_venta_loop_total. exact Ht. }
    rewrite Hup in H. discriminate. }
  apply UPDATE_venta_total_Ok in Hup. destruct Hup as (_ & _ & _ & _ & _ & Hv2 & _).
  apply bind_Raise_inv in H. destruct H as [H|(x & db3 & _ & H)]; [|discriminate].
  apply INSERT_detalles_error in H; auto.
  rewrite Hv2. simpl. rewrite existsb_map_eq, existsb_app. simpl.
  apply orb_true_iff. right.
  destruct (Venta.id row =? Venta.id row) eqn:E;
    [|rewrite Z.eqb_refl in E; discriminate].
  destruct (_ =? Venta.total row); simpl; rewrite Z.eqb_refl; reflexivity.
Qed.

Lemma create_detalle_Ok_references now real u data db d db' :
  create_detalle now real u data db = Ok (d, db') ->
  existsb (fun p => Producto.id p =? DetalleVentaCreateStandalone.producto_id data)
          (productos db) = true
  /\ existsb (fun v => Venta.id v =? DetalleVentaCreateStandalone.venta_id data)
             (ventas db) = true.
Proof.
  unfold create_detalle. intros H. apply bind_Ok in H.
  destruct H as (a & db1 & H & _).
  apply INSERT_detalle_Ok in H. tauto.
Qed.

Lemma create_detalle_error now real u data db e :
  create_detalle now real u data db = Raise e ->
  existsb (fun p => Producto.id p =? DetalleVentaCreateStandalone.producto_id data)
          (productos db) = false
  \/ existsb (fun v => Venta.id v =? DetalleVentaCreateStandalone.venta_id data)
             (ventas db) = false ->
  int64 (DetalleVentaCreateStandalone.producto_id data) = true ->
  int64 (DetalleVentaCreateStandalone.venta_id data) = true ->
  int64 (DetalleVentaCreateStandalone.precio data)
  && int64 (DetalleVentaCreateStandalone.descuento data)
  && int64 (DetalleVentaCreateStandalone.cantidad data) = true ->
  e = IntegrityError.
Proof.
  unfold create_detalle. intros H Hfk Hp Hv Hl.
  apply bind_Raise_inv in H. destruct H as [H|(row & db1 & Hins & H)].
  - apply INSERT_detalle_error in H; auto.
    + rewrite Hp. apply orb_true_r.
    + rewrite Hv. apply orb_true_r.
  - apply INSERT_detalle_Ok in Hins. destruct Hins as (_ & _ & H1 & H2 & _).
    destruct Hfk; congruence.
Qed.

(** C8, as the code has it: with the integers of the request in the 64
    bits, [create_venta] for a customer that does not exist, or with a
    line item for a product that does not exist, and [create_detalle]
    for a product or a sale that does not exist, raise [IntegrityError],
    and the store after the request is the store before it. *)
Theorem foreign_keys_enforced now db :
  (forall uuid4 data,
      int64 (VentaCreate.cliente_id data) = true ->
      lote_int64 (VentaCreate.detalles data) = true ->
      forallb (fun det => int64 (DetalleVentaCreate.producto_id det))
              (VentaCreate.detalles data) = true ->
      int64 (total_del_lote (VentaCreate.detalles data)) = true ->
      existsb (fun c => Cliente.id c =? VentaCreate.cliente_id data) (clientes db) = false
      \/ forallb (fun det => existsb (fun p => Producto.id p =? DetalleVentaCreate.producto_id det)
                                     (productos db))
                 (VentaCreate.detalles data) = false ->
      transaction (create_venta now uuid4 data) db = (Raise IntegrityError, db))
  /\ (forall real u data,
        int64 (DetalleVentaCreateStandalone.producto_id data) = true ->
        int64 (DetalleVentaCreateStandalone.venta_id data) = true ->
        int64 (DetalleVentaCreateStandalone.precio data)
        && int64 (DetalleVentaCreateStandalone.descuento data)
        && int64 (DetalleVentaCreateStandalone.cantidad data) = true ->
        existsb (fun p => Producto.id p =? DetalleVentaCreateStandalone.producto_id data)
                (productos db) = false
        \/ existsb (fun v => Venta.id v =? DetalleVentaCreateStandalone.venta_id data)
                   (ventas db) = false ->
        transaction (create_detalle now real u data) db = (Raise IntegrityError, db)).
Proof.
  unfold transaction. split.
  - intros uuid4 data Hc Hl Hp Ht H.
    destruct (create_venta now uuid4 data db) as [[v db']|e] eqn:E.
    + apply create_venta_Ok in E. destruct E as (_ & _ & _ & _ & E1 & E2 & _).
      destruct H as [H|H]; congruence.
    + apply create_venta_error in E; auto. subst e. reflexivity.
  - intros real u data Hp Hv Hl H.
    destruct (create_detalle now real u data db) as [[d db']|e] eqn:E.
    + apply create_detalle_Ok_references in E. destruct E as [E1 E2].
      destruct H as [H|H]; congruence.
    + apply create_detalle_error in E; auto. subst e. reflexivity.
Qed.

(** ** ORDER BY, LIMIT, GROUP BY *)

Lemma firstn_In {A} (n : nat) (l : list A) (a : A) : In a (firstn n l) -> In a l.
Proof.
  revert l. induction n as [|n IH]; intros l H; simpl in H; [destruct H|].
  destruct l as [|x l]; [destruct H|]. destruct H as [<-|H]; [left; reflexivity|].
  right. apply IH. exact H.
Qed.

Section Ordering.
Context {A : Type} (key : A -> option Z).








End Ordering.











Section Join.
Context {C P : Type} (fk : C -> Z) (pid : P -> Z) (pname : P -> string).





End Join.

(** ** The reports *)








(** *** productos_mas_vendidos *)











(** *** clientes_con_mas_ventas *)














(** ** What every request keeps *)

Lemma run_reachable rs : forall db, reachable db -> reachable (run rs db).
Proof.
  induction rs as [|[now r] rs IH]; intros db H; simpl; [exact H|].
  apply IH. apply reachable_step. exact H.
Qed.

Lemma NoDup_unicos (ids : list Z) : NoDup ids -> unicos ids = true.
Proof.
  induction 1 as [|i ids Hi _ IH]; simpl; [reflexivity|].
  rewrite IH, andb_true_r. apply negb_true_iff. apply existsb_false_iff.
  intros j Hj. apply Z.eqb_neq. intros ->. contradiction.
Qed.

Lemma NoDup_map_filter {A} (f : A -> Z) (p : A -> bool) (l : list A) :
  NoDup (map f l) -> NoDup (map f (filter p l)).
Proof.
  induction l as [|a l IH]; simpl; intros H; [constructor|].
  inversion H as [|? ? Ha Hl]; subst. destruct (p a); simpl; [|auto].
  constructor; [|auto]. intros Hin. apply Ha.
  apply in_map_iff in Hin. destruct Hin as (x & E & Hx).
  apply filter_In in Hx. rewrite <- E. apply in_map. apply Hx.
Qed.

Lemma NoDup_map_snoc {A} (f : A -> Z) (l : list A) (a : A) :
  NoDup (map f l) -> f a = next_rowid (map f l) -> NoDup (map f (l ++ [a])).
Proof.
  intros Hnd Hid. rewrite map_app. simpl.
  apply NoDup_app; [exact Hnd|constructor; [intros []|constructor]|].
  intros i Hi [<-|[]]. apply next_rowid_fresh in Hi. lia.
Qed.

Lemma map_id_update {A} (f : A -> Z) (set : A -> A) (i : Z) (l : list A) :
  (forall a, f (set a) = f a) ->
  map f (map (fun r => if f r =? i then set r else r) l) = map f l.
Proof.
  intros H. rewrite map_map. apply map_ext. intros r.
  destruct (f r =? i); [apply H|reflexivity].
Qed.

Lemma filter_ext_In {A} (p q : A -> bool) (l : list A) :
  (forall a, In a l -> p a = q a) -> filter p l = filter q l.
Proof.
  induction l as [|a l IH]; intros H; simpl; [reflexivity|].
  rewrite (H a (or_introl eq_refl)), IH; [reflexivity|].
  intros x Hx. apply H. right. exact Hx.
Qed.

Lemma filter_map_update {A} (p : A -> bool) (f : A -> A) (l : list A) :
  (forall a, In a l -> f a = a \/ (p (f a) = false /\ p a = false)) ->
  filter p (map f l) = filter p l.
Proof.
  induction l as [|a l IH]; intros H; simpl; [reflexivity|].
  rewrite IH by (intros x Hx; apply H; right; exact Hx).
  destruct (H a (or_introl eq_refl)) as [->|[-> ->]]; reflexivity.
Qed.

(** Requests on customers and products leave sales and line items alone. *)

Lemma Inv_with_clientes l db :
  Inv db -> NoDup (map Cliente.id l) -> Inv (with_clientes l db).
Proof.
  intros (Hc & Hp & Hv & Hd & Hfk & Ht) Hl. unfold Inv. simpl.
  repeat split; assumption.
Qed.

Lemma Inv_with_productos l db :
  Inv db -> NoDup (map Producto.id l) -> Inv (with_productos l db).
Proof.
  intros (Hc & Hp & Hv & Hd & Hfk & Ht) Hl. unfold Inv. simpl.
  repeat split; assumption.
Qed.

Lemma create_cliente_Inv now u data db c db' :
  Inv db -> create_cliente now u data db = Ok (c, db') -> Inv db'.
Proof.
  intros HI H. unfold create_cliente, INSERT_cliente in H. session_inv H.
  ok_inv. apply Inv_with_clientes; [exact HI|].
  apply NoDup_map_snoc; [apply HI|reflexivity].
Qed.

Lemma update_cliente_Inv now i data db r db' :
  Inv db -> update_cliente now i data db = Ok (r, db') -> Inv db'.
Proof.
  intros HI H. unfold update_cliente, get_cliente in H.
  apply by_id_Ok in H. destruct H as [H _].
  destruct (find _ (clientes db)) as [c|]; [|session_inv H; exact HI].
  apply bind_Ok in H. destruct H as (c' & db1 & Hup & H). session_inv H.
  unfold UPDATE_cliente in Hup.
  destruct (_ && _ && _) in Hup; [session_inv Hup; exact HI|].
  session_inv Hup. ok_inv.
  apply Inv_with_clientes; [exact HI|].
  rewrite (map_id_update Cliente.id); [apply HI|reflexivity].
Qed.

Lemma create_producto_Inv now u data db p db' :
  Inv db -> create_producto now u data db = Ok (p, db') -> Inv db'.
Proof.
  intros HI H. unfold create_producto, INSERT_producto in H. session_inv H.
  ok_inv. apply Inv_with_productos; [exact HI|].
  apply NoDup_map_snoc; [apply HI|reflexivity].
Qed.

Lemma update_producto_Inv now i data db r db' :
  Inv db -> update_producto now i data db = Ok (r, db') -> Inv db'.
Proof.
  intros HI H. unfold update_producto, get_producto in H.
  apply by_id_Ok in H. destruct H as [H _].
  destruct (find _ (productos db)) as [p|]; [|session_inv H; exact HI].
  apply bind_Ok in H. destruct H as (p' & db1 & Hup & H). session_inv H.
  unfold UPDATE_producto in Hup.
  destruct (_ && _ && _) in Hup; [session_inv Hup; exact HI|].
  session_inv Hup. ok_inv.
  apply Inv_with_productos; [exact HI|].
  rewrite (map_id_update Producto.id); [apply HI|reflexivity].
Qed.

Lemma delete_producto_Inv i db r db' :
  Inv db -> delete_producto i db = Ok (r, db') -> Inv db'.
Proof.
  intros HI H. destruct (find (fun p => Producto.id p =? i) (productos db)) as [p|] eqn:E.
  - rewrite (delete_producto_found i p db E) in H.
    destruct (existsb _ _); [discriminate|]. inversion H; subst.
    apply Inv_with_productos; [exact HI|]. apply NoDup_map_filter. apply HI.
  - unfold delete_producto, get_producto in H. apply by_id_Ok in H.
    destruct H as [H _]. rewrite E in H. session_inv H. exact HI.
Qed.

(** An UPDATE of sales that keeps ids and totals. *)

Lemma Inv_ventas_map (f : Venta.t -> Venta.t) db :
  (forall r, Venta.id (f r) = Venta.id r /\ Venta.total (f r) = Venta.total r) ->
  Inv db -> Inv (with_ventas (map f (ventas db)) db).
Proof.
  intros Hf (Hc & Hp & Hv & Hd & Hfk & Ht). unfold Inv. simpl.
  split; [exact Hc|]. split; [exact Hp|]. split; [|split; [exact Hd|split]].
  - rewrite map_map. erewrite map_ext; [exact Hv|]. intros r. apply Hf.
  - intros d Hin. destruct (Hfk d Hin) as (v & Hvin & E).
    exists (f v). split; [apply in_map; exact Hvin|].
    rewrite (proj1 (Hf v)). exact E.
  - intros v' Hin. simpl in Hin. apply in_map_iff in Hin.
    destruct Hin as (r & <- & Hr). destruct (Hf r) as [-> ->].
    unfold detalles_de. simpl. apply (Ht r Hr).
Qed.

Lemma update_venta_Inv now i data db r db' :
  Inv db -> update_venta now i data db = Ok (r, db') -> Inv db'.
Proof.
  intros HI H. unfold update_venta, get_venta in H.
  apply by_id_Ok in H. destruct H as [H _].
  destruct (find _ (ventas db)) as [v|]; [|session_inv H; exact HI].
  apply bind_Ok in H. destruct H as (v' & db1 & Hup & H). session_inv H.
  apply UPDATE_venta_cliente_Ok in Hup.
  destruct Hup as (_ & _ & _ & _ & _ & _ & _ & Hc & Hp & Hd & Hv & _).
  replace db' with (with_ventas (ventas db') db)
    by (destruct db, db'; unfold with_ventas; simpl in *; congruence).
  rewrite Hv.
  match goal with
  | |- Inv (with_ventas (map ?f _) _) => apply (Inv_ventas_map f); [|exact HI]
  end.
  intros r. destruct (Venta.id r =? Venta.id v); [|split; reflexivity].
  destruct (_ =? _); split; reflexivity.
Qed.

(** Deleting sales together with their line items. *)

Lemma session_delete_venta_filter v db db' :
  session_delete_venta v db = Ok (tt, db') ->
  exists keep, detalles_ventas db' = filter keep (detalles_ventas db).
Proof.
  unfold session_delete_venta. intros H.
  apply bind_Ok in H. destruct H as (hijos & db1 & Hq & H). session_inv Hq.
  apply bind_Ok in H. destruct H as ([] & db2 & Hf & H).
  rewrite forM_delete_detalles in Hf. inversion Hf; subst; clear Hf.
  unfold DELETE_venta in H. session_inv H. ok_inv. simpl.
  eexists. reflexivity.
Qed.

Lemma forM_delete_ventas_filter vs : forall db db',
  forM_ vs session_delete_venta db = Ok (tt, db') ->
  exists keep, detalles_ventas db' = filter keep (detalles_ventas db).
Proof.
  induction vs as [|v vs IH]; intros db db' H; simpl in H.
  - session_inv H. exists (fun _ => true).
    symmetry. apply forallb_filter_id. apply forallb_forall. reflexivity.
  - apply bind_Ok in H. destruct H as ([] & db1 & H0 & H1).
    apply session_delete_venta_filter in H0. destruct H0 as (k1 & E1).
    apply IH in H1. destruct H1 as (k2 & E2).
    exists (fun d => k1 d && k2 d). rewrite E2, E1. apply filter_filter.
Qed.

Lemma Inv_delete db db' (q : Venta.t -> bool) (keep : DetalleVenta.t -> bool) :
  Inv db ->
  NoDup (map Cliente.id (clientes db')) ->
  productos db' = productos db ->
  ventas db' = filter q (ventas db) ->
  detalles_ventas db' = filter keep (detalles_ventas db) ->
  (forall d, In d (detalles_ventas db') ->
     exists v, In v (ventas db') /\ Venta.id v = DetalleVenta.venta_id d) ->
  (forall v d, In v (ventas db') -> In d (detalles_ventas db) ->
     DetalleVenta.venta_id d = Venta.id v -> keep d = true) ->
  Inv db'.
Proof.
  intros (Hc & Hp & Hv & Hd & Hfk & Ht) Hc' Hp' Hv' Hd' Hfk' Hkeep. unfold Inv.
  split; [exact Hc'|]. split; [rewrite Hp'; exact Hp|].
  split; [rewrite Hv'; apply NoDup_map_filter; exact Hv|].
  split; [rewrite Hd'; apply NoDup_map_filter; exact Hd|].
  split; [exact Hfk'|].
  intros v Hin. assert (Hin0 : In v (ventas db)).
  { rewrite Hv' in Hin. apply filter_In in Hin. apply Hin. }
  replace (detalles_de (Venta.id v) db') with (detalles_de (Venta.id v) db);
    [apply Ht; exact Hin0|].
  unfold detalles_de. rewrite Hd', filter_filter.
  apply filter_ext_In. intros d Hdin.
  destruct (DetalleVenta.venta_id d =? Venta.id v) eqn:E;
    [|rewrite andb_false_r; reflexivity].
  apply Z.eqb_eq in E. rewrite (Hkeep v d Hin Hdin E). reflexivity.
Qed.

Lemma forM_delete_ventas_Inv vs db db' :
  Inv db -> forM_ vs session_delete_venta db = Ok (tt, db') -> Inv db'.
Proof.
  intros HI H.
  destruct (forM_delete_ventas_filter vs db db' H) as (keep & Hkeep).
  destruct (forM_delete_ventas vs db) as (db1 & E & Hc & Hp & Hv & Hd & Hk).
  rewrite E in H. inversion H; subst db1; clear H.
  assert (Hout : forall v, In v (ventas db') -> forall w, In w vs -> Venta.id v <> Venta.id w).
  { intros v Hin w Hw Eid. rewrite Hv in Hin. apply filter_In in Hin.
    destruct Hin as [_ Hn]. apply negb_true_iff in Hn.
    rewrite existsb_false_iff in Hn. specialize (Hn w Hw).
    apply Z.eqb_neq in Hn. contradiction. }
  eapply Inv_delete; try eassumption.
  - rewrite Hc. apply HI.
  - intros d Hin. apply Hd in Hin. destruct Hin as [Hin Hne].
    destruct HI as (_ & _ & _ & _ & Hfk & _).
    destruct (Hfk d Hin) as (v & Hvin & Eid). exists v. split; [|exact Eid].
    rewrite Hv. apply filter_In. split; [exact Hvin|].
    apply negb_true_iff. apply existsb_false_iff. intros w Hw.
    apply Z.eqb_neq. rewrite Eid. apply Hne. exact Hw.
  - intros v d Hvin Hdin Eid.
    assert (In d (detalles_ventas db')) as Hin'.
    { apply Hk; [exact Hdin|]. intros x w Hx Hw Ex.
      destruct HI as (_ & _ & _ & Hnd & _).
      rewrite (pid_inj DetalleVenta.id _ x d Hnd Hx Hdin Ex), Eid.
      apply Hout; assumption. }
    rewrite Hkeep in Hin'. apply filter_In in Hin'. apply Hin'.
Qed.

Lemma delete_venta_Inv i db r db' :
  Inv db -> delete_venta i db = Ok (r, db') -> Inv db'.
Proof.
  intros HI H. unfold delete_venta, get_venta in H.
  apply by_id_Ok in H. destruct H as [H _].
  destruct (find _ (ventas db)) as [v|]; [|session_inv H; exact HI].
  apply bind_Ok in H. destruct H as ([] & db1 & Hdel & H). session_inv H.
  apply (forM_delete_ventas_Inv [v] db); [exact HI|].
  simpl. unfold bind. rewrite Hdel. reflexivity.
Qed.

Lemma delete_cliente_Inv i db r db' :
  Inv db -> delete_cliente i db = Ok (r, db') -> Inv db'.
Proof.
  intros HI H. unfold delete_cliente, get_cliente in H.
  apply by_id_Ok in H. destruct H as [H _].
  destruct (find _ (clientes db)) as [c|]; [|session_inv H; exact HI].
  apply bind_Ok in H. destruct H as ([] & db1 & Hdel & H). session_inv H.
  unfold session_delete_cliente in Hdel.
  apply bind_Ok in Hdel. destruct Hdel as (hijas & db2 & Hq & Hdel). session_inv Hq.
  apply bind_Ok in Hdel. destruct Hdel as ([] & db3 & Hf & Hdel).
  apply forM_delete_ventas_Inv in Hf; [|exact HI].
  unfold DELETE_cliente in Hdel. session_inv Hdel.
  ok_inv. apply Inv_with_clientes; [exact Hf|]. apply NoDup_map_filter. apply Hf.
Qed.

(** Writing a line item, then recomputing the total of its sale. *)

Lemma UPDATE_venta_total_Inv_salvo now v total db v' db' :
  Inv_salvo (Venta.id v) db ->
  UPDATE_venta_total now v total db = Ok (v', db') ->
  Inv_salvo (Venta.id v) db'.
Proof.
  intros (Hc & Hp & Hv & Hd & Hfk & Ht) H.
  apply UPDATE_venta_total_Ok in H. destruct H as (_ & _ & Hc1 & Hp1 & Hd1 & Hv1 & _).
  unfold Inv_salvo. rewrite Hc1, Hp1, Hd1.
  split; [exact Hc|]. split; [exact Hp|]. split; [|split; [exact Hd|split]].
  - rewrite Hv1, map_map. erewrite map_ext; [exact Hv|]. intros r.
    destruct (Venta.id r =? Venta.id v); [|reflexivity].
    destruct (_ =? Venta.total v); reflexivity.
  - intros d Hin. destruct (Hfk d Hin) as (w & Hw & Ew).
    rewrite Hv1. eexists. split; [apply in_map; exact Hw|].
    destruct (Venta.id w =? Venta.id v); [|exact Ew].
    destruct (_ =? Venta.total v); exact Ew.
  - intros w Hin Hne. rewrite Hv1 in Hin. apply in_map_iff in Hin.
    destruct Hin as (r & <- & Hr).
    assert (Hde : forall i, detalles_de i db' = detalles_de i db)
      by (intros i; unfold detalles_de; rewrite Hd1; reflexivity).
    destruct (Venta.id r =? Venta.id v) eqn:Er.
    + apply Z.eqb_eq in Er. destruct Hne.
      destruct (_ =? Venta.total v); simpl; exact Er.
    + apply Z.eqb_neq in Er. rewrite Hde. apply Ht; assumption.
Qed.

Lemma UPDATE_venta_total_Inv now v total db v' db' :
  Inv_salvo (Venta.id v) db -> In v (ventas db) ->
  cuadra total (detalles_de (Venta.id v) db) ->
  UPDATE_venta_total now v total db = Ok (v', db') ->
  Inv db'.
Proof.
  intros (Hc & Hp & Hv & Hd & Hfk & Ht) Hvin Htotal H.
  apply UPDATE_venta_total_Ok in H. destruct H as (_ & _ & Hc1 & Hp1 & Hd1 & Hv1 & _).
  unfold Inv. rewrite Hc1, Hp1, Hd1.
  split; [exact Hc|]. split; [exact Hp|]. split; [|split; [exact Hd|split]].
  - rewrite Hv1, map_map. erewrite map_ext; [exact Hv|]. intros r.
    destruct (Venta.id r =? Venta.id v); [|reflexivity].
    destruct (_ =? Venta.total v); reflexivity.
  - intros d Hin. destruct (Hfk d Hin) as (w & Hw & Ew).
    rewrite Hv1. eexists. split; [apply in_map; exact Hw|].
    destruct (Venta.id w =? Venta.id v); [|exact Ew].
    destruct (_ =? Venta.total v); exact Ew.
  - intros w Hin. rewrite Hv1 in Hin. apply in_map_iff in Hin.
    destruct Hin as (r & <- & Hr).
    assert (Hde : forall i, detalles_de i db' = detalles_de i db)
      by (intros i; unfold detalles_de; rewrite Hd1; reflexivity).
    destruct (Venta.id r =? Venta.id v) eqn:Er.
    + apply Z.eqb_eq in Er.
      assert (r = v) by (apply (pid_inj Venta.id (ventas db)); assumption).
      subst r. destruct (_ =? Venta.total v) eqn:Et.
      * apply Z.eqb_eq in Et. rewrite Hde, <- Et. exact Htotal.
      * simpl. rewrite Hde. exact Htotal.
    + apply Z.eqb_neq in Er. rewrite Hde. apply Ht; assumption.
Qed.

Lemma _recalcular_total_venta_Inv now real venta_id db x db' :
  Inv_salvo venta_id db ->
  _recalcular_total_venta now real venta_id db = Ok (x, db') ->
  Inv db'.
Proof.
  intros HI H. unfold _recalcular_total_venta in H.
  apply bind_Ok in H. destruct H as (s & db1 & Hs & H).
  apply select_Ok in Hs. destruct Hs as [Hs ->].
  apply bind_Ok in H. destruct H as (r & db1 & Hq & H). session_inv Hq.
  destruct (find _ (ventas db1)) as [v|] eqn:Hfind.
  - apply find_id_eq in Hfind. destruct Hfind as [Hvin Hvid]. subst venta_id.
    apply bind_Ok in H. destruct H as (v' & db2 & Hup & H). session_inv H.
    eapply UPDATE_venta_total_Inv; [exact HI|exact Hvin| |exact Hup].
    intros He. apply (coalesce_sum_Ok _ _ Hs) in He. rewrite He. reflexivity.
  - session_inv H.
    destruct HI as (Hc & Hp & Hv & Hd & Hfk & Ht).
    unfold Inv. repeat split; try assumption.
    intros v Hin. apply Ht; [exact Hin|]. intros E.
    apply (find_none _ _ Hfind) in Hin. apply Z.eqb_neq in Hin. contradiction.
Qed.

Lemma Inv_Inv_salvo venta_id db : Inv db -> Inv_salvo venta_id db.
Proof.
  intros (Hc & Hp & Hv & Hd & Hfk & Ht). unfold Inv_salvo.
  repeat split; try assumption. intros v Hin _. apply Ht. exact Hin.
Qed.

Lemma INSERT_detalle_Inv_salvo now u p v pr de ca db row db' :
  Inv_salvo v db -> INSERT_detalle now u p v pr de ca db = Ok (row, db') ->
  Inv_salvo v db'.
Proof.
  intros (Hc & Hp & Hv & Hd & Hfk & Ht) H.
  apply INSERT_detalle_Ok in H. destruct H as (Hrow & -> & _ & Hex & _).
  unfold Inv_salvo. simpl.
  split; [exact Hc|]. split; [exact Hp|]. split; [exact Hv|]. split; [|split].
  - apply NoDup_map_snoc; [exact Hd|]. rewrite Hrow. reflexivity.
  - intros d Hin. apply in_app_or in Hin. destruct Hin as [Hin|[<-|[]]].
    + apply Hfk. exact Hin.
    + apply existsb_exists in Hex. destruct Hex as (w & Hw & Ew).
      apply Z.eqb_eq in Ew. exists w. rewrite Hrow. simpl. auto.
  - intros w Hin Hne.
    replace (detalles_de (Venta.id w) _) with (detalles_de (Venta.id w) db);
      [apply Ht; assumption|].
    unfold detalles_de. simpl. rewrite filter_app. simpl.
    replace (DetalleVenta.venta_id row =? Venta.id w) with false.
    + rewrite app_nil_r. reflexivity.
    + symmetry. apply Z.eqb_neq. rewrite Hrow. simpl. auto.
Qed.

Lemma UPDATE_detalle_Inv_salvo now d pr de ca db d' db' :
  Inv db -> In d (detalles_ventas db) ->
  UPDATE_detalle now d pr de ca db = Ok (d', db') ->
  Inv_salvo (DetalleVenta.venta_id d) db'.
Proof.
  intros HI Hdin H. unfold UPDATE_detalle in H.
  destruct (_ && _ && _) in H; [session_inv H; apply Inv_Inv_salvo; exact HI|].
  session_inv H. ok_inv. destruct HI as (Hc & Hp & Hv & Hd & Hfk & Ht).
  unfold Inv_salvo. simpl.
  split; [exact Hc|]. split; [exact Hp|]. split; [exact Hv|]. split; [|split].
  - rewrite (map_id_update DetalleVenta.id); [exact Hd|reflexivity].
  - intros x Hin. apply in_map_iff in Hin. destruct Hin as (r & <- & Hr).
    destruct (Hfk r Hr) as (w & Hw & Ew). exists w. split; [exact Hw|].
    destruct (DetalleVenta.id r =? DetalleVenta.id d); exact Ew.
  - intros w Hin Hne.
    replace (detalles_de (Venta.id w) _) with (detalles_de (Venta.id w) db);
      [apply Ht; assumption|].
    unfold detalles_de. simpl. symmetry. apply filter_map_update.
    intros r Hr. destruct (DetalleVenta.id r =? DetalleVenta.id d) eqn:Er;
      [|left; reflexivity].
    apply Z.eqb_eq in Er.
    assert (r = d) by (eapply (pid_inj DetalleVenta.id); eassumption).
    subst r. right. simpl. split; apply Z.eqb_neq; auto.
Qed.

Lemma DELETE_detalle_Inv_salvo d db u db' :
  Inv db -> In d (detalles_ventas db) ->
  DELETE_detalle (DetalleVenta.id d) db = Ok (u, db') ->
  Inv_salvo (DetalleVenta.venta_id d) db'.
Proof.
  intros (Hc & Hp & Hv & Hd & Hfk & Ht) Hdin H. unfold DELETE_detalle in H. ok_inv.
  unfold Inv_salvo. simpl.
  split; [exact Hc|]. split; [exact Hp|]. split; [exact Hv|]. split; [|split].
  - apply NoDup_map_filter. exact Hd.
  - intros x Hin. apply filter_In in Hin. apply Hfk. apply Hin.
  - intros w Hin Hne.
    replace (detalles_de (Venta.id w) _) with (detalles_de (Venta.id w) db);
      [apply Ht; assumption|].
    unfold detalles_de. simpl.
    rewrite filter_filter. apply filter_ext_In.
    intros r Hr. destruct (DetalleVenta.venta_id r =? Venta.id w) eqn:Er;
      [|rewrite andb_false_r; reflexivity].
    rewrite andb_true_r. symmetry. apply negb_true_iff. apply Z.eqb_neq. intros Eid.
    assert (r = d) by (eapply (pid_inj DetalleVenta.id); eassumption).
    subst r. apply Z.eqb_eq in Er. auto.
Qed.

Lemma create_detalle_Inv now real u data db d db' :
  Inv db -> create_detalle now real u data db = Ok (d, db') -> Inv db'.
Proof.
  intros HI H. unfold create_detalle in H.
  apply bind_Ok in H. destruct H as (row & db1 & Hins & H).
  apply bind_Ok in H. destruct H as ([] & db2 & Hrec & H).
  unfold ret in H. inversion H; subst; clear H.
  eapply _recalcular_total_venta_Inv; [|exact Hrec].
  eapply INSERT_detalle_Inv_salvo; [|exact Hins]. apply Inv_Inv_salvo. exact HI.
Qed.

Lemma update_detalle_Inv now real i data db r db' :
  Inv db -> update_detalle now real i data db = Ok (r, db') -> Inv db'.
Proof.
  intros HI H. unfold update_detalle, get_detalle in H.
  apply by_id_Ok in H. destruct H as [H _].
  destruct (find _ (detalles_ventas db)) as [d|] eqn:Hfind.
  2:{ unfold ret in H. inversion H; subst. exact HI. }
  apply find_id_eq in Hfind. destruct Hfind as [Hdin _].
  apply bind_Ok in H. destruct H as (d' & db1 & E & H).
  apply bind_Ok in H. destruct H as ([] & db2 & Erec & H).
  unfold ret in H. inversion H; subst; clear H.
  eapply _recalcular_total_venta_Inv; [|exact Erec].
  pose proof (UPDATE_detalle_Ok _ _ _ _ _ _ _ _ E) as Hok.
  destruct Hok as (_ & _ & _ & _ & _ & _ & Hvid & _). rewrite Hvid.
  eapply UPDATE_detalle_Inv_salvo; eassumption.
Qed.

Lemma delete_detalle_Inv now real i db r db' :
  Inv db -> delete_detalle now real i db = Ok (r, db') -> Inv db'.
Proof.
  intros HI H. unfold delete_detalle, get_detalle in H.
  apply by_id_Ok in H. destruct H as [H _].
  destruct (find _ (detalles_ventas db)) as [d|] eqn:Hfind.
  2:{ unfold ret in H. inversion H; subst. exact HI. }
  apply find_id_eq in Hfind. destruct Hfind as [Hdin _].
  apply bind_Ok in H. destruct H as ([] & db1 & E & H).
  apply bind_Ok in H. destruct H as ([] & db2 & Erec & H).
  unfold ret in H. inversion H; subst; clear H.
  eapply _recalcular_total_venta_Inv; [|exact Erec].
  eapply DELETE_detalle_Inv_salvo; eassumption.
Qed.

(** Creating a sale with its batch of line items. *)

Lemma INSERT_detalles_Inv_salvo now uuid4 vid dets : forall k db x db',
  Inv_salvo vid db ->
  INSERT_detalles now uuid4 vid dets k db = Ok (x, db') ->
  Inv_salvo vid db'.
Proof.
  induction dets as [|det rest IH]; intros k db x db' HI H; simpl in H.
  - unfold ret in H. inversion H; subst. exact HI.
  - apply bind_Ok in H. destruct H as (row & db1 & Hins & H).
    eapply IH; [|exact H]. eapply INSERT_detalle_Inv_salvo; eassumption.
Qed.

Lemma subtotales_del_lote (nuevos : list DetalleVenta.t) : forall dets,
  map linea nuevos = map linea_pedida dets ->
  suma (no_nulos (map subtotal nuevos)) = total_del_lote dets.
Proof.
  induction nuevos as [|d nuevos IH]; intros [|det dets] H; try discriminate.
  - reflexivity.
  - cbn [map] in H.
    assert (H1 : linea d = linea_pedida det) by congruence.
    assert (H2 : map linea nuevos = map linea_pedida dets) by congruence.
    cbn [map no_nulos]. rewrite (subtotal_linea d det H1).
    unfold total_del_lote. cbn [no_nulos suma map fold_right].
    f_equal. apply IH. exact H2.
Qed.

Lemma INSERT_venta_Inv_salvo now u cid db row db' :
  Inv db -> INSERT_venta now u cid db = Ok (row, db') ->
  Inv_salvo (Venta.id row) db'.
Proof.
  intros (Hc & Hp & Hv & Hd & Hfk & Ht) H.
  apply INSERT_venta_Ok in H. destruct H as (Hrow & -> & _).
  unfold Inv_salvo. simpl.
  split; [exact Hc|]. split; [exact Hp|]. split; [|split; [exact Hd|split]].
  - apply NoDup_map_snoc; [exact Hv|rewrite Hrow; reflexivity].
  - intros d Hin. destruct (Hfk d Hin) as (w & Hw & Ew). exists w.
    split; [apply in_or_app; left; exact Hw|exact Ew].
  - intros w Hin Hne. apply in_app_or in Hin. destruct Hin as [Hin|[<-|[]]].
    + apply (Ht w Hin).
    + destruct Hne. reflexivity.
Qed.

Lemma create_venta_Inv now uuid4 data db v db' :
  Inv db -> create_venta now uuid4 data db = Ok (v, db') -> Inv db'.
Proof.
  intros HI H. pose proof (create_venta_Ok _ _ _ _ _ _ H) as Hok.
  destruct Hok as (Ev & _ & _ & Hv' & _ & _ & _ & _ & nuevos & Hd' & Hall & Hlin & _).
  unfold create_venta in H.
  apply bind_Ok in H. destruct H as (row & db1 & Hins & H).
  apply bind_Ok in H. destruct H as (v' & db2 & Hup & H).
  apply bind_Ok in H. destruct H as ([] & db3 & Hdets & H).
  unfold ret in H. inversion H; subst v' db3; clear H.
  assert (Hid : Venta.id row = Venta.id v).
  { apply INSERT_venta_Ok in Hins. destruct Hins as (-> & _). rewrite Ev. reflexivity. }
  pose proof (INSERT_venta_Inv_salvo _ _ _ _ _ _ HI Hins) as HI1.
  pose proof (UPDATE_venta_total_Inv_salvo _ _ _ _ _ _ HI1 Hup) as HI2.
  pose proof (INSERT_detalles_Inv_salvo _ _ _ _ _ _ _ _ HI2 Hdets) as HI3.
  destruct HI3 as (Hc3 & Hp3 & Hv3 & Hd3 & Hfk3 & Ht3).
  unfold Inv. repeat split; try assumption.
  intros w Hw. destruct (Z.eq_dec (Venta.id w) (Venta.id row)) as [E|E];
    [|apply Ht3; assumption].
  assert (w = v).
  { apply (pid_inj Venta.id (ventas db')); [exact Hv3|exact Hw| |congruence].
    rewrite Hv'. apply in_or_app. right. left. reflexivity. }
  subst w. intros _.
  assert (detalles_de (Venta.id v) db' = nuevos) as ->.
  { unfold detalles_de. rewrite Hd', filter_app.
    rewrite (filter_nil_iff _ (detalles_ventas db)).
    - simpl. apply forallb_filter_id. apply forallb_forall. intros d Hin.
      rewrite Forall_forall in Hall. apply Z.eqb_eq. apply Hall. exact Hin.
    - intros d Hin. destruct HI as (_ & _ & _ & _ & Hfk & _).
      destruct (Hfk d Hin) as (w & Hw0 & Ew). apply Z.eqb_neq. rewrite <- Ew, Ev.
      simpl.
      pose proof (next_rowid_fresh (map Venta.id (ventas db)) (Venta.id w)
                    (in_map Venta.id _ _ Hw0)). lia. }
  rewrite (subtotales_del_lote _ _ Hlin), Ev. reflexivity.
Qed.

Lemma handle_Inv now r db : Inv db -> Inv (handle now r db).
Proof.
  intros HI. destruct r; simpl; unfold transaction;
    match goal with
    | |- Inv (snd (match ?m with _ => _ end)) => destruct m as [[x db']|e] eqn:E
    end; simpl; try exact HI.
  - eapply create_cliente_Inv; eassumption.
  - eapply update_cliente_Inv; eassumption.
  - eapply delete_cliente_Inv; eassumption.
  - eapply create_producto_Inv; eassumption.
  - eapply update_producto_Inv; eassumption.
  - eapply delete_producto_Inv; eassumption.
  - eapply create_venta_Inv; eassumption.
  - eapply update_venta_Inv; eassumption.
  - eapply delete_venta_Inv; eassumption.
  - eapply create_detalle_Inv; eassumption.
  - eapply update_detalle_Inv; eassumption.
  - eapply delete_detalle_Inv; eassumption.
Qed.

Lemma reachable_Inv db : reachable db -> Inv db.
Proof.
  induction 1 as [|db now r _ IH].
  - unfold Inv, total_es_suma_sql. simpl.
    repeat split; try constructor; intros ? [].
  - apply handle_Inv. exact IH.
Qed.

(** Every store the requests reach has unique ids, line items that belong
    to sales, and totals as the recomputation stores them. *)
Theorem reachable_integra db : reachable db -> integra db = true.
Proof.
  intros H. apply reachable_Inv in H. destruct H as (Hc & Hp & Hv & Hd & Hfk & _).
  unfold integra. rewrite !NoDup_unicos by assumption. simpl.
  unfold detalles_con_venta. apply forallb_forall. intros d Hin.
  destruct (Hfk d Hin) as (v & Hvin & E). apply existsb_exists.
  exists v. split; [exact Hvin|]. apply Z.eqb_eq. exact E.
Qed.

Theorem reachable_total_es_suma_sql db : reachable db -> total_es_suma_sql db.
Proof. intros H. apply reachable_Inv in H. apply H. Qed.

Lemma suma_exacta_sin_nulos (xs : list (option Z)) :
  (forall x, In x xs -> x <> None) ->
  suma_exacta xs = Some (suma (no_nulos xs)).
Proof.
  induction xs as [|[a|] xs IH]; intros H; cbn [suma_exacta no_nulos].
  - reflexivity.
  - rewrite IH by (intros x Hx; apply H; right; exact Hx). reflexivity.
  - destruct (H None (or_introl eq_refl)). reflexivity.
Qed.

(** In every store the requests reach, a sale none of whose line items
    has a NULL discount or quantity, and whose subtotals are all 64-bit
    integers, has, as stored total, the sum of
    [(precio - descuento) * cantidad] over its line items; 0 when it has
    none. *)
Theorem reachable_total_es_suma db v :
  reachable db -> In v (ventas db) ->
  (forall d, In d (detalles_de (Venta.id v) db) ->
     DetalleVenta.descuento d <> None /\ DetalleVenta.cantidad d <> None) ->
  forallb en_enteros (detalles_de (Venta.id v) db) = true ->
  suma_exacta (map subtotal (detalles_de (Venta.id v) db)) = Some (Venta.total v).
Proof.
  intros Hr Hin Hnn He. rewrite (reachable_total_es_suma_sql db Hr v Hin He).
  apply suma_exacta_sin_nulos. intros x Hx. apply in_map_iff in Hx.
  destruct Hx as (d & <- & Hd). destruct (Hnn d Hd) as [H1 H2].
  unfold subtotal. destruct (DetalleVenta.descuento d); [|destruct H1; reflexivity].
  destruct (DetalleVenta.cantidad d); [|destruct H2; reflexivity].
  discriminate.
Qed.

(** ** Requests without explicit nulls *)

Lemma sin_nulos_filter keep db db' :
  detalles_ventas db' = filter keep (detalles_ventas db) -> sin_nulos db -> sin_nulos db'.
Proof.
  intros E H d Hin. rewrite E in Hin. apply filter_In in Hin. apply H. apply Hin.
Qed.

Lemma sin_nulos_same db db' :
  detalles_ventas db' = detalles_ventas db -> sin_nulos db -> sin_nulos db'.
Proof. intros E H d Hin. rewrite E in Hin. apply H. exact Hin. Qed.

Lemma INSERT_detalle_sin_nulos now u p v pr de ca db row db' :
  INSERT_detalle now u p v pr de ca db = Ok (row, db') -> sin_nulos db -> sin_nulos db'.
Proof.
  intros H Hs. apply INSERT_detalle_Ok in H. destruct H as (-> & -> & _).
  intros d Hin. simpl in Hin. apply in_app_or in Hin.
  destruct Hin as [Hin|[<-|[]]]; [apply Hs; exact Hin|].
  simpl. split; discriminate.
Qed.

Lemma INSERT_detalles_sin_nulos now uuid4 vid dets : forall k db x db',
  INSERT_detalles now uuid4 vid dets k db = Ok (x, db') ->
  sin_nulos db -> sin_nulos db'.
Proof.
  induction dets as [|det rest IH]; intros k db x db' H Hs; simpl in H.
  - unfold ret in H. inversion H; subst. exact Hs.
  - apply bind_Ok in H. destruct H as (row & db1 & Hins & H).
    eapply IH; [exact H|]. eapply INSERT_detalle_sin_nulos; eassumption.
Qed.

Lemma setattr_no_null {A} (f : field A) (old : option A) :
  no_null f = true -> old <> None -> setattr f old <> None.
Proof. destruct f as [|[a|]]; simpl; intros H Ho; auto; discriminate. Qed.

Lemma update_detalle_sin_nulos now real i data db r db' :
  no_null (DetalleVentaUpdate.descuento data)
  && no_null (DetalleVentaUpdate.cantidad data) = true ->
  update_detalle now real i data db = Ok (r, db') -> sin_nulos db -> sin_nulos db'.
Proof.
  intros Hnn H Hs. apply andb_prop in Hnn. destruct Hnn as [Hn1 Hn2].
  unfold update_detalle, get_detalle in H. apply by_id_Ok in H. destruct H as [H _].
  destruct (find _ (detalles_ventas db)) as [d|] eqn:Hfind.
  2:{ unfold ret in H. inversion H; subst. exact Hs. }
  apply find_id_eq in Hfind. destruct Hfind as [Hdin _].
  apply bind_Ok in H. destruct H as (d' & db1 & E & H).
  apply bind_Ok in H. destruct H as ([] & db2 & Erec & H).
  unfold ret in H. inversion H; subst; clear H.
  apply _recalcular_total_venta_Ok in Erec. destruct Erec as (_ & _ & Hd2 & _).
  apply (sin_nulos_same db1); [exact Hd2|].
  destruct (Hs d Hdin) as [Hd1 Hc1].
  pose proof (setattr_no_null _ _ Hn1 Hd1) as Hde.
  pose proof (setattr_no_null _ _ Hn2 Hc1) as Hca.
  unfold UPDATE_detalle in E.
  destruct (_ && _ && _) in E; [unfold ret in E; inversion E; subst; exact Hs|].
  apply bind_Ok in E. destruct E as ([] & db3 & Hpar & E).
  apply params_Ok in Hpar. destruct Hpar as [_ ->].
  apply bind_Ok in E. destruct E as (pr & db3 & Hpr & E).
  apply not_null_Ok in Hpr. destruct Hpr as [_ ->].
  inversion E; subst; clear E. intros x Hin. simpl in Hin.
  apply in_map_iff in Hin. destruct Hin as (y & <- & Hy).
  destruct (DetalleVenta.id y =? DetalleVenta.id d); [|apply Hs; exact Hy].
  destruct (Hs y Hy) as [Hy1 Hy2]. simpl.
  split; [destruct (opt_eqb Z.eqb _ (DetalleVenta.descuento d))
         |destruct (opt_eqb Z.eqb _ (DetalleVenta.cantidad d))]; assumption.
Qed.

Lemma handle_sin_nulos now r db :
  request_sin_nulos r = true -> sin_nulos db -> sin_nulos (handle now r db).
Proof.
  intros Hr Hs. destruct r; simpl; unfold transaction;
    match goal with
    | |- sin_nulos (snd (match ?m with _ => _ end)) => destruct m as [[x db']|e] eqn:E
    end; simpl; try exact Hs.
  - unfold create_cliente, INSERT_cliente in E. session_inv E. ok_inv. exact Hs.
  - unfold update_cliente, get_cliente in E. apply by_id_Ok in E. destruct E as [E _].
    destruct (find _ _); [|session_inv E; exact Hs].
    apply bind_Ok in E. destruct E as (c' & db1 & Hup & E). session_inv E.
    unfold UPDATE_cliente in Hup.
    destruct (_ && _ && _) in Hup; [session_inv Hup; exact Hs|].
    session_inv Hup. ok_inv. exact Hs.
  - unfold delete_cliente, get_cliente in E. apply by_id_Ok in E. destruct E as [E _].
    destruct (find _ _); [|session_inv E; exact Hs].
    apply bind_Ok in E. destruct E as ([] & db1 & Hdel & E). session_inv E.
    unfold session_delete_cliente in Hdel.
    apply bind_Ok in Hdel. destruct Hdel as (hijas & db2 & Hq & Hdel). session_inv Hq.
    apply bind_Ok in Hdel. destruct Hdel as ([] & db3 & Hf & Hdel).
    apply forM_delete_ventas_filter in Hf. destruct Hf as (keep & Hk).
    unfold DELETE_cliente in Hdel. session_inv Hdel.
    ok_inv. eapply sin_nulos_filter; [exact Hk|exact Hs].
  - unfold create_producto, INSERT_producto in E. session_inv E. ok_inv. exact Hs.
  - unfold update_producto, get_producto in E. apply by_id_Ok in E. destruct E as [E _].
    destruct (find _ _); [|session_inv E; exact Hs].
    apply bind_Ok in E. destruct E as (p' & db1 & Hup & E). session_inv E.
    unfold UPDATE_producto in Hup.
    destruct (_ && _ && _) in Hup; [session_inv Hup; exact Hs|].
    session_inv Hup. ok_inv. exact Hs.
  - destruct (find (fun p => Producto.id p =? producto_id) (productos db)) as [p|] eqn:F.
    + rewrite (delete_producto_found _ p db F) in E.
      destruct (existsb _ _); [discriminate|]. inversion E; subst. exact Hs.
    + unfold delete_producto, get_producto in E. apply by_id_Ok in E.
      destruct E as [E _]. rewrite F in E. session_inv E. exact Hs.
  - unfold create_venta in E.
    apply bind_Ok in E. destruct E as (row & db1 & Hins & E).
    apply INSERT_venta_Ok in Hins. destruct Hins as (_ & -> & _).
    apply bind_Ok in E. destruct E as (v' & db2 & Hup & E).
    apply UPDATE_venta_total_Ok in Hup. destruct Hup as (_ & _ & _ & _ & Hd & _).
    apply bind_Ok in E. destruct E as ([] & db3 & Hdets & E). session_inv E.
    eapply INSERT_detalles_sin_nulos; [exact Hdets|].
    eapply sin_nulos_same; [exact Hd|]. exact Hs.
  - unfold update_venta, get_venta in E. apply by_id_Ok in E. destruct E as [E _].
    destruct (find _ _); [|session_inv E; exact Hs].
    apply bind_Ok in E. destruct E as (v' & db1 & Hup & E). session_inv E.
    apply UPDATE_venta_cliente_Ok in Hup.
    destruct Hup as (_ & _ & _ & _ & _ & _ & _ & _ & _ & Hd & _).
    eapply sin_nulos_same; [exact Hd|exact Hs].
  - unfold delete_venta, get_venta in E. apply by_id_Ok in E. destruct E as [E _].
    destruct (find _ _); [|session_inv E; exact Hs].
    apply bind_Ok in E. destruct E as ([] & db1 & Hdel & E). session_inv E.
    apply session_delete_venta_filter in Hdel. destruct Hdel as (keep & Hk).
    eapply sin_nulos_filter; eassumption.
  - unfold create_detalle in E.
    apply bind_Ok in E. destruct E as (row & db1 & Hins & E).
    apply bind_Ok in E. destruct E as ([] & db2 & Erec & E). session_inv E.
    apply _recalcular_total_venta_Ok in Erec. destruct Erec as (_ & _ & Hd2 & _).
    apply (sin_nulos_same db1); [exact Hd2|].
    eapply INSERT_detalle_sin_nulos; eassumption.
  - eapply update_detalle_sin_nulos; eassumption.
  - apply delete_detalle_Ok in E. destruct E as (_ & _ & _ & [(_ & -> & _)|(_ & Hd)]).
    + exact Hs.
    + eapply sin_nulos_filter; [exact Hd|exact Hs].
Qed.

(** After any sequence of requests that send no explicit [null] for a
    discount or a quantity, the stored total of every sale whose line
    items have 64-bit subtotals is the sum of
    [(precio - descuento) * cantidad] over its line items. *)
Theorem total_es_suma_sin_nulos rs :
  forallb (fun nr => request_sin_nulos (snd nr)) rs = true ->
  total_es_suma_en_enteros (run rs empty_db).
Proof.
  intros Hrs.
  assert (Hr : reachable (run rs empty_db)) by (apply run_reachable, reachable_empty).
  assert (Hs : sin_nulos (run rs empty_db)).
  { assert (H0 : sin_nulos empty_db) by (intros d []).
    revert Hrs H0. generalize empty_db. clear Hr.
    induction rs as [|[now r] rs IH]; intros db Hrs H0; simpl; [exact H0|].
    simpl in Hrs. apply andb_prop in Hrs. destruct Hrs as [Hr1 Hrs].
    apply IH; [exact Hrs|]. apply handle_sin_nulos; assumption. }
  intros v Hin He. apply reachable_total_es_suma; try assumption.
  intros d Hd. apply Hs. unfold detalles_de in Hd. apply filter_In in Hd. apply Hd.
Qed.

(** ** Concrete stores where the specification and the code part *)

(** C1 at the failing input: after [POST /ventas] with one line item
    precio=100, descuento=10, cantidad=2 and [PUT /detalles/1] with
    [{"descuento": null}], a store the requests reach, the sale has the
    line item of precio 100 and cantidad 2 with a NULL discount and a
    stored total of 0: the total is not the sum of
    [(precio - descuento) * cantidad] over its line items. *)
Theorem total_not_sum_after_null_descuento :
  reachable db_descuento_nulo
  /\ map Venta.total (ventas db_descuento_nulo) = [0]
  /\ map (fun d => (DetalleVenta.venta_id d, DetalleVenta.precio d,
                    DetalleVenta.descuento d, DetalleVenta.cantidad d))
         (detalles_ventas db_descuento_nulo)
     = [(1, 100, None, Some 2)]
  /\ ~ total_es_suma db_descuento_nulo.
Proof.
  split; [|split; [|split]].
  - unfold db_descuento_nulo, db_una_venta. repeat apply run_reachable.
    apply reachable_empty.
  - vm_compute. reflexivity.
  - vm_compute. reflexivity.
  - intros H.
    assert (Hv : exists v, In v (ventas db_descuento_nulo) /\ Venta.id v = 1).
    { eexists. split; [left; reflexivity|reflexivity]. }
    destruct Hv as (v & Hin & Hid). specialize (H v Hin). rewrite Hid in H.
    vm_compute in H. discriminate.
Qed.





(** C8 at a concrete request: no customer has the id 2^63, and
    [create_venta] for it raises [OverflowError], not [IntegrityError];
    nothing is stored. *)
Lemma create_venta_cliente_overflow :
  existsb (fun c => Cliente.id c =? 2 ^ 63) (clientes db_una_venta) = false
  /\ transaction (create_venta 9 uuid_ej (VentaCreate.mk (2 ^ 63) [])) db_una_venta
     = (Raise OverflowError, db_una_venta)
  /\ transaction (create_venta 9 uuid_ej (VentaCreate.mk (2 ^ 63) [])) db_una_venta
     <> (Raise IntegrityError, db_una_venta).
Proof.
  split; [vm_compute; reflexivity|]. split; [vm_compute; reflexivity|].
  vm_compute. discriminate.
Qed.

(** ** The theorems at concrete stores *)

Lemma create_venta_total_witness :
  exists v db',
    transaction (create_venta 3 uuid_ej (VentaCreate.mk 1 [DetalleVentaCreate.mk 1 100 10 2]))
                db_sin_ventas = (Ok v, db')
    /\ Venta.total v = 180.
Proof.
  destruct (create_venta_total 3 uuid_ej
              (VentaCreate.mk 1 [DetalleVentaCreate.mk 1 100 10 2]) db_sin_ventas)
    as (Hex & Htotal & _).
  destruct (Hex eq_refl) as (v & db' & E).
  exists v, db'. split; [exact E|].
  destruct (Htotal v db' E) as (_ & _ & H180). apply (H180 1). reflexivity.
Defined.

Lemma create_venta_sin_detalles_witness :
  exists v db',
    transaction (create_venta 3 uuid_ej (VentaCreate.mk 1 [])) db_sin_ventas = (Ok v, db')
    /\ Venta.total v = 0
    /\ detalles_de (Venta.id v) db' = [].
Proof.
  destruct (create_venta_sin_detalles 3 uuid_ej 1 db_sin_ventas eq_refl eq_refl eq_refl)
    as (v & db' & E & _ & _ & Ht & Hd & _).
  exists v, db'. auto.
Defined.

Lemma update_venta_keeps_total_witness :
  exists v',
    fst (transaction (update_venta 9 1 (VentaUpdate.mk (SetTo (Some 1)))) db_una_venta)
    = Ok (Some v')
    /\ Venta.total v' = 180.
Proof.
  destruct (update_venta_keeps_total 9 1 (VentaUpdate.mk (SetTo (Some 1))) db_una_venta)
    as (_ & _ & H).
  eexists. split; [reflexivity|].
  destruct (H _ eq_refl) as (v & Hfind & Ht). rewrite Ht.
  vm_compute in Hfind. inversion Hfind. reflexivity.
Defined.



Lemma delete_cascades_witness :
  exists db',
    transaction (delete_cliente 1) db_una_venta = (Ok true, db')
    /\ ventas_de 1 db' = []
    /\ productos db' = productos db_una_venta.
Proof.
  destruct (delete_cascades db_una_venta) as [Hcliente _].
  destruct (Hcliente 1 _ eq_refl) as (db' & E & _ & Hv & _ & _ & _ & Hp & _).
  exists db'. auto.
Defined.

Lemma foreign_keys_enforced_witness :
  transaction (create_venta 9 uuid_ej (VentaCreate.mk 7 [])) db_una_venta
  = (Raise IntegrityError, db_una_venta)
  /\ transaction (create_detalle 9 0 "z"
                    (DetalleVentaCreateStandalone.mk 5 100 0 1 1)) db_una_venta
     = (Raise IntegrityError, db_una_venta).
Proof.
  destruct (foreign_keys_enforced 9 db_una_venta) as [Hventa Hdetalle].
  split.
  - apply Hventa; try reflexivity. left. reflexivity.
  - apply Hdetalle; try reflexivity. left. reflexivity.
Defined.



(** ** The constraints of the schema are kept by every statement *)

Lemma preserves_ret {A} (P : DB -> Prop) (a : A) : preserves P (ret a).
Proof. intros db x db' HP H. unfold ret in H. inversion H; subst. exact HP. Qed.

Lemma preserves_query {A} (P : DB -> Prop) (q : DB -> A) : preserves P (query q).
Proof. intros db x db' HP H. unfold query in H. inversion H; subst. exact HP. Qed.

Lemma preserves_constraint (P : DB -> Prop) holds : preserves P (constraint holds).
Proof. intros db x db' HP H. apply constraint_Ok in H. destruct H as [_ ->]. exact HP. Qed.

Lemma preserves_not_null {A} (P : DB -> Prop) (v : option A) : preserves P (not_null v).
Proof. intros db x db' HP H. apply not_null_Ok in H. destruct H as [_ ->]. exact HP. Qed.

Lemma preserves_params (P : DB -> Prop) zs : preserves P (params zs).
Proof. intros db x db' HP H. apply params_Ok in H. destruct H as [_ ->]. exact HP. Qed.

Lemma preserves_param_key (P : DB -> Prop) held z : preserves P (param_key held z).
Proof. intros db x db' HP H. apply param_key_Ok in H. destruct H as [_ ->]. exact HP. Qed.

Lemma preserves_select {A} (P : DB -> Prop) (q : DB -> result A) : preserves P (select q).
Proof. intros db x db' HP H. apply select_Ok in H. destruct H as [_ ->]. exact HP. Qed.

Lemma preserves_first_by_id {A} (P : DB -> Prop) (id : A -> Z) tabla i :
  preserves P (first_by_id id tabla i).
Proof.
  intros db x db' HP H. apply first_by_id_Ok in H. destruct H as (-> & _). exact HP.
Qed.

Lemma preserves_bind {A B} (P : DB -> Prop) (m : Session A) (k : A -> Session B) :
  preserves P m -> (forall a, preserves P (k a)) -> preserves P (bind m k).
Proof.
  intros Hm Hk db b db' HP H. apply bind_Ok in H. destruct H as (a & db1 & H1 & H2).
  eapply Hk; [|exact H2]. eapply Hm; eassumption.
Qed.

Lemma preserves_forM_ {A} (P : DB -> Prop) (l : list A) (f : A -> Session unit) :
  (forall a, preserves P (f a)) -> preserves P (forM_ l f).
Proof.
  intros Hf. induction l as [|a l IH]; simpl.
  - apply preserves_ret.
  - apply preserves_bind; [apply Hf|intros _; exact IH].
Qed.

Lemma sorted_app_one (l : list Z) (y : Z) :
  StronglySorted Z.lt l -> (forall x, In x l -> x < y) -> StronglySorted Z.lt (l ++ [y]).
Proof.
  induction l as [|x l IH]; intros Hs Hy; simpl.
  - constructor; constructor.
  - inversion Hs as [|? ? Hl Hx]; subst. constructor.
    + apply IH; [exact Hl|]. intros z Hz. apply Hy. right. exact Hz.
    + apply Forall_app. split; [exact Hx|]. constructor; [|constructor].
      apply Hy. left. reflexivity.
Qed.

Lemma sorted_snoc {A} (f : A -> Z) (l : list A) (a : A) :
  StronglySorted Z.lt (map f l) -> f a = next_rowid (map f l) ->
  StronglySorted Z.lt (map f (l ++ [a])).
Proof.
  intros Hs E. rewrite map_app. simpl. apply sorted_app_one; [exact Hs|].
  intros x Hx. rewrite E. apply next_rowid_fresh. exact Hx.
Qed.

Lemma sorted_filter {A} (f : A -> Z) (p : A -> bool) (l : list A) :
  StronglySorted Z.lt (map f l) -> StronglySorted Z.lt (map f (filter p l)).
Proof.
  induction l as [|a l IH]; simpl; intros Hs; [constructor|].
  inversion Hs as [|? ? Hl Ha]; subst. destruct (p a); simpl; [|auto].
  constructor; [auto|]. rewrite Forall_forall in *. intros x Hx. apply Ha.
  apply in_map_iff in Hx. destruct Hx as (r & <- & Hr). apply in_map.
  apply filter_In in Hr. apply Hr.
Qed.

Lemma sorted_NoDup (l : list Z) : StronglySorted Z.lt l -> NoDup l.
Proof.
  induction 1 as [|x l _ IH Hx]; constructor; [|exact IH].
  intros Hin. rewrite Forall_forall in Hx. specialize (Hx x Hin). lia.
Qed.

Lemma sorted_ascendente (l : list Z) : StronglySorted Z.lt l -> ascendente l = true.
Proof.
  induction 1 as [|x l _ IH Hx]; [reflexivity|].
  destruct l as [|y l]; [reflexivity|].
  change (ascendente (x :: y :: l)) with ((x <? y) && ascendente (y :: l)).
  rewrite IH, andb_true_r. apply Z.ltb_lt. inversion Hx; assumption.
Qed.

Lemma NoDup_unicas (l : list string) : NoDup l -> unicas l = true.
Proof.
  induction 1 as [|s l Hs _ IH]; simpl; [reflexivity|].
  rewrite IH, andb_true_r. apply negb_true_iff. apply existsb_false_iff.
  intros t Ht. apply String.eqb_neq. intros ->. contradiction.
Qed.

Lemma NoDup_snoc_str {A} (g : A -> string) (l : list A) (a : A) :
  NoDup (map g l) -> existsb (fun r => String.eqb (g r) (g a)) l = false ->
  NoDup (map g (l ++ [a])).
Proof.
  intros Hnd Hex. rewrite map_app. simpl.
  apply NoDup_app; [exact Hnd|constructor; [intros []|constructor]|].
  intros s Hs [<-|[]]. apply in_map_iff in Hs. destruct Hs as (r & E & Hr).
  rewrite existsb_false_iff in Hex. specialize (Hex r Hr).
  apply String.eqb_neq in Hex. contradiction.
Qed.

Lemma NoDup_map_filter_gen {A B} (g : A -> B) (p : A -> bool) (l : list A) :
  NoDup (map g l) -> NoDup (map g (filter p l)).
Proof.
  induction l as [|a l IH]; simpl; intros H; [constructor|].
  inversion H as [|? ? Ha Hl]; subst. destruct (p a); simpl; [|auto].
  constructor; [|auto]. intros Hin. apply Ha.
  apply in_map_iff in Hin. destruct Hin as (x & E & Hx).
  apply filter_In in Hx. rewrite <- E. apply in_map. apply Hx.
Qed.

Lemma NoDup_map_update {A} (id : A -> Z) (g : A -> string) (set : A -> A)
  (c : A) (l : list A) :
  NoDup (map id l) -> In c l -> NoDup (map g l) ->
  (g (set c) = g c \/ ~ In (g (set c)) (map g l)) ->
  NoDup (map g (map (fun r => if id r =? id c then set r else r) l)).
Proof.
  induction l as [|x l IH]; intros Hid Hin Hg Hnew; [destruct Hin|].
  simpl in Hid, Hg. inversion Hid as [|? ? Hx Hid']; subst.
  inversion Hg as [|? ? Hgx Hg']; subst. simpl.
  destruct (id x =? id c) eqn:E.
  - apply Z.eqb_eq in E.
    assert (x = c).
    { destruct Hin as [Hc|Hc]; [exact Hc|].
      destruct Hx. rewrite E. apply in_map. exact Hc. }
    subst x. rewrite map_update_absent.
    + constructor; [|exact Hg']. destruct Hnew as [->|Hn]; [exact Hgx|].
      intros Hc. apply Hn. right. exact Hc.
    + intros r Hr Er. apply Hx. rewrite <- Er. apply in_map. exact Hr.
  - apply Z.eqb_neq in E. destruct Hin as [->|Hin]; [destruct E; reflexivity|].
    constructor.
    + intros Hc. apply in_map_iff in Hc. destruct Hc as (y & Ey & Hy).
      apply in_map_iff in Hy. destruct Hy as (r & <- & Hr).
      destruct (id r =? id c) eqn:Er.
      * apply Z.eqb_eq in Er.
        assert (r = c) by (eapply (pid_inj id); eassumption). subst r.
        destruct Hnew as [Heq|Hn].
        -- apply Hgx. rewrite <- Ey, Heq. apply in_map. exact Hin.
        -- apply Hn. left. symmetry. exact Ey.
      * apply Hgx. rewrite <- Ey. apply in_map. exact Hr.
    + apply IH; try assumption. destruct Hnew as [Heq|Hn]; [left; exact Heq|].
      right. intros Hc. apply Hn. right. exact Hc.
Qed.

Ltac esquema_intro :=
  intros db x db'
    (Hac & Hap & Hav & Had & Hvc & Hdp & Hdv & Hcu & Hce & Hcr & Hpu & Hvu & Hdu) Hrun.

Ltac esquema_split :=
  unfold Esquema; simpl; repeat match goal with |- _ /\ _ => split end; try assumption.

Lemma INSERT_cliente_Esquema now u nombre email rut :
  preserves Esquema (INSERT_cliente now u nombre email rut).
Proof.
  esquema_intro. unfold INSERT_cliente in Hrun.
  apply bind_Ok in Hrun. destruct Hrun as ([] & db1 & Hc & Hrun).
  apply constraint_Ok in Hc. destruct Hc as [Hc ->].
  inversion Hrun; subst; clear Hrun.
  apply negb_true_iff in Hc. rewrite existsb_false_iff in Hc.
  esquema_split.
  - apply sorted_snoc; [exact Hac|reflexivity].
  - intros v Hv. destruct (Hvc v Hv) as (c & Hin & E). exists c.
    split; [apply in_or_app; left; exact Hin|exact E].
  - apply NoDup_snoc_str; [exact Hcu|]. apply existsb_false_iff. intros r Hr.
    specialize (Hc r Hr). simpl. apply orb_false_iff in Hc. destruct Hc as [Hc _].
    apply orb_false_iff in Hc. apply Hc.
  - apply NoDup_snoc_str; [exact Hce|]. apply existsb_false_iff. intros r Hr.
    specialize (Hc r Hr). simpl. apply orb_false_iff in Hc. destruct Hc as [Hc _].
    apply orb_false_iff in Hc. apply Hc.
  - apply NoDup_snoc_str; [exact Hcr|]. apply existsb_false_iff. intros r Hr.
    specialize (Hc r Hr). simpl. apply orb_false_iff in Hc. apply Hc.
Qed.

Lemma unique_check_new (g : Cliente.t -> string) (nuevo viejo : string) (l : list Cliente.t) :
  String.eqb nuevo viejo || negb (existsb (fun r => String.eqb (g r) nuevo) l) = true ->
  nuevo = viejo \/ ~ In nuevo (map g l).
Proof.
  intros H. apply orb_true_iff in H. destruct H as [H|H].
  - left. apply String.eqb_eq. exact H.
  - right. apply negb_true_iff in H. rewrite existsb_false_iff in H.
    intros Hin. apply in_map_iff in Hin. destruct Hin as (r & E & Hr).
    specialize (H r Hr). apply String.eqb_neq in H. contradiction.
Qed.

Lemma UPDATE_cliente_Esquema now c nombre email rut db x db' :
  Esquema db -> In c (clientes db) ->
  UPDATE_cliente now c nombre email rut db = Ok (x, db') -> Esquema db'.
Proof.
  intros HE Hin Hrun. unfold UPDATE_cliente in Hrun.
  destruct (_ && _ && _) in Hrun.
  { unfold ret in Hrun. inversion Hrun; subst. auto. }
  apply bind_Ok in Hrun. destruct Hrun as (n & db1 & Hn & Hrun).
  apply not_null_Ok in Hn. destruct Hn as [_ ->].
  apply bind_Ok in Hrun. destruct Hrun as (e & db1 & He & Hrun).
  apply not_null_Ok in He. destruct He as [_ ->].
  apply bind_Ok in Hrun. destruct Hrun as (r & db1 & Hr & Hrun).
  apply not_null_Ok in Hr. destruct Hr as [_ ->].
  apply bind_Ok in Hrun. destruct Hrun as ([] & db1 & Hc & Hrun).
  apply constraint_Ok in Hc. destruct Hc as [Hc ->].
  apply andb_prop in Hc. destruct Hc as [Hce' Hcr'].
  inversion Hrun; subst; clear Hrun.
  destruct HE as (Hac & Hap & Hav & Had & Hvc & Hdp & Hdv & Hcu & Hce & Hcr & Hpu & Hvu & Hdu).
  pose proof (sorted_NoDup _ Hac) as Hid.
  esquema_split.
  - rewrite (map_id_update Cliente.id); [exact Hac|reflexivity].
  - intros v Hv. destruct (Hvc v Hv) as (c0 & Hc0 & E).
    eexists. split; [apply in_map; exact Hc0|].
    simpl. destruct (Cliente.id c0 =? Cliente.id c); exact E.
  - rewrite map_map. erewrite map_ext; [exact Hcu|].
    intros a. simpl. destruct (Cliente.id a =? Cliente.id c); reflexivity.
  - apply (NoDup_map_update Cliente.id Cliente.email); try assumption.
    simpl. rewrite if_string_eqb. apply unique_check_new. exact Hce'.
  - apply (NoDup_map_update Cliente.id Cliente.rut); try assumption.
    simpl. rewrite if_string_eqb. apply unique_check_new. exact Hcr'.
Qed.

Lemma DELETE_cliente_Esquema cliente_id : preserves Esquema (DELETE_cliente cliente_id).
Proof.
  esquema_intro. unfold DELETE_cliente in Hrun.
  apply bind_Ok in Hrun. destruct Hrun as ([] & db1 & Hc & Hrun).
  apply constraint_Ok in Hc. destruct Hc as [Hc ->].
  inversion Hrun; subst; clear Hrun.
  apply negb_true_iff in Hc. rewrite existsb_false_iff in Hc.
  esquema_split.
  - apply sorted_filter. exact Hac.
  - intros v Hv. destruct (Hvc v Hv) as (c & Hin & E). exists c.
    split; [|exact E]. apply filter_In. split; [exact Hin|].
    apply negb_true_iff. rewrite E. apply Hc. exact Hv.
  - apply NoDup_map_filter_gen. exact Hcu.
  - apply NoDup_map_filter_gen. exact Hce.
  - apply NoDup_map_filter_gen. exact Hcr.
Qed.

Lemma INSERT_producto_Esquema now u nombre categoria precio :
  preserves Esquema (INSERT_producto now u nombre categoria precio).
Proof.
  esquema_intro. unfold INSERT_producto in Hrun.
  apply bind_Ok in Hrun. destruct Hrun as ([] & db1 & Hpar & Hrun).
  apply params_Ok in Hpar. destruct Hpar as [_ ->].
  apply bind_Ok in Hrun. destruct Hrun as ([] & db1 & Hc & Hrun).
  apply constraint_Ok in Hc. destruct Hc as [Hc ->].
  inversion Hrun; subst; clear Hrun.
  apply negb_true_iff in Hc.
  esquema_split.
  - apply sorted_snoc; [exact Hap|reflexivity].
  - intros d Hd. destruct (Hdp d Hd) as (p & Hin & E). exists p.
    split; [apply in_or_app; left; exact Hin|exact E].
  - apply NoDup_snoc_str; [exact Hpu|exact Hc].
Qed.

Lemma UPDATE_producto_Esquema now p nombre categoria precio :
  preserves Esquema (UPDATE_producto now p nombre categoria precio).
Proof.
  esquema_intro. unfold UPDATE_producto in Hrun.
  destruct (_ && _ && _) in Hrun.
  { unfold ret in Hrun. inversion Hrun; subst. esquema_split. }
  apply bind_Ok in Hrun. destruct Hrun as ([] & db1 & Hpar & Hrun).
  apply params_Ok in Hpar. destruct Hpar as [_ ->].
  apply bind_Ok in Hrun. destruct Hrun as (n & db1 & Hn & Hrun).
  apply not_null_Ok in Hn. destruct Hn as [_ ->].
  apply bind_Ok in Hrun. destruct Hrun as (r & db1 & Hr & Hrun).
  apply not_null_Ok in Hr. destruct Hr as [_ ->].
  inversion Hrun; subst; clear Hrun.
  esquema_split.
  - rewrite (map_id_update Producto.id); [exact Hap|reflexivity].
  - intros d Hd. destruct (Hdp d Hd) as (p0 & Hp0 & E).
    eexists. split; [apply in_map; exact Hp0|].
    simpl. destruct (Producto.id p0 =? Producto.id p); exact E.
  - rewrite map_map. erewrite map_ext; [exact Hpu|].
    intros a. simpl. destruct (Producto.id a =? Producto.id p); reflexivity.
Qed.

Lemma DELETE_producto_Esquema producto_id : preserves Esquema (DELETE_producto producto_id).
Proof.
  esquema_intro. unfold DELETE_producto in Hrun.
  apply bind_Ok in Hrun. destruct Hrun as ([] & db1 & Hc & Hrun).
  apply constraint_Ok in Hc. destruct Hc as [Hc ->].
  inversion Hrun; subst; clear Hrun.
  apply negb_true_iff in Hc. rewrite existsb_false_iff in Hc.
  esquema_split.
  - apply sorted_filter. exact Hap.
  - intros d Hd. destruct (Hdp d Hd) as (p & Hin & E). exists p.
    split; [|exact E]. apply filter_In. split; [exact Hin|].
    apply negb_true_iff. rewrite E. apply Hc. exact Hd.
  - apply NoDup_map_filter_gen. exact Hpu.
Qed.

Lemma INSERT_venta_Esquema now u cliente_id :
  preserves Esquema (INSERT_venta now u cliente_id).
Proof.
  esquema_intro. unfold INSERT_venta in Hrun.
  apply bind_Ok in Hrun. destruct Hrun as ([] & db1 & Hk & Hrun).
  apply param_key_Ok in Hk. destruct Hk as [_ ->].
  apply bind_Ok in Hrun. destruct Hrun as ([] & db1 & Hc & Hrun).
  apply constraint_Ok in Hc. destruct Hc as [Hc ->].
  inversion Hrun; subst; clear Hrun.
  apply andb_prop in Hc. destruct Hc as [Hu Hex]. apply negb_true_iff in Hu.
  esquema_split.
  - apply sorted_snoc; [exact Hav|reflexivity].
  - intros v Hv. apply in_app_or in Hv. destruct Hv as [Hv|[<-|[]]]; [auto|].
    apply existsb_exists in Hex. destruct Hex as (c & Hin & E).
    apply Z.eqb_eq in E. exists c. auto.
  - intros d Hd. destruct (Hdv d Hd) as (v & Hin & E). exists v.
    split; [apply in_or_app; left; exact Hin|exact E].
  - apply NoDup_snoc_str; [exact Hvu|exact Hu].
Qed.

Lemma UPDATE_ventas_Esquema (set : Venta.t -> Venta.t) (v : Venta.t) db x db' :
  (forall r, Venta.id (set r) = Venta.id r /\ Venta.uuid (set r) = Venta.uuid r) ->
  (forall r, In r (ventas db) ->
     exists c, In c (clientes db) /\ Cliente.id c = Venta.cliente_id (set r)) ->
  Esquema db -> UPDATE_ventas set v db = Ok (x, db') -> Esquema db'.
Proof.
  intros Hset Hfk
    (Hac & Hap & Hav & Had & Hvc & Hdp & Hdv & Hcu & Hce & Hcr & Hpu & Hvu & Hdu) Hrun.
  unfold UPDATE_ventas in Hrun. inversion Hrun; subst; clear Hrun.
  esquema_split.
  - rewrite (map_id_update Venta.id); [exact Hav|apply Hset].
  - intros w Hw. apply in_map_iff in Hw. destruct Hw as (r & <- & Hr).
    destruct (Venta.id r =? Venta.id v); [apply Hfk; exact Hr|apply Hvc; exact Hr].
  - intros d Hd. destruct (Hdv d Hd) as (w & Hw & E).
    eexists. split; [apply in_map; exact Hw|].
    simpl. destruct (Venta.id w =? Venta.id v); [rewrite (proj1 (Hset w))|]; exact E.
  - rewrite map_map. erewrite map_ext; [exact Hvu|].
    intros a. simpl. destruct (Venta.id a =? Venta.id v); [apply Hset|reflexivity].
Qed.

Lemma UPDATE_venta_total_Esquema now v total :
  preserves Esquema (UPDATE_venta_total now v total).
Proof.
  intros db x db' HE Hrun. unfold UPDATE_venta_total in Hrun.
  destruct (total =? Venta.total v).
  - unfold ret in Hrun. inversion Hrun; subst. exact HE.
  - apply bind_Ok in Hrun. destruct Hrun as ([] & db1 & Hpar & Hrun).
    apply params_Ok in Hpar. destruct Hpar as [_ ->].
    eapply UPDATE_ventas_Esquema; [| |exact HE|exact Hrun].
    + intros r. split; reflexivity.
    + intros r Hr. simpl. apply HE. exact Hr.
Qed.

Lemma UPDATE_venta_cliente_Esquema now v cliente_id :
  preserves Esquema (UPDATE_venta_cliente now v cliente_id).
Proof.
  intros db x db' HE Hrun. unfold UPDATE_venta_cliente in Hrun.
  destruct (opt_eqb Z.eqb cliente_id _).
  - unfold ret in Hrun. inversion Hrun; subst. exact HE.
  - apply bind_Ok in Hrun. destruct Hrun as (c & db1 & Hn & Hrun).
    apply not_null_Ok in Hn. destruct Hn as [_ ->].
    apply bind_Ok in Hrun. destruct Hrun as ([] & db1 & Hk & Hrun).
    apply param_key_Ok in Hk. destruct Hk as [_ ->].
    apply bind_Ok in Hrun. destruct Hrun as ([] & db1 & Hc & Hrun).
    apply constraint_Ok in Hc. destruct Hc as [Hc ->].
    eapply UPDATE_ventas_Esquema; [| |exact HE|exact Hrun].
    + intros r. split; reflexivity.
    + intros r Hr. simpl. apply existsb_exists in Hc. destruct Hc as (c0 & Hin & E).
      apply Z.eqb_eq in E. exists c0. auto.
Qed.

Lemma DELETE_venta_Esquema venta_id : preserves Esquema (DELETE_venta venta_id).
Proof.
  esquema_intro. unfold DELETE_venta in Hrun.
  apply bind_Ok in Hrun. destruct Hrun as ([] & db1 & Hc & Hrun).
  apply constraint_Ok in Hc. destruct Hc as [Hc ->].
  inversion Hrun; subst; clear Hrun.
  apply negb_true_iff in Hc. rewrite existsb_false_iff in Hc.
  esquema_split.
  - apply sorted_filter. exact Hav.
  - intros v Hv. apply filter_In in Hv. apply Hvc. apply Hv.
  - intros d Hd. destruct (Hdv d Hd) as (v & Hin & E). exists v.
    split; [|exact E]. apply filter_In. split; [exact Hin|].
    apply negb_true_iff. rewrite E. apply Hc. exact Hd.
  - apply NoDup_map_filter_gen. exact Hvu.
Qed.

Lemma INSERT_detalle_Esquema now u p v pr de ca :
  preserves Esquema (INSERT_detalle now u p v pr de ca).
Proof.
  esquema_intro. unfold INSERT_detalle in Hrun.
  apply bind_Ok in Hrun. destruct Hrun as ([] & db1 & Hpar & Hrun).
  apply params_Ok in Hpar. destruct Hpar as [_ ->].
  apply bind_Ok in Hrun. destruct Hrun as ([] & db1 & Hk1 & Hrun).
  apply param_key_Ok in Hk1. destruct Hk1 as [_ ->].
  apply bind_Ok in Hrun. destruct Hrun as ([] & db1 & Hk2 & Hrun).
  apply param_key_Ok in Hk2. destruct Hk2 as [_ ->].
  apply bind_Ok in Hrun. destruct Hrun as ([] & db1 & Hc & Hrun).
  apply constraint_Ok in Hc. destruct Hc as [Hc ->].
  inversion Hrun; subst; clear Hrun.
  apply andb_prop in Hc. destruct Hc as [Hc Hexv].
  apply andb_prop in Hc. destruct Hc as [Hu Hexp]. apply negb_true_iff in Hu.
  esquema_split.
  - apply sorted_snoc; [exact Had|reflexivity].
  - intros d Hd. apply in_app_or in Hd. destruct Hd as [Hd|[<-|[]]]; [auto|].
    apply existsb_exists in Hexp. destruct Hexp as (p0 & Hin & E).
    apply Z.eqb_eq in E. exists p0. auto.
  - intros d Hd. apply in_app_or in Hd. destruct Hd as [Hd|[<-|[]]]; [auto|].
    apply existsb_exists in Hexv. destruct Hexv as (v0 & Hin & E).
    apply Z.eqb_eq in E. exists v0. auto.
  - apply NoDup_snoc_str; [exact Hdu|exact Hu].
Qed.

Lemma UPDATE_detalle_Esquema now d precio descuento cantidad :
  preserves Esquema (UPDATE_detalle now d precio descuento cantidad).
Proof.
  esquema_intro. unfold UPDATE_detalle in Hrun.
  destruct (_ && _ && _) in Hrun.
  { unfold ret in Hrun. inversion Hrun; subst. esquema_split. }
  apply bind_Ok in Hrun. destruct Hrun as ([] & db1 & Hpar & Hrun).
  apply params_Ok in Hpar. destruct Hpar as [_ ->].
  apply bind_Ok in Hrun. destruct Hrun as (n & db1 & Hn & Hrun).
  apply not_null_Ok in Hn. destruct Hn as [_ ->].
  inversion Hrun; subst; clear Hrun.
  esquema_split.
  - rewrite (map_id_update DetalleVenta.id); [exact Had|reflexivity].
  - intros y Hy. apply in_map_iff in Hy. destruct Hy as (r & <- & Hr).
    destruct (Hdp r Hr) as (p0 & Hp0 & E). exists p0. split; [exact Hp0|].
    destruct (DetalleVenta.id r =? DetalleVenta.id d); exact E.
  - intros y Hy. apply in_map_iff in Hy. destruct Hy as (r & <- & Hr).
    destruct (Hdv r Hr) as (v0 & Hv0 & E). exists v0. split; [exact Hv0|].
    destruct (DetalleVenta.id r =? DetalleVenta.id d); exact E.
  - rewrite map_map. erewrite map_ext; [exact Hdu|].
    intros a. simpl. destruct (DetalleVenta.id a =? DetalleVenta.id d); reflexivity.
Qed.

Lemma DELETE_detalle_Esquema detalle_id : preserves Esquema (DELETE_detalle detalle_id).
Proof.
  esquema_intro. unfold DELETE_detalle in Hrun. inversion Hrun; subst; clear Hrun.
  esquema_split.
  - apply sorted_filter. exact Had.
  - intros d Hd. apply filter_In in Hd. apply Hdp. apply Hd.
  - intros d Hd. apply filter_In in Hd. apply Hdv. apply Hd.
  - apply NoDup_map_filter_gen. exact Hdu.
Qed.

(** ** ... and so by every function of crud.py *)

Lemma session_delete_venta_Esquema v : preserves Esquema (session_delete_venta v).
Proof.
  unfold session_delete_venta. apply preserves_bind; [apply preserves_query|].
  intros hijos. apply preserves_bind.
  - apply preserves_forM_. intros d. apply DELETE_detalle_Esquema.
  - intros _. apply DELETE_venta_Esquema.
Qed.

Lemma delete_cliente_Esquema cliente_id : preserves Esquema (delete_cliente cliente_id).
Proof.
  unfold delete_cliente. apply preserves_bind; [apply preserves_first_by_id|].
  intros [c|]; [|apply preserves_ret].
  apply preserves_bind; [|intros _; apply preserves_ret].
  unfold session_delete_cliente. apply preserves_bind; [apply preserves_query|].
  intros hijas. apply preserves_bind.
  - apply preserves_forM_. intros v. apply session_delete_venta_Esquema.
  - intros _. apply DELETE_cliente_Esquema.
Qed.

Lemma delete_producto_Esquema producto_id : preserves Esquema (delete_producto producto_id).
Proof.
  unfold delete_producto. apply preserves_bind; [apply preserves_first_by_id|].
  intros [p|]; [|apply preserves_ret].
  apply preserves_bind; [|intros _; apply preserves_ret].
  unfold session_delete_producto. apply preserves_bind; [apply preserves_query|].
  intros hijos. apply preserves_bind.
  - apply preserves_forM_. intros d.
    apply preserves_bind; [apply preserves_not_null|intros _; apply preserves_ret].
  - intros _. apply DELETE_producto_Esquema.
Qed.

Lemma delete_venta_Esquema venta_id : preserves Esquema (delete_venta venta_id).
Proof.
  unfold delete_venta. apply preserves_bind; [apply preserves_first_by_id|].
  intros [v|]; [|apply preserves_ret].
  apply preserves_bind; [apply session_delete_venta_Esquema|intros _; apply preserves_ret].
Qed.

Lemma update_cliente_Esquema now i data : preserves Esquema (update_cliente now i data).
Proof.
  intros db x db' HE H. unfold update_cliente, get_cliente in H.
  apply by_id_Ok in H. destruct H as [H _].
  destruct (find _ (clientes db)) as [c|] eqn:F.
  - apply find_some in F. destruct F as [Hin _].
    apply bind_Ok in H. destruct H as (c' & db1 & E & H).
    unfold ret in H. inversion H; subst. eapply UPDATE_cliente_Esquema; eassumption.
  - unfold ret in H. inversion H; subst. exact HE.
Qed.

Lemma update_producto_Esquema now i data : preserves Esquema (update_producto now i data).
Proof.
  unfold update_producto. apply preserves_bind; [apply preserves_first_by_id|].
  intros [p|]; [|apply preserves_ret].
  apply preserves_bind; [apply UPDATE_producto_Esquema|intros p'; apply preserves_ret].
Qed.

Lemma update_venta_Esquema now i data : preserves Esquema (update_venta now i data).
Proof.
  unfold update_venta. apply preserves_bind; [apply preserves_first_by_id|].
  intros [v|]; [|apply preserves_ret].
  apply preserves_bind; [apply UPDATE_venta_cliente_Esquema|intros v'; apply preserves_ret].
Qed.

Lemma INSERT_detalles_Esquema now uuid4 vid dets : forall k,
  preserves Esquema (INSERT_detalles now uuid4 vid dets k).
Proof.
  induction dets as [|det rest IH]; intros k; simpl.
  - apply preserves_ret.
  - apply preserves_bind; [apply INSERT_detalle_Esquema|intros _; apply IH].
Qed.

Lemma create_venta_Esquema now uuid4 data : preserves Esquema (create_venta now uuid4 data).
Proof.
  unfold create_venta. apply preserves_bind; [apply INSERT_venta_Esquema|].
  intros venta. apply preserves_bind; [apply UPDATE_venta_total_Esquema|].
  intros venta'. apply preserves_bind; [apply INSERT_detalles_Esquema|].
  intros _. apply preserves_ret.
Qed.

Lemma _recalcular_total_venta_Esquema now real venta_id :
  preserves Esquema (_recalcular_total_venta now real venta_id).
Proof.
  unfold _recalcular_total_venta. apply preserves_bind; [apply preserves_select|].
  intros suma. apply preserves_bind; [apply preserves_query|].
  intros [v|]; [|apply preserves_ret].
  apply preserves_bind; [apply UPDATE_venta_total_Esquema|intros _; apply preserves_ret].
Qed.

Lemma create_detalle_Esquema now real u data :
  preserves Esquema (create_detalle now real u data).
Proof.
  unfold create_detalle. apply preserves_bind; [apply INSERT_detalle_Esquema|].
  intros d. apply preserves_bind; [apply _recalcular_total_venta_Esquema|].
  intros _. apply preserves_ret.
Qed.

Lemma update_detalle_Esquema now real i data :
  preserves Esquema (update_detalle now real i data).
Proof.
  unfold update_detalle. apply preserves_bind; [apply preserves_first_by_id|].
  intros [d|]; [|apply preserves_ret].
  apply preserves_bind; [apply UPDATE_detalle_Esquema|]. intros d'.
  apply preserves_bind; [apply _recalcular_total_venta_Esquema|].
  intros _. apply preserves_ret.
Qed.

Lemma delete_detalle_Esquema now real i : preserves Esquema (delete_detalle now real i).
Proof.
  unfold delete_detalle. apply preserves_bind; [apply preserves_first_by_id|].
  intros [d|]; [|apply preserves_ret].
  apply preserves_bind; [apply DELETE_detalle_Esquema|]. intros _.
  apply preserves_bind; [apply _recalcular_total_venta_Esquema|].
  intros _. apply preserves_ret.
Qed.

Lemma transaction_preserves {A} (P : DB -> Prop) (m : Session A) db :
  preserves P m -> P db -> P (snd (transaction m db)).
Proof.
  intros Hm HP. unfold transaction. destruct (m db) as [[a db']|e] eqn:E; simpl.
  - eapply Hm; eassumption.
  - exact HP.
Qed.

Lemma handle_Esquema now r db : Esquema db -> Esquema (handle now r db).
Proof.
  intros HE. destruct r; simpl; apply transaction_preserves; try exact HE.
  - apply INSERT_cliente_Esquema.
  - apply update_cliente_Esquema.
  - apply delete_cliente_Esquema.
  - apply INSERT_producto_Esquema.
  - apply update_producto_Esquema.
  - apply delete_producto_Esquema.
  - apply create_venta_Esquema.
  - apply update_venta_Esquema.
  - apply delete_venta_Esquema.
  - apply create_detalle_Esquema.
  - apply update_detalle_Esquema.
  - apply delete_detalle_Esquema.
Qed.

Lemma run_Esquema rs : forall db, Esquema db -> Esquema (run rs db).
Proof.
  induction rs as [|[now r] rs IH]; intros db HE; simpl; [exact HE|].
  apply IH. apply handle_Esquema. exact HE.
Qed.

Lemma empty_db_Esquema : Esquema empty_db.
Proof.
  unfold Esquema. simpl.
  repeat match goal with |- _ /\ _ => split end;
    try constructor; intros ? [].
Qed.

(** ** What holds in every store the requests build *)

(** Referential integrity: whatever the requests, every sale has its
    customer, and every line item its product and its sale. *)
Theorem foreign_keys_hold rs :
  ventas_con_cliente (run rs empty_db) = true
  /\ detalles_con_producto (run rs empty_db) = true
  /\ detalles_con_venta (run rs empty_db) = true.
Proof.
  destruct (run_Esquema rs empty_db empty_db_Esquema)
    as (_ & _ & _ & _ & Hvc & Hdp & Hdv & _).
  unfold ventas_con_cliente, detalles_con_producto, detalles_con_venta.
  split; [|split]; apply fk_forallb; assumption.
Qed.

(** Whatever the requests, no two customers share a uuid, an email or a
    rut, and no two products, sales or line items share a uuid. *)
Theorem unique_columns_hold rs : unicidad (run rs empty_db) = true.
Proof.
  destruct (run_Esquema rs empty_db empty_db_Esquema)
    as (_ & _ & _ & _ & _ & _ & _ & Hcu & Hce & Hcr & Hpu & Hvu & Hdu).
  unfold unicidad. rewrite !NoDup_unicas by assumption. reflexivity.
Qed.

Lemma StronglySorted_firstn {A} (R : A -> A -> Prop) (n : nat) (l : list A) :
  StronglySorted R l -> StronglySorted R (firstn n l).
Proof.
  revert l. induction n as [|n IH]; intros l Hs; simpl; [constructor|].
  destruct l as [|x l]; [constructor|].
  inversion Hs as [|? ? Hl Hx]; subst. constructor; [apply IH; exact Hl|].
  rewrite Forall_forall in *. intros y Hy. apply Hx. eapply firstn_In. exact Hy.
Qed.

Lemma StronglySorted_skipn {A} (R : A -> A -> Prop) (n : nat) (l : list A) :
  StronglySorted R l -> StronglySorted R (skipn n l).
Proof.
  revert l. induction n as [|n IH]; intros l Hs; simpl; [exact Hs|].
  destruct l as [|x l]; [constructor|].
  inversion Hs; subst. apply IH. assumption.
Qed.

Lemma pagina_sorted {A} (f : A -> Z) (skip limit : Z) (l : list A) :
  StronglySorted Z.lt (map f l) ->
  StronglySorted Z.lt (map f (sql_limit limit (skipn (Z.to_nat skip) l))).
Proof.
  intros Hs. unfold sql_limit. destruct (limit <? 0).
  - rewrite <- skipn_map. apply StronglySorted_skipn. exact Hs.
  - rewrite <- firstn_map, <- skipn_map. apply StronglySorted_firstn.
    apply StronglySorted_skipn. exact Hs.
Qed.

Lemma offset_limit_eq {A} (tabla : DB -> list A) (skip limit : Z) db :
  int64 skip = true -> int64 limit = true ->
  offset_limit tabla skip limit db
  = Ok (sql_limit limit (skipn (Z.to_nat skip) (tabla db)), db).
Proof.
  intros Hs Hl. unfold offset_limit.
  rewrite (bind_eq _ _ db tt db); [reflexivity|].
  apply params_true. simpl. rewrite Hs, Hl. reflexivity.
Qed.

Lemma offset_limit_Ok {A} (tabla : DB -> list A) (skip limit : Z) db rows db' :
  offset_limit tabla skip limit db = Ok (rows, db') ->
  rows = sql_limit limit (skipn (Z.to_nat skip) (tabla db)) /\ db' = db
  /\ int64 skip = true /\ int64 limit = true.
Proof.
  unfold offset_limit. intros H.
  apply bind_Ok in H. destruct H as ([] & db1 & Hpar & H).
  apply params_Ok in Hpar. destruct Hpar as [Hpar ->].
  unfold query in H. inversion H; subst. simpl in Hpar.
  rewrite andb_true_r in Hpar. apply andb_prop in Hpar. tauto.
Qed.

(** Ids are handed out in increasing order: whatever the requests, every
    table holds its rows in strictly increasing order of id, and for
    [skip] and [limit] in the 64 bits every listing returns a page, in
    that order. *)
Theorem listings_ascend rs skip limit :
  int64 skip = true -> int64 limit = true ->
  ids_ascendentes (run rs empty_db) = true
  /\ devuelve (list_clientes skip limit) (run rs empty_db)
       (fun rows => StronglySorted Z.lt (map Cliente.id rows))
  /\ devuelve (list_productos skip limit) (run rs empty_db)
       (fun rows => StronglySorted Z.lt (map Producto.id rows))
  /\ devuelve (list_ventas skip limit) (run rs empty_db)
       (fun rows => StronglySorted Z.lt (map Venta.id rows))
  /\ devuelve (list_detalles skip limit) (run rs empty_db)
       (fun rows => StronglySorted Z.lt (map DetalleVenta.id rows)).
Proof.
  intros Hs Hl.
  destruct (run_Esquema rs empty_db empty_db_Esquema) as (Hac & Hap & Hav & Had & _).
  split; [|split; [|split; [|split]]].
  - unfold ids_ascendentes. rewrite !sorted_ascendente by assumption. reflexivity.
  - eexists _, _. split; [apply offset_limit_eq; assumption|].
    apply pagina_sorted. exact Hac.
  - eexists _, _. split; [apply offset_limit_eq; assumption|].
    apply pagina_sorted. exact Hap.
  - eexists _, _. split; [apply offset_limit_eq; assumption|].
    apply pagina_sorted. exact Hav.
  - eexists _, _. split; [apply offset_limit_eq; assumption|].
    apply pagina_sorted. exact Had.
Qed.

Lemma coalesce_sum_Entero items s :
  coalesce_sum (map subtotal_sql items) = Ok (Entero s) ->
  forallb en_enteros items = true.
Proof.
  unfold coalesce_sum. destruct (SUM _) as [x|e] eqn:Hs; [|discriminate].
  apply SUM_subtotales_Ok in Hs.
  destruct (forallb en_enteros items); [reflexivity|]. subst x. discriminate.
Qed.

(** Whatever the requests, with explicit nulls or without, the stored
    total of every sale is the COALESCE(SUM(...), 0) the recomputation
    would take over its line items at that moment, whenever that is an
    integer. *)
Theorem stored_totals_are_sql_sums rs : totales_ok (run rs empty_db) = true.
Proof.
  pose proof (reachable_total_es_suma_sql _ (run_reachable rs _ reachable_empty)) as H.
  unfold totales_ok. apply forallb_forall. intros v Hv.
  destruct (coalesce_sum _) as [[s|]|e] eqn:Hs; try reflexivity.
  apply Z.eqb_eq.
  pose proof (coalesce_sum_Entero _ _ Hs) as He.
  rewrite (H v Hv He). apply (coalesce_sum_Ok _ _ Hs) in He. congruence.
Qed.

(** ** Creating, updating and reading back *)

Lemma create_venta_get now uuid4 data db v db' :
  create_venta now uuid4 data db = Ok (v, db') ->
  find (fun r => Venta.id r =? Venta.id v) (ventas db') = Some v
  /\ Venta.uuid v = uuid4 O /\ Venta.fecha v = now /\ Venta.created_at v = now.
Proof.
  intros H. apply create_venta_Ok in H. destruct H as (Ev & _ & _ & Hv & _).
  split; [|rewrite Ev; auto].
  rewrite Hv. apply (find_snoc_fresh Venta.id); rewrite Ev; reflexivity.
Qed.

(** What a create returns can be read back: after a committed create, the
    get of the returned id returns the returned record, and the record
    carries the fields of the request, the identifier drawn and the time
    of the request. *)
Theorem create_then_get now db :
  (forall u data c db',
      transaction (create_cliente now u data) db = (Ok c, db') ->
      devuelve (get_cliente (Cliente.id c)) db' (fun r => r = Some c)
      /\ c = Cliente.mk (next_rowid (map Cliente.id (clientes db))) u
                        (ClienteCreate.nombre data) (ClienteCreate.email data)
                        (ClienteCreate.rut data) now now)
  /\ (forall u data p db',
        transaction (create_producto now u data) db = (Ok p, db') ->
        devuelve (get_producto (Producto.id p)) db' (fun r => r = Some p)
        /\ p = Producto.mk (next_rowid (map Producto.id (productos db))) u
                           (ProductoCreate.nombre data) (ProductoCreate.categoria data)
                           (ProductoCreate.precio data) now now)
  /\ (forall uuid4 data v db',
        transaction (create_venta now uuid4 data) db = (Ok v, db') ->
        devuelve (get_venta (Venta.id v)) db' (fun r => r = Some v)
        /\ Venta.id v = next_rowid (map Venta.id (ventas db))
        /\ Venta.uuid v = uuid4 O
        /\ Venta.cliente_id v = VentaCreate.cliente_id data
        /\ Venta.fecha v = now /\ Venta.created_at v = now)
  /\ (forall real u data d db',
        transaction (create_detalle now real u data) db = (Ok d, db') ->
        devuelve (get_detalle (DetalleVenta.id d)) db' (fun r => r = Some d)
        /\ d = DetalleVenta.mk (next_rowid (map DetalleVenta.id (detalles_ventas db))) u
                 (DetalleVentaCreateStandalone.producto_id data)
                 (DetalleVentaCreateStandalone.venta_id data)
                 (DetalleVentaCreateStandalone.precio data)
                 (Some (DetalleVentaCreateStandalone.descuento data))
                 (Some (DetalleVentaCreateStandalone.cantidad data)) now now).
Proof.
  split; [|split; [|split]].
  - intros u data c db' H. apply transaction_Ok in H.
    unfold create_cliente, INSERT_cliente in H.
    apply bind_Ok in H. destruct H as ([] & db1 & Hc & H).
    apply constraint_Ok in Hc. destruct Hc as [_ ->].
    inversion H; subst; clear H. split; [|reflexivity].
    eexists _, _. split; [|reflexivity]. apply first_by_id_found. simpl.
    apply (find_snoc_fresh Cliente.id); reflexivity.
  - intros u data p db' H. apply transaction_Ok in H.
    unfold create_producto, INSERT_producto in H.
    apply bind_Ok in H. destruct H as ([] & db1 & Hpar & H).
    apply params_Ok in Hpar. destruct Hpar as [_ ->].
    apply bind_Ok in H. destruct H as ([] & db1 & Hc & H).
    apply constraint_Ok in Hc. destruct Hc as [_ ->].
    inversion H; subst; clear H. split; [|reflexivity].
    eexists _, _. split; [|reflexivity]. apply first_by_id_found. simpl.
    apply (find_snoc_fresh Producto.id); reflexivity.
  - intros uuid4 data v db' H. apply transaction_Ok in H.
    destruct (create_venta_get _ _ _ _ _ _ H) as (Hfind & Hu & Hf & Hcr).
    apply create_venta_Ok in H. destruct H as (Ev & _).
    split; [|rewrite Ev; simpl; rewrite Ev in Hu, Hf, Hcr; auto].
    eexists _, _. split; [|reflexivity]. apply first_by_id_found. exact Hfind.
  - intros real u data d db' H. apply transaction_Ok in H.
    unfold create_detalle in H.
    apply bind_Ok in H. destruct H as (row & db1 & Hins & H).
    apply bind_Ok in H. destruct H as ([] & db2 & Erec & H).
    unfold ret in H. inversion H; subst; clear H.
    apply _recalcular_total_venta_Ok in Erec. destruct Erec as (_ & _ & Hd2 & _).
    apply INSERT_detalle_Ok in Hins. destruct Hins as (Hrow & -> & _).
    split; [|exact Hrow].
    eexists _, _. split; [|reflexivity]. apply first_by_id_found.
    rewrite Hd2. simpl.
    apply (find_snoc_fresh DetalleVenta.id); rewrite Hrow; reflexivity.
Qed.

(** The updates, once the lookup is done. *)
Lemma update_cliente_found now i data db c :
  find (fun c => Cliente.id c =? i) (clientes db) = Some c ->
  update_cliente now i data db
  = match UPDATE_cliente now c
            (setattr (ClienteUpdate.nombre data) (Some (Cliente.nombre c)))
            (setattr (ClienteUpdate.email data) (Some (Cliente.email c)))
            (setattr (ClienteUpdate.rut data) (Some (Cliente.rut c))) db with
    | Ok (c', db') => Ok (Some c', db')
    | Raise e => Raise e
    end.
Proof.
  intros F. unfold update_cliente, get_cliente. rewrite (by_id_found _ _ _ _ _ _ F).
  unfold bind. destruct (UPDATE_cliente _ _ _ _ _ _) as [[c' db']|e]; reflexivity.
Qed.

Lemma update_producto_found now i data db p :
  find (fun p => Producto.id p =? i) (productos db) = Some p ->
  update_producto now i data db
  = match UPDATE_producto now p
            (setattr (ProductoUpdate.nombre data) (Some (Producto.nombre p)))
            (setattr (ProductoUpdate.categoria data) (Producto.categoria p))
            (setattr (ProductoUpdate.precio data) (Some (Producto.precio p))) db with
    | Ok (p', db') => Ok (Some p', db')
    | Raise e => Raise e
    end.
Proof.
  intros F. unfold update_producto, get_producto. rewrite (by_id_found _ _ _ _ _ _ F).
  unfold bind. destruct (UPDATE_producto _ _ _ _ _ _) as [[p' db']|e]; reflexivity.
Qed.

Lemma update_venta_found now i data db v :
  find (fun v => Venta.id v =? i) (ventas db) = Some v ->
  update_venta now i data db
  = match UPDATE_venta_cliente now v
            (setattr (VentaUpdate.cliente_id data) (Some (Venta.cliente_id v))) db with
    | Ok (v', db') => Ok (Some v', db')
    | Raise e => Raise e
    end.
Proof.
  intros F. unfold update_venta, get_venta. rewrite (by_id_found _ _ _ _ _ _ F).
  unfold bind. destruct (UPDATE_venta_cliente _ _ _ _) as [[v' db']|e]; reflexivity.
Qed.

Lemma update_detalle_found now real i data db d :
  find (fun d => DetalleVenta.id d =? i) (detalles_ventas db) = Some d ->
  update_detalle now real i data db
  = match UPDATE_detalle now d
            (setattr (DetalleVentaUpdate.precio data) (Some (DetalleVenta.precio d)))
            (setattr (DetalleVentaUpdate.descuento data) (DetalleVenta.descuento d))
            (setattr (DetalleVentaUpdate.cantidad data) (DetalleVenta.cantidad d)) db with
    | Ok (d', db1) =>
        match _recalcular_total_venta now real (DetalleVenta.venta_id d') db1 with
        | Ok (_, db2) => Ok (Some d', db2)
        | Raise e => Raise e
        end
    | Raise e => Raise e
    end.
Proof.
  intros F. unfold update_detalle, get_detalle. rewrite (by_id_found _ _ _ _ _ _ F).
  unfold bind. destruct (UPDATE_detalle _ _ _ _ _ _) as [[d' db1]|e]; [|reflexivity].
  destruct (_recalcular_total_venta _ _ _ _) as [[[] db2]|e]; reflexivity.
Qed.

Lemma update_missing {A B} (id : A -> Z) (tabla : DB -> list A) i db
  (k : A -> Session (option B)) :
  find (fun r => id r =? i) (tabla db) = None ->
  bind (first_by_id id tabla i)
       (fun r => match r with
                 | None => ret None
                 | Some a => k a
                 end) db
  = if int64 i then Ok (None, db) else Raise OverflowError.
Proof.
  intros F. destruct (int64 i) eqn:Hi.
  - rewrite (by_id_missing _ _ _ _ _ F Hi). reflexivity.
  - rewrite (by_id_overflow _ _ _ _ _ F Hi). reflexivity.
Qed.

Lemma setattr_again {A} (f : field A) (old new : option A) :
  new = setattr f old -> setattr f new = new.
Proof. destruct f; simpl; intros H; [reflexivity|symmetry; exact H]. Qed.

Lemma UPDATE_cliente_find now c n e r db c' db' i :
  find (fun x => Cliente.id x =? i) (clientes db) = Some c ->
  UPDATE_cliente now c n e r db = Ok (c', db') ->
  find (fun x => Cliente.id x =? i) (clientes db') = Some c'
  /\ n = Some (Cliente.nombre c') /\ e = Some (Cliente.email c')
  /\ r = Some (Cliente.rut c').
Proof.
  intros Hfind H. unfold UPDATE_cliente in H.
  destruct (_ && _ && _) eqn:Esame.
  - unfold ret in H. inversion H; subst.
    apply andb_prop in Esame. destruct Esame as [Esame E3].
    apply andb_prop in Esame. destruct Esame as [E1 E2].
    apply opt_eqb_string_eq in E1, E2, E3. auto.
  - apply bind_Ok in H. destruct H as (n' & db1 & Hn & H).
    apply not_null_Ok in Hn. destruct Hn as [-> ->].
    apply bind_Ok in H. destruct H as (e' & db1 & He & H).
    apply not_null_Ok in He. destruct He as [-> ->].
    apply bind_Ok in H. destruct H as (r' & db1 & Hr & H).
    apply not_null_Ok in Hr. destruct Hr as [-> ->].
    apply bind_Ok in H. destruct H as ([] & db1 & Hc & H).
    apply constraint_Ok in Hc. destruct Hc as [_ ->].
    inversion H; subst; clear H. simpl. rewrite !if_string_eqb.
    split; [|auto].
    pose proof (find_map_update Cliente.id
                  (fun x => Cliente.mk (Cliente.id x) (Cliente.uuid x)
                     (if String.eqb n' (Cliente.nombre c) then Cliente.nombre x else n')
                     (if String.eqb e' (Cliente.email c) then Cliente.email x else e')
                     (if String.eqb r' (Cliente.rut c) then Cliente.rut x else r')
                     (Cliente.created_at x) now)
                  _ _ _ (fun _ => eq_refl) Hfind) as Hf.
    simpl in Hf. rewrite !if_string_eqb in Hf. exact Hf.
Qed.

Lemma UPDATE_cliente_noop now c db :
  UPDATE_cliente now c (Some (Cliente.nombre c)) (Some (Cliente.email c))
                 (Some (Cliente.rut c)) db = Ok (c, db).
Proof. unfold UPDATE_cliente. simpl. rewrite !String.eqb_refl. reflexivity. Qed.

Lemma UPDATE_cliente_raise now1 now2 c n e r db err :
  UPDATE_cliente now1 c n e r db = Raise err ->
  UPDATE_cliente now2 c n e r db = Raise err.
Proof.
  unfold UPDATE_cliente. destruct (_ && _ && _); [discriminate|].
  unfold bind, not_null, ret, raise, constraint.
  destruct n; [|auto]. destruct e; [|auto]. destruct r; [|auto].
  destruct (_ && _); [discriminate|auto].
Qed.

Lemma update_cliente_again now1 now2 i data db :
  transaction (update_cliente now2 i data) (snd (transaction (update_cliente now1 i data) db))
  = transaction (update_cliente now1 i data) db.
Proof.
  unfold transaction at 2 3.
  destruct (find (fun c => Cliente.id c =? i) (clientes db)) as [c|] eqn:F.
  - rewrite (update_cliente_found now1 _ _ _ _ F).
    destruct (UPDATE_cliente now1 c _ _ _ db) as [[c' db1]|e] eqn:E; simpl.
    + destruct (UPDATE_cliente_find _ _ _ _ _ _ _ _ _ F E) as (F' & Hn & He & Hr).
      unfold transaction. rewrite (update_cliente_found now2 _ _ _ _ F').
      rewrite (setattr_again _ _ _ (eq_sym Hn)), (setattr_again _ _ _ (eq_sym He)),
        (setattr_again _ _ _ (eq_sym Hr)).
      rewrite UPDATE_cliente_noop. reflexivity.
    + unfold transaction. rewrite (update_cliente_found now2 _ _ _ _ F).
      rewrite (UPDATE_cliente_raise _ now2 _ _ _ _ _ _ E). reflexivity.
  - unfold update_cliente, get_cliente. rewrite (update_missing _ _ _ _ _ F).
    destruct (int64 i) eqn:Hi; simpl; unfold transaction;
      rewrite (update_missing _ _ _ _ _ F), Hi; reflexivity.
Qed.

Lemma opt_eqb_string_refl (x : option string) : opt_eqb String.eqb x x = true.
Proof. apply opt_eqb_string_eq. reflexivity. Qed.

Lemma opt_eqb_Z_refl (x : option Z) : opt_eqb Z.eqb x x = true.
Proof. apply opt_eqb_Z_eq. reflexivity. Qed.

Lemma UPDATE_producto_find now p n cat pr db p' db' i :
  find (fun x => Producto.id x =? i) (productos db) = Some p ->
  UPDATE_producto now p n cat pr db = Ok (p', db') ->
  find (fun x => Producto.id x =? i) (productos db') = Some p'.
Proof.
  intros Hfind H. unfold UPDATE_producto in H.
  destruct (_ && _ && _).
  - unfold ret in H. inversion H; subst. exact Hfind.
  - apply bind_Ok in H. destruct H as ([] & db1 & Hpar & H).
    apply params_Ok in Hpar. destruct Hpar as [_ ->].
    apply bind_Ok in H. destruct H as (n' & db1 & Hn & H).
    apply not_null_Ok in Hn. destruct Hn as [-> ->].
    apply bind_Ok in H. destruct H as (pr' & db1 & Hp & H).
    apply not_null_Ok in Hp. destruct Hp as [-> ->].
    inversion H; subst; clear H. simpl.
    exact (find_map_update Producto.id
             (fun x => Producto.mk (Producto.id x) (Producto.uuid x)
                (if String.eqb n' (Producto.nombre p) then Producto.nombre x else n')
                (if opt_eqb String.eqb cat (Producto.categoria p)
                 then Producto.categoria x else cat)
                (if pr' =? Producto.precio p then Producto.precio x else pr')
                (Producto.created_at x) now)
             _ _ _ (fun _ => eq_refl) Hfind).
Qed.

Lemma UPDATE_producto_noop now p db :
  UPDATE_producto now p (Some (Producto.nombre p)) (Producto.categoria p)
                  (Some (Producto.precio p)) db = Ok (p, db).
Proof.
  unfold UPDATE_producto. simpl.
  rewrite String.eqb_refl, Z.eqb_refl, opt_eqb_string_refl. reflexivity.
Qed.

Lemma UPDATE_producto_raise now1 now2 p n cat pr db err :
  UPDATE_producto now1 p n cat pr db = Raise err ->
  UPDATE_producto now2 p n cat pr db = Raise err.
Proof.
  unfold UPDATE_producto. destruct (_ && _ && _); [discriminate|].
  unfold bind, params, not_null, ret, raise.
  destruct (forallb int64 _); [|auto].
  destruct n; [|auto]. destruct pr; [discriminate|auto].
Qed.

Lemma update_producto_again now1 now2 i data db :
  transaction (update_producto now2 i data)
              (snd (transaction (update_producto now1 i data) db))
  = transaction (update_producto now1 i data) db.
Proof.
  unfold transaction at 2 3.
  destruct (find (fun p => Producto.id p =? i) (productos db)) as [p|] eqn:F.
  - rewrite (update_producto_found now1 _ _ _ _ F).
    destruct (UPDATE_producto now1 p _ _ _ db) as [[p' db1]|e] eqn:E; simpl.
    + pose proof (UPDATE_producto_find _ _ _ _ _ _ _ _ _ F E) as F'.
      apply UPDATE_producto_Ok in E. destruct E as (Hn & Hc & Hp & _).
      unfold transaction. rewrite (update_producto_found now2 _ _ _ _ F').
      rewrite (setattr_again _ _ _ Hn), (setattr_again _ _ _ Hc), (setattr_again _ _ _ Hp).
      rewrite UPDATE_producto_noop. reflexivity.
    + unfold transaction. rewrite (update_producto_found now2 _ _ _ _ F).
      rewrite (UPDATE_producto_raise _ now2 _ _ _ _ _ _ E). reflexivity.
  - unfold update_producto, get_producto. rewrite (update_missing _ _ _ _ _ F).
    destruct (int64 i) eqn:Hi; simpl; unfold transaction;
      rewrite (update_missing _ _ _ _ _ F), Hi; reflexivity.
Qed.

Lemma UPDATE_venta_cliente_find now v cid db v' db' i :
  find (fun x => Venta.id x =? i) (ventas db) = Some v ->
  UPDATE_venta_cliente now v cid db = Ok (v', db') ->
  find (fun x => Venta.id x =? i) (ventas db') = Some v'
  /\ cid = Some (Venta.cliente_id v').
Proof.
  intros Hfind H. unfold UPDATE_venta_cliente in H.
  destruct (opt_eqb Z.eqb cid _) eqn:Esame.
  - unfold ret in H. inversion H; subst. apply opt_eqb_Z_eq in Esame. auto.
  - apply bind_Ok in H. destruct H as (c & db1 & Hn & H).
    apply not_null_Ok in Hn. destruct Hn as [-> ->].
    apply bind_Ok in H. destruct H as ([] & db1 & Hk & H).
    apply param_key_Ok in Hk. destruct Hk as [_ ->].
    apply bind_Ok in H. destruct H as ([] & db1 & Hc & H).
    apply constraint_Ok in Hc. destruct Hc as [_ ->].
    unfold UPDATE_ventas in H. inversion H; subst; clear H. simpl.
    split; [|reflexivity].
    exact (find_map_update Venta.id
             (fun r => Venta.mk (Venta.id r) (Venta.uuid r) (Venta.fecha r) (Venta.total r)
                                (Venta.created_at r) now c)
             _ _ _ (fun _ => eq_refl) Hfind).
Qed.

Lemma UPDATE_venta_cliente_raise now1 now2 v cid db err :
  UPDATE_venta_cliente now1 v cid db = Raise err ->
  UPDATE_venta_cliente now2 v cid db = Raise err.
Proof.
  unfold UPDATE_venta_cliente. destruct (opt_eqb _ _ _); [discriminate|].
  unfold bind, not_null, ret, raise, param_key, constraint, UPDATE_ventas.
  destruct cid; [|auto]. destruct (_ || _); [|auto].
  destruct (existsb _ _); [discriminate|auto].
Qed.

Lemma update_venta_again now1 now2 i data db :
  transaction (update_venta now2 i data) (snd (transaction (update_venta now1 i data) db))
  = transaction (update_venta now1 i data) db.
Proof.
  unfold transaction at 2 3.
  destruct (find (fun v => Venta.id v =? i) (ventas db)) as [v|] eqn:F.
  - rewrite (update_venta_found now1 _ _ _ _ F).
    destruct (UPDATE_venta_cliente now1 v _ db) as [[v' db1]|e] eqn:E; simpl.
    + destruct (UPDATE_venta_cliente_find _ _ _ _ _ _ _ F E) as (F' & Hc).
      unfold transaction. rewrite (update_venta_found now2 _ _ _ _ F').
      rewrite (setattr_again _ _ _ (eq_sym Hc)).
      unfold UPDATE_venta_cliente. simpl. rewrite Z.eqb_refl. reflexivity.
    + unfold transaction. rewrite (update_venta_found now2 _ _ _ _ F).
      rewrite (UPDATE_venta_cliente_raise _ now2 _ _ _ _ E). reflexivity.
  - unfold update_venta, get_venta. rewrite (update_missing _ _ _ _ _ F).
    destruct (int64 i) eqn:Hi; simpl; unfold transaction;
      rewrite (update_missing _ _ _ _ _ F), Hi; reflexivity.
Qed.

Lemma _recalcular_total_venta_find now real venta_id db x db1 :
  _recalcular_total_venta now real venta_id db = Ok (x, db1) ->
  detalles_ventas db1 = detalles_ventas db
  /\ exists s,
       coalesce_sum (map subtotal_sql (detalles_de venta_id db)) = Ok s
       /\ match find (fun v => Venta.id v =? venta_id) (ventas db) with
          | None => find (fun v => Venta.id v =? venta_id) (ventas db1) = None
          | Some _ =>
              exists v1,
                find (fun v => Venta.id v =? venta_id) (ventas db1) = Some v1
                /\ Venta.total v1 = int_suma real s
          end.
Proof.
  intros H. apply _recalcular_total_venta_Ok in H.
  destruct H as (_ & _ & Hd & _ & s & Hs & Hv).
  split; [exact Hd|]. exists s. split; [exact Hs|].
  destruct (find _ (ventas db)) as [v|] eqn:F; [|rewrite Hv; exact F].
  rewrite Hv.
  exists (if int_suma real s =? Venta.total v then v
          else Venta.mk (Venta.id v) (Venta.uuid v) (Venta.fecha v) (int_suma real s)
                        (Venta.created_at v) now (Venta.cliente_id v)).
  split.
  - apply (find_map_update Venta.id
             (fun r => if int_suma real s =? Venta.total v then r
                       else Venta.mk (Venta.id r) (Venta.uuid r) (Venta.fecha r)
                                     (int_suma real s) (Venta.created_at r) now
                                     (Venta.cliente_id r))); [|exact F].
    intros r. destruct (_ =? _); reflexivity.
  - destruct (_ =? _) eqn:Et; [|reflexivity]. apply Z.eqb_eq in Et. auto.
Qed.

Lemma _recalcular_total_venta_again now1 now2 real venta_id db x db1 :
  _recalcular_total_venta now1 real venta_id db = Ok (x, db1) ->
  _recalcular_total_venta now2 real venta_id db1 = Ok (tt, db1).
Proof.
  intros H. apply _recalcular_total_venta_find in H. destruct H as (Hd & s & Hs & Hf).
  assert (Hde : detalles_de venta_id db1 = detalles_de venta_id db)
    by (unfold detalles_de; rewrite Hd; reflexivity).
  unfold _recalcular_total_venta.
  rewrite (bind_eq _ _ db1 s db1) by (unfold select; rewrite Hde, Hs; reflexivity).
  unfold bind, query.
  destruct (find _ (ventas db)) as [v|].
  - destruct Hf as (v1 & -> & Ht). unfold UPDATE_venta_total.
    rewrite Ht, Z.eqb_refl. reflexivity.
  - rewrite Hf. reflexivity.
Qed.

(** Whether the recomputation raises depends on the subtotals of the
    line items and on the sales, not on the time. *)
Lemma _recalcular_total_venta_raise now1 now2 real venta_id db1 db2 e :
  ventas db2 = ventas db1 ->
  map subtotal_sql (detalles_de venta_id db2) = map subtotal_sql (detalles_de venta_id db1) ->
  _recalcular_total_venta now1 real venta_id db1 = Raise e ->
  _recalcular_total_venta now2 real venta_id db2 = Raise e.
Proof.
  intros Hv Hd. unfold _recalcular_total_venta, bind, select, query. cbv beta.
  rewrite Hd. destruct (coalesce_sum _); [|auto]. cbv beta iota. rewrite Hv.
  destruct (find _ (ventas db1)); [|discriminate].
  unfold UPDATE_venta_total. destruct (_ =? _); [discriminate|].
  unfold bind, params, UPDATE_ventas, ret. destruct (forallb int64 _); [discriminate|auto].
Qed.

Lemma map_filter_map_ext {A B} (g : A -> B) (p : A -> bool) (f1 f2 : A -> A) (l : list A) :
  (forall r, p (f1 r) = p (f2 r) /\ g (f1 r) = g (f2 r)) ->
  map g (filter p (map f1 l)) = map g (filter p (map f2 l)).
Proof.
  intros H. induction l as [|a l IH]; simpl; [reflexivity|].
  destruct (H a) as [Hp Hg]. rewrite Hp. destruct (p (f2 a)); simpl; [|exact IH].
  rewrite Hg, IH. reflexivity.
Qed.

Lemma UPDATE_detalle_otro_now now1 now2 d pr de ca db d1 db1 :
  UPDATE_detalle now1 d pr de ca db = Ok (d1, db1) ->
  exists d2 db2,
    UPDATE_detalle now2 d pr de ca db = Ok (d2, db2)
    /\ DetalleVenta.venta_id d2 = DetalleVenta.venta_id d1
    /\ ventas db2 = ventas db1
    /\ forall venta_id,
         map subtotal_sql (detalles_de venta_id db2)
         = map subtotal_sql (detalles_de venta_id db1).
Proof.
  unfold UPDATE_detalle. destruct (_ && _ && _).
  - intros H. exists d1, db1. unfold ret in *. inversion H; subst. auto.
  - intros H.
    apply bind_Ok in H. destruct H as ([] & dbx & Hpar & H).
    apply params_Ok in Hpar. destruct Hpar as [Hpar ->].
    apply bind_Ok in H. destruct H as (pr' & dbx & Hp & H).
    apply not_null_Ok in Hp. destruct Hp as [-> ->].
    inversion H; subst; clear H.
    rewrite (bind_eq _ _ db tt db) by (apply params_true; exact Hpar).
    unfold not_null. rewrite (bind_eq _ _ db pr' db) by reflexivity.
    eexists _, _. split; [reflexivity|]. simpl.
    split; [reflexivity|]. split; [reflexivity|].
    intros venta_id. unfold detalles_de. simpl.
    apply map_filter_map_ext. intros r.
    destruct (DetalleVenta.id r =? DetalleVenta.id d); split; reflexivity.
Qed.

Lemma UPDATE_detalle_find now d pr de ca db d' db' i :
  find (fun x => DetalleVenta.id x =? i) (detalles_ventas db) = Some d ->
  UPDATE_detalle now d pr de ca db = Ok (d', db') ->
  find (fun x => DetalleVenta.id x =? i) (detalles_ventas db') = Some d'.
Proof.
  intros Hfind H. unfold UPDATE_detalle in H.
  destruct (_ && _ && _).
  - unfold ret in H. inversion H; subst. exact Hfind.
  - apply bind_Ok in H. destruct H as ([] & db1 & Hpar & H).
    apply params_Ok in Hpar. destruct Hpar as [_ ->].
    apply bind_Ok in H. destruct H as (pr' & db1 & Hp & H).
    apply not_null_Ok in Hp. destruct Hp as [-> ->].
    inversion H; subst; clear H. simpl.
    exact (find_map_update DetalleVenta.id
             (fun r => DetalleVenta.mk (DetalleVenta.id r) (DetalleVenta.uuid r)
                (DetalleVenta.producto_id r) (DetalleVenta.venta_id r)
                (if pr' =? DetalleVenta.precio d then DetalleVenta.precio r else pr')
                (if opt_eqb Z.eqb de (DetalleVenta.descuento d)
                 then DetalleVenta.descuento r else de)
                (if opt_eqb Z.eqb ca (DetalleVenta.cantidad d)
                 then DetalleVenta.cantidad r else ca)
                (DetalleVenta.created_at r) now)
             _ _ _ (fun _ => eq_refl) Hfind).
Qed.

Lemma UPDATE_detalle_noop now d db :
  UPDATE_detalle now d (Some (DetalleVenta.precio d)) (DetalleVenta.descuento d)
                 (DetalleVenta.cantidad d) db = Ok (d, db).
Proof.
  unfold UPDATE_detalle. simpl. rewrite Z.eqb_refl, !opt_eqb_Z_refl. reflexivity.
Qed.

Lemma UPDATE_detalle_raise now1 now2 d pr de ca db err :
  UPDATE_detalle now1 d pr de ca db = Raise err ->
  UPDATE_detalle now2 d pr de ca db = Raise err.
Proof.
  unfold UPDATE_detalle. destruct (_ && _ && _); [discriminate|].
  unfold bind, params, not_null, ret, raise.
  destruct (forallb int64 _); [|auto]. destruct pr; [discriminate|auto].
Qed.

Lemma update_detalle_again now1 now2 real i data db :
  transaction (update_detalle now2 real i data)
              (snd (transaction (update_detalle now1 real i data) db))
  = transaction (update_detalle now1 real i data) db.
Proof.
  unfold transaction at 2 3.
  destruct (find (fun d => DetalleVenta.id d =? i) (detalles_ventas db)) as [d|] eqn:F.
  - rewrite (update_detalle_found now1 _ _ _ _ _ F).
    destruct (UPDATE_detalle now1 d _ _ _ db) as [[d' db1]|e] eqn:E; simpl.
    + destruct (_recalcular_total_venta now1 real (DetalleVenta.venta_id d') db1)
        as [[[] db2]|e] eqn:Erec; simpl.
      * pose proof (UPDATE_detalle_find _ _ _ _ _ _ _ _ _ F E) as F'.
        pose proof (_recalcular_total_venta_Ok _ _ _ _ _ _ Erec) as (_ & _ & Hd2 & _).
        apply UPDATE_detalle_Ok in E. destruct E as (Hp & Hde & Hca & _).
        rewrite <- Hd2 in F'.
        unfold transaction. rewrite (update_detalle_found now2 _ _ _ _ _ F').
        rewrite (setattr_again _ _ _ Hp), (setattr_again _ _ _ Hde),
          (setattr_again _ _ _ Hca).
        rewrite UPDATE_detalle_noop.
        rewrite (_recalcular_total_venta_again _ now2 _ _ _ _ _ Erec). reflexivity.
      * destruct (UPDATE_detalle_otro_now _ now2 _ _ _ _ _ _ _ E)
          as (d2 & db2 & E2 & Hvid & Hv & Hsub).
        unfold transaction. rewrite (update_detalle_found now2 _ _ _ _ _ F), E2, Hvid.
        rewrite (_recalcular_total_venta_raise _ now2 _ _ _ _ _ Hv (Hsub _) Erec).
        reflexivity.
    + unfold transaction. rewrite (update_detalle_found now2 _ _ _ _ _ F).
      rewrite (UPDATE_detalle_raise _ now2 _ _ _ _ _ _ E). reflexivity.
  - unfold update_detalle, get_detalle. rewrite (update_missing _ _ _ _ _ F).
    destruct (int64 i) eqn:Hi; simpl; unfold transaction;
      rewrite (update_missing _ _ _ _ _ F), Hi; reflexivity.
Qed.

(** A partial update sent twice does what it does once: the second
    request, at whatever time, returns what the first returned and leaves
    the store, [modified_at] included, as the first left it. *)
Theorem update_twice_is_update_once now1 now2 i db :
  (forall data,
      transaction (update_cliente now2 i data)
                  (snd (transaction (update_cliente now1 i data) db))
      = transaction (update_cliente now1 i data) db)
  /\ (forall data,
        transaction (update_producto now2 i data)
                    (snd (transaction (update_producto now1 i data) db))
        = transaction (update_producto now1 i data) db)
  /\ (forall data,
        transaction (update_venta now2 i data)
                    (snd (transaction (update_venta now1 i data) db))
        = transaction (update_venta now1 i data) db)
  /\ (forall real data,
        transaction (update_detalle now2 real i data)
                    (snd (transaction (update_detalle now1 real i data) db))
        = transaction (update_detalle now1 real i data) db).
Proof.
  split; [|split; [|split]].
  - intros data. apply update_cliente_again.
  - intros data. apply update_producto_again.
  - intros data. apply update_venta_again.
  - intros real data. apply update_detalle_again.
Qed.

(** What an update returns can be read back: after a committed partial
    update of an id, the get of that id returns the returned record. *)
Theorem update_then_get now i db :
  (forall data c' db',
      transaction (update_cliente now i data) db = (Ok (Some c'), db') ->
      devuelve (get_cliente i) db' (fun r => r = Some c'))
  /\ (forall data p' db',
        transaction (update_producto now i data) db = (Ok (Some p'), db') ->
        devuelve (get_producto i) db' (fun r => r = Some p'))
  /\ (forall data v' db',
        transaction (update_venta now i data) db = (Ok (Some v'), db') ->
        devuelve (get_venta i) db' (fun r => r = Some v'))
  /\ (forall real data d' db',
        transaction (update_detalle now real i data) db = (Ok (Some d'), db') ->
        devuelve (get_detalle i) db' (fun r => r = Some d')).
Proof.
  split; [|split; [|split]].
  - intros data x' db' H. apply transaction_Ok in H.
    destruct (find (fun c => Cliente.id c =? i) (clientes db)) as [c|] eqn:F.
    2:{ unfold update_cliente, get_cliente in H. rewrite (update_missing _ _ _ _ _ F) in H.
        destruct (int64 i); discriminate. }
    rewrite (update_cliente_found _ _ _ _ _ F) in H.
    destruct (UPDATE_cliente now c _ _ _ db) as [[c' db1]|e] eqn:E; [|discriminate].
    inversion H; subst.
    eexists _, _. split; [|reflexivity]. apply first_by_id_found.
    apply (UPDATE_cliente_find _ _ _ _ _ _ _ _ _ F E).
  - intros data x' db' H. apply transaction_Ok in H.
    destruct (find (fun p => Producto.id p =? i) (productos db)) as [p|] eqn:F.
    2:{ unfold update_producto, get_producto in H.
        rewrite (update_missing _ _ _ _ _ F) in H. destruct (int64 i); discriminate. }
    rewrite (update_producto_found _ _ _ _ _ F) in H.
    destruct (UPDATE_producto now p _ _ _ db) as [[p' db1]|e] eqn:E; [|discriminate].
    inversion H; subst.
    eexists _, _. split; [|reflexivity]. apply first_by_id_found.
    apply (UPDATE_producto_find _ _ _ _ _ _ _ _ _ F E).
  - intros data x' db' H. apply transaction_Ok in H.
    destruct (find (fun v => Venta.id v =? i) (ventas db)) as [v|] eqn:F.
    2:{ unfold update_venta, get_venta in H.
        rewrite (update_missing _ _ _ _ _ F) in H. destruct (int64 i); discriminate. }
    rewrite (update_venta_found _ _ _ _ _ F) in H.
    destruct (UPDATE_venta_cliente now v _ db) as [[v' db1]|e] eqn:E; [|discriminate].
    inversion H; subst.
    eexists _, _. split; [|reflexivity]. apply first_by_id_found.
    apply (UPDATE_venta_cliente_find _ _ _ _ _ _ _ F E).
  - intros real data x' db' H. apply transaction_Ok in H.
    destruct (find (fun d => DetalleVenta.id d =? i) (detalles_ventas db)) as [d|] eqn:F.
    2:{ unfold update_detalle, get_detalle in H.
        rewrite (update_missing _ _ _ _ _ F) in H. destruct (int64 i); discriminate. }
    rewrite (update_detalle_found _ _ _ _ _ _ F) in H.
    destruct (UPDATE_detalle now d _ _ _ db) as [[d' db1]|e] eqn:E; [|discriminate].
    destruct (_recalcular_total_venta now real _ db1) as [[[] db2]|e] eqn:Erec;
      [|discriminate].
    inversion H; subst.
    apply _recalcular_total_venta_Ok in Erec. destruct Erec as (_ & _ & Hd2 & _).
    eexists _, _. split; [|reflexivity]. apply first_by_id_found. rewrite Hd2.
    apply (UPDATE_detalle_find _ _ _ _ _ _ _ _ _ F E).
Qed.

(** ** Creating and deleting again *)

Lemma create_venta_tables now uuid4 data db v db' :
  create_venta now uuid4 data db = Ok (v, db') ->
  clientes db' = clientes db /\ productos db' = productos db
  /\ ventas db' = ventas db ++ [v]
  /\ Venta.id v = next_rowid (map Venta.id (ventas db))
  /\ exists nuevos,
       detalles_ventas db' = detalles_ventas db ++ nuevos
       /\ Forall (fun d => DetalleVenta.venta_id d = Venta.id v) nuevos
       /\ Forall (fun d => forall o, In o (detalles_ventas db) ->
                                     DetalleVenta.id o < DetalleVenta.id d) nuevos.
Proof.
  intros H. apply create_venta_Ok in H.
  destruct H as (Ev & Hc & Hp & Hv & _ & _ & _ & _ & nuevos & Hd & Hvid & _ & Hids).
  split; [exact Hc|]. split; [exact Hp|]. split; [exact Hv|].
  split; [rewrite Ev; reflexivity|]. exists nuevos. auto.
Qed.

(** Deleting what was just created gives the store back: for a customer,
    a product and a sale with its batch of line items, the delete of the
    returned id commits and the store is the one before the create,
    provided the foreign keys held in it. *)
Theorem create_then_delete now db :
  (forall u data c db',
      ventas_con_cliente db = true ->
      transaction (create_cliente now u data) db = (Ok c, db') ->
      transaction (delete_cliente (Cliente.id c)) db' = (Ok true, db))
  /\ (forall u data p db',
        detalles_con_producto db = true ->
        transaction (create_producto now u data) db = (Ok p, db') ->
        transaction (delete_producto (Producto.id p)) db' = (Ok true, db))
  /\ (forall uuid4 data v db',
        detalles_con_venta db = true ->
        transaction (create_venta now uuid4 data) db = (Ok v, db') ->
        transaction (delete_venta (Venta.id v)) db' = (Ok true, db)).
Proof.
  split; [|split].
  - intros u data c db' Hfk H. apply transaction_Ok in H.
    unfold create_cliente, INSERT_cliente in H.
    apply bind_Ok in H. destruct H as ([] & db1 & Hc & H).
    apply constraint_Ok in Hc. destruct Hc as [_ ->].
    inversion H; subst; clear H.
    pose proof (fk_fresh Venta.cliente_id Cliente.id _ _ Hfk) as Hnone.
    set (row := Cliente.mk _ _ _ _ _ _ _).
    assert (F : find (fun r => Cliente.id r =? Cliente.id row)
                     (clientes (with_clientes (clientes db ++ [row]) db)) = Some row)
      by (apply (find_snoc_fresh Cliente.id); reflexivity).
    unfold transaction, delete_cliente, get_cliente.
    rewrite (by_id_found _ _ _ _ _ _ F). subst row.
    unfold session_delete_cliente, bind, query, ventas_de. simpl.
    rewrite (existsb_false_filter_nil _ _ Hnone). simpl.
    unfold DELETE_cliente, bind, constraint, ret. simpl. rewrite Hnone. simpl.
    rewrite (filter_snoc_at Cliente.id (clientes db) _
               (next_rowid (map Cliente.id (clientes db))) eq_refl) by reflexivity.
    destruct db; reflexivity.
  - intros u data p db' Hfk H. apply transaction_Ok in H.
    unfold create_producto, INSERT_producto in H.
    apply bind_Ok in H. destruct H as ([] & db1 & Hpar & H).
    apply params_Ok in Hpar. destruct Hpar as [_ ->].
    apply bind_Ok in H. destruct H as ([] & db1 & Hc & H).
    apply constraint_Ok in Hc. destruct Hc as [_ ->].
    inversion H; subst; clear H.
    pose proof (fk_fresh DetalleVenta.producto_id Producto.id _ _ Hfk) as Hnone.
    set (row := Producto.mk _ _ _ _ _ _ _).
    assert (F : find (fun r => Producto.id r =? Producto.id row)
                     (productos (with_productos (productos db ++ [row]) db)) = Some row)
      by (apply (find_snoc_fresh Producto.id); reflexivity).
    unfold transaction, delete_producto, get_producto.
    rewrite (by_id_found _ _ _ _ _ _ F). subst row.
    unfold session_delete_producto, bind, query. simpl.
    rewrite (existsb_false_filter_nil _ _ Hnone). simpl.
    unfold DELETE_producto, bind, constraint, ret. simpl. rewrite Hnone. simpl.
    rewrite (filter_snoc_at Producto.id (productos db) _
               (next_rowid (map Producto.id (productos db))) eq_refl) by reflexivity.
    destruct db; reflexivity.
  - intros uuid4 data v db' Hfk H. apply transaction_Ok in H.
    apply create_venta_tables in H.
    destruct H as (Hc & Hp & Hv & Hid & nuevos & Hd & Hvid & Hids).
    pose proof (fk_fresh DetalleVenta.venta_id Venta.id _ _ Hfk) as Hnone.
    rewrite <- Hid in Hnone.
    assert (F : find (fun r => Venta.id r =? Venta.id v) (ventas db') = Some v).
    { rewrite Hv. apply (find_snoc_fresh Venta.id); [exact Hid|reflexivity]. }
    unfold transaction, delete_venta, get_venta.
    rewrite (by_id_found _ _ _ _ _ _ F).
    unfold session_delete_venta, bind, query.
    assert (Hde : detalles_de (Venta.id v) db' = nuevos).
    { unfold detalles_de. rewrite Hd, filter_app.
      rewrite (existsb_false_filter_nil _ _ Hnone). simpl.
      apply forallb_filter_id. apply forallb_forall. intros d Hin.
      rewrite Forall_forall in Hvid. apply Z.eqb_eq. apply Hvid. exact Hin. }
    rewrite Hde, forM_delete_detalles.
    assert (Hkeep : filter (fun d => negb (existsb (fun x => DetalleVenta.id d =? DetalleVenta.id x)
                                                    nuevos)) (detalles_ventas db')
                    = detalles_ventas db).
    { rewrite Hd, filter_app.
      rewrite (filter_nil_iff _ nuevos).
      - rewrite app_nil_r. apply forallb_filter_id. apply forallb_forall. intros o Ho.
        apply negb_true_iff. apply existsb_false_iff. intros x Hx.
        apply Z.eqb_neq. rewrite Forall_forall in Hids. specialize (Hids x Hx o Ho). lia.
      - intros d Hin. apply negb_false_iff. apply existsb_exists.
        exists d. rewrite Z.eqb_refl. auto. }
    rewrite Hkeep. unfold DELETE_venta, bind, constraint, ret. simpl.
    rewrite Hnone. simpl. rewrite Hv.
    rewrite (filter_snoc_fresh Venta.id) by exact Hid.
    destruct db' as [c' p' v' d']. simpl in *. subst c' p'. destruct db; reflexivity.
Qed.

(** ** The tables a request leaves alone *)

Ltac marco :=
  repeat first
    [ apply preserves_ret | apply preserves_query | apply preserves_constraint
    | apply preserves_not_null | apply preserves_params | apply preserves_param_key
    | apply preserves_select | apply preserves_first_by_id
    | apply preserves_bind; [|intros ?]
    | apply preserves_forM_; intros ?
    | match goal with
      | |- preserves _ (match ?x with _ => _ end) => destruct x
      | |- preserves _ (fun db => @?b db) =>
          let HP := fresh in let H := fresh in
          intros ? ? ? HP H; inversion H; subst; simpl; exact HP
      end
    | progress unfold create_cliente, INSERT_cliente, update_cliente, get_cliente,
        UPDATE_cliente, delete_cliente, session_delete_cliente, DELETE_cliente,
        create_producto, INSERT_producto, update_producto, get_producto,
        UPDATE_producto, delete_producto, session_delete_producto, DELETE_producto,
        create_venta, INSERT_venta, update_venta, get_venta, UPDATE_venta_cliente,
        UPDATE_venta_total, UPDATE_ventas, delete_venta, session_delete_venta,
        DELETE_venta, create_detalle, INSERT_detalle, update_detalle, get_detalle,
        UPDATE_detalle, delete_detalle, session_delete_detalle, DELETE_detalle,
        _recalcular_total_venta ].

Lemma INSERT_detalles_marco {X} (f : DB -> X) (c : X) now uuid4 vid dets :
  (forall l db, f (with_detalles l db) = f db) ->
  forall k, preserves (fun db => f db = c) (INSERT_detalles now uuid4 vid dets k).
Proof.
  intros Hf. induction dets as [|det rest IH]; intros k; simpl.
  - apply preserves_ret.
  - apply preserves_bind; [|intros _; apply IH].
    unfold INSERT_detalle.
    apply preserves_bind; [apply preserves_params|intros _].
    apply preserves_bind; [apply preserves_param_key|intros _].
    apply preserves_bind; [apply preserves_param_key|intros _].
    apply preserves_bind; [apply preserves_constraint|intros _].
    intros db x db' HP H. inversion H as [[Hx Hdb]]. rewrite Hf. exact HP.
Qed.

(** A request writes only the tables of its footprint: customer and
    product requests leave the sales and the line items alone (a customer
    delete apart, which cascades), no request on sales or line items
    writes a customer or a product, and an update of a sale's header
    leaves the line items alone. *)
Theorem requests_frame now r db :
  (escribe_clientes r = false -> clientes (handle now r db) = clientes db)
  /\ (escribe_productos r = false -> productos (handle now r db) = productos db)
  /\ (escribe_ventas r = false -> ventas (handle now r db) = ventas db)
  /\ (escribe_detalles r = false -> detalles_ventas (handle now r db) = detalles_ventas db).
Proof.
  repeat split; intros Hr; destruct r; try discriminate Hr; simpl;
    match goal with
    | |- ?f (snd (transaction ?m db)) = ?f db =>
        apply (transaction_preserves (fun d => f d = f db) m db); [|reflexivity]
    end;
    try (unfold create_venta;
         apply preserves_bind;
           [|intros ?; apply preserves_bind;
               [|intros ?; apply preserves_bind;
                   [apply INSERT_detalles_marco; reflexivity|intros ?]]]);
    marco.
Qed.

(** ** Pages *)

Lemma firstn_add {A} (n m : nat) (l : list A) :
  firstn (n + m) l = firstn n l ++ firstn m (skipn n l).
Proof.
  revert l. induction n as [|n IH]; intros l; simpl; [reflexivity|].
  destruct l as [|a l]; simpl.
  - rewrite firstn_nil. reflexivity.
  - rewrite IH. reflexivity.
Qed.

Lemma skipn_add {A} (n m : nat) (l : list A) :
  skipn (n + m) l = skipn m (skipn n l).
Proof.
  revert l. induction n as [|n IH]; intros l; simpl; [reflexivity|].
  destruct l as [|a l]; simpl; [rewrite skipn_nil; reflexivity|apply IH].
Qed.

Lemma pagina_add {A} (skip n m : Z) (l : list A) :
  0 <= skip -> 0 <= n -> 0 <= m ->
  sql_limit (n + m) (skipn (Z.to_nat skip) l)
  = sql_limit n (skipn (Z.to_nat skip) l) ++ sql_limit m (skipn (Z.to_nat (skip + n)) l).
Proof.
  intros Hs Hn Hm. unfold sql_limit.
  destruct (Z.ltb_spec (n + m) 0); [lia|].
  destruct (Z.ltb_spec n 0); [lia|]. destruct (Z.ltb_spec m 0); [lia|].
  rewrite !Z2Nat.inj_add by lia. rewrite firstn_add, skipn_add. reflexivity.
Qed.

Lemma pagina_resto {A} (skip n m : Z) (l : list A) :
  0 <= skip -> 0 <= n -> m < 0 ->
  sql_limit n (skipn (Z.to_nat skip) l) ++ sql_limit m (skipn (Z.to_nat (skip + n)) l)
  = skipn (Z.to_nat skip) l.
Proof.
  intros Hs Hn Hm. unfold sql_limit.
  destruct (Z.ltb_spec n 0); [lia|]. destruct (Z.ltb_spec m 0); [|lia].
  rewrite Z2Nat.inj_add by lia. rewrite skipn_add. apply firstn_skipn.
Qed.

Lemma pagina_length {A} (skip n : Z) (l : list A) :
  0 <= n -> Z.of_nat (List.length (sql_limit n (skipn (Z.to_nat skip) l))) <= n.
Proof.
  intros Hn. unfold sql_limit. destruct (Z.ltb_spec n 0); [lia|].
  rewrite length_firstn. lia.
Qed.

Lemma offset_limit_tile {A} (tabla : DB -> list A) db skip n m a b :
  0 <= skip -> 0 <= n ->
  transaction (offset_limit tabla skip n) db = (Ok a, db) ->
  transaction (offset_limit tabla (skip + n) m) db = (Ok b, db) ->
  Z.of_nat (List.length a) <= n
  /\ (0 <= m -> int64 (n + m) = true ->
      transaction (offset_limit tabla skip (n + m)) db = (Ok (a ++ b), db))
  /\ (m < 0 -> a ++ b = skipn (Z.to_nat skip) (tabla db)).
Proof.
  intros Hs Hn Ha Hb. apply transaction_Ok in Ha, Hb.
  apply offset_limit_Ok in Ha, Hb.
  destruct Ha as (-> & _ & Hi1 & _). destruct Hb as (-> & _ & _ & _).
  split; [apply pagina_length; exact Hn|]. split.
  - intros Hm Hi. apply transaction_Ok. rewrite (offset_limit_eq _ _ _ _ Hi1 Hi).
    rewrite pagina_add by assumption. reflexivity.
  - intros Hm. apply pagina_resto; assumption.
Qed.

(** The pages of the four listings tile the table: with [skip], [n] and
    [m] not negative, the page of [n] rows at [skip] followed by the page
    of [m] rows at [skip + n] is the page of [n + m] rows at [skip],
    when [n + m] is a 64-bit integer; a page of [n] rows has at most [n]
    rows; and followed by the page at [skip + n] with a negative limit
    it is every row from [skip] on. *)
Theorem list_pages_tile db skip n m :
  0 <= skip -> 0 <= n ->
  (forall a b,
      transaction (list_clientes skip n) db = (Ok a, db) ->
      transaction (list_clientes (skip + n) m) db = (Ok b, db) ->
      Z.of_nat (List.length a) <= n
      /\ (0 <= m -> int64 (n + m) = true ->
          transaction (list_clientes skip (n + m)) db = (Ok (a ++ b), db))
      /\ (m < 0 -> a ++ b = skipn (Z.to_nat skip) (clientes db)))
  /\ (forall a b,
        transaction (list_productos skip n) db = (Ok a, db) ->
        transaction (list_productos (skip + n) m) db = (Ok b, db) ->
        Z.of_nat (List.length a) <= n
        /\ (0 <= m -> int64 (n + m) = true ->
            transaction (list_productos skip (n + m)) db = (Ok (a ++ b), db))
        /\ (m < 0 -> a ++ b = skipn (Z.to_nat skip) (productos db)))
  /\ (forall a b,
        transaction (list_ventas skip n) db = (Ok a, db) ->
        transaction (list_ventas (skip + n) m) db = (Ok b, db) ->
        Z.of_nat (List.length a) <= n
        /\ (0 <= m -> int64 (n + m) = true ->
            transaction (list_ventas skip (n + m)) db = (Ok (a ++ b), db))
        /\ (m < 0 -> a ++ b = skipn (Z.to_nat skip) (ventas db)))
  /\ (forall a b,
        transaction (list_detalles skip n) db = (Ok a, db) ->
        transaction (list_detalles (skip + n) m) db = (Ok b, db) ->
        Z.of_nat (List.length a) <= n
        /\ (0 <= m -> int64 (n + m) = true ->
            transaction (list_detalles skip (n + m)) db = (Ok (a ++ b), db))
        /\ (m < 0 -> a ++ b = skipn (Z.to_nat skip) (detalles_ventas db))).
Proof.
  intros Hs Hn.
  split; [|split; [|split]]; intros a b Ha Hb.
  - exact (offset_limit_tile clientes db skip n m a b Hs Hn Ha Hb).
  - exact (offset_limit_tile productos db skip n m a b Hs Hn Ha Hb).
  - exact (offset_limit_tile ventas db skip n m a b Hs Hn Ha Hb).
  - exact (offset_limit_tile detalles_ventas db skip n m a b Hs Hn Ha Hb).
Qed.

(** ** The line items of a new sale *)

(** The line items of a sale just created, as [GET /ventas/{id}/detalles]
    returns them, are those of the request, one for one and in its order,
    with the product, the price, the discount and the quantity sent;
    provided the line items of the store pointed to sales. *)
Theorem create_venta_then_detalles now uuid4 data db v db' :
  detalles_con_venta db = true ->
  transaction (create_venta now uuid4 data) db = (Ok v, db') ->
  exists dets,
    transaction (listar_detalles_por_venta (Venta.id v)) db' = (Ok (Some dets), db')
    /\ map linea dets = map linea_pedida (VentaCreate.detalles data)
    /\ Forall (fun d => DetalleVenta.venta_id d = Venta.id v) dets.
Proof.
  intros Hfk H. apply transaction_Ok in H.
  apply create_venta_Ok in H.
  destruct H as (Ev & _ & _ & Hv & _ & _ & _ & _ & nuevos & Hd & Hvid & Hl & _).
  assert (Hid : Venta.id v = next_rowid (map Venta.id (ventas db)))
    by (rewrite Ev; reflexivity).
  pose proof (fk_fresh DetalleVenta.venta_id Venta.id _ _ Hfk) as Hnone.
  rewrite <- Hid in Hnone.
  exists nuevos. split; [|split; assumption].
  assert (F : find (fun r => Venta.id r =? Venta.id v) (ventas db') = Some v).
  { rewrite Hv. apply (find_snoc_fresh Venta.id); [exact Hid|reflexivity]. }
  unfold transaction, listar_detalles_por_venta, get_venta.
  rewrite (by_id_found _ _ _ _ _ _ F). unfold bind, query, ret. do 3 f_equal.
  unfold detalles_de. rewrite Hd, filter_app.
  rewrite (existsb_false_filter_nil _ _ Hnone). simpl.
  apply forallb_filter_id. apply forallb_forall. intros d Hin.
  rewrite Forall_forall in Hvid. apply Z.eqb_eq. apply Hvid. exact Hin.
Qed.

(** ** The reports account for every row *)



















(** ** These theorems at concrete stores *)

Lemma listings_ascend_witness :
  devuelve (list_ventas 1 2) db_ranking_clientes
    (fun rows => StronglySorted Z.lt (map Venta.id rows)).
Proof.
  destruct (listings_ascend
              [ (1, CreateCliente "c1" (ClienteCreate.mk "Ana" "ana@example.com" "11111111-1"));
                (2, CreateCliente "c2" (ClienteCreate.mk "Eva" "eva@example.com" "22222222-2"));
                (3, CreateProducto "p1" (ProductoCreate.mk "Pan" None 100));
                (4, CreateVenta (fun k => uuid_ej k)
                      (VentaCreate.mk 1 [DetalleVentaCreate.mk 1 100 0 1]));
                (5, CreateVenta (fun k => uuid_ej (k + 2))
                      (VentaCreate.mk 2 [DetalleVentaCreate.mk 1 100 0 2]));
                (6, CreateVenta (fun k => uuid_ej (k + 4))
                      (VentaCreate.mk 2 [DetalleVentaCreate.mk 1 100 10 1]));
                (7, CreateVenta (fun k => uuid_ej (k + 6)) (VentaCreate.mk 2 [])) ]
              1 2 eq_refl eq_refl) as (_ & _ & _ & H & _).
  exact H.
Defined.

Lemma total_es_suma_sin_nulos_witness : total_es_suma_en_enteros db_una_venta.
Proof.
  exact (total_es_suma_sin_nulos
           [ (1, CreateCliente "c1" (ClienteCreate.mk "Ana" "ana@example.com" "11111111-1"));
             (2, CreateProducto "p1" (ProductoCreate.mk "Pan" None 100));
             (3, CreateVenta uuid_ej (VentaCreate.mk 1 [DetalleVentaCreate.mk 1 100 10 2])) ]
           eq_refl).
Defined.


Lemma create_then_get_witness :
  exists c db',
    transaction (create_cliente 4 "c2" (ClienteCreate.mk "Eva" "eva@example.com" "22222222-2"))
                db_una_venta = (Ok c, db')
    /\ devuelve (get_cliente (Cliente.id c)) db' (fun r => r = Some c)
    /\ Cliente.id c = 2.
Proof.
  destruct (transaction
              (create_cliente 4 "c2" (ClienteCreate.mk "Eva" "eva@example.com" "22222222-2"))
              db_una_venta) as [[c|e] db'] eqn:E.
  - exists c, db'. split; [reflexivity|].
    destruct (create_then_get 4 db_una_venta) as (H & _).
    destruct (H _ _ _ _ E) as [Hget Hc]. split; [exact Hget|].
    rewrite Hc. reflexivity.
  - vm_compute in E. discriminate E.
Defined.

Lemma update_then_get_witness :
  exists d' db',
    transaction (update_detalle 7 0 1 (DetalleVentaUpdate.mk Unset Unset (SetTo (Some 3))))
                db_una_venta = (Ok (Some d'), db')
    /\ devuelve (get_detalle 1) db' (fun r => r = Some d').
Proof.
  destruct (transaction
              (update_detalle 7 0 1 (DetalleVentaUpdate.mk Unset Unset (SetTo (Some 3))))
              db_una_venta) as [[[d'|]|e] db'] eqn:E.
  - exists d', db'. split; [reflexivity|].
    destruct (update_then_get 7 1 db_una_venta) as (_ & _ & _ & H).
    exact (H _ _ _ _ E).
  - vm_compute in E. discriminate E.
  - vm_compute in E. discriminate E.
Defined.

Lemma create_then_delete_witness :
  exists v db',
    transaction (create_venta 4 (fun k => uuid_ej (k + 2))
                   (VentaCreate.mk 1 [DetalleVentaCreate.mk 1 100 0 1]))
                db_una_venta = (Ok v, db')
    /\ transaction (delete_venta (Venta.id v)) db' = (Ok true, db_una_venta).
Proof.
  destruct (transaction (create_venta 4 (fun k => uuid_ej (k + 2))
                           (VentaCreate.mk 1 [DetalleVentaCreate.mk 1 100 0 1]))
                        db_una_venta) as [[v|e] db'] eqn:E.
  - exists v, db'. split; [reflexivity|].
    destruct (create_then_delete 4 db_una_venta) as (_ & _ & H).
    exact (H _ _ _ _ eq_refl E).
  - vm_compute in E. discriminate E.
Defined.

Lemma requests_frame_witness :
  clientes (handle 5 (DeleteVenta 1) db_una_venta) = clientes db_una_venta
  /\ productos (handle 5 (DeleteVenta 1) db_una_venta) = productos db_una_venta
  /\ detalles_ventas (handle 5 (UpdateVenta 1 (VentaUpdate.mk (SetTo (Some 1)))) db_una_venta)
     = detalles_ventas db_una_venta.
Proof.
  destruct (requests_frame 5 (DeleteVenta 1) db_una_venta) as (Hc & Hp & _).
  destruct (requests_frame 5 (UpdateVenta 1 (VentaUpdate.mk (SetTo (Some 1)))) db_una_venta)
    as (_ & _ & _ & Hd).
  split; [exact (Hc eq_refl)|]. split; [exact (Hp eq_refl)|exact (Hd eq_refl)].
Defined.

Lemma list_pages_tile_witness :
  exists a b,
    transaction (list_ventas 1 1) db_ranking_clientes = (Ok a, db_ranking_clientes)
    /\ transaction (list_ventas 2 2) db_ranking_clientes = (Ok b, db_ranking_clientes)
    /\ transaction (list_ventas 1 3) db_ranking_clientes = (Ok (a ++ b), db_ranking_clientes)
    /\ map Venta.id (a ++ b) = [2; 3; 4].
Proof.
  exists (sql_limit 1 (skipn (Z.to_nat 1) (ventas db_ranking_clientes))),
         (sql_limit 2 (skipn (Z.to_nat 2) (ventas db_ranking_clientes))).
  split; [reflexivity|]. split; [reflexivity|].
  assert (H0 : 0 <= 1) by lia. assert (H2 : 0 <= 2) by lia.
  destruct (list_pages_tile db_ranking_clientes 1 1 2 H0 H0) as (_ & _ & H & _).
  destruct (H _ _ eq_refl eq_refl) as (_ & Hab & _).
  split; [exact (Hab H2 eq_refl)|]. vm_compute. reflexivity.
Defined.

Lemma create_venta_then_detalles_witness :
  exists v db' dets,
    transaction (create_venta 4 (fun k => uuid_ej (k + 2))
                   (VentaCreate.mk 1 [DetalleVentaCreate.mk 1 100 0 1;
                                      DetalleVentaCreate.mk 1 90 5 2]))
                db_una_venta = (Ok v, db')
    /\ transaction (listar_detalles_por_venta (Venta.id v)) db' = (Ok (Some dets), db')
    /\ map linea dets = [(1, 100, Some 0, Some 1); (1, 90, Some 5, Some 2)].
Proof.
  destruct (transaction (create_venta 4 (fun k => uuid_ej (k + 2))
                           (VentaCreate.mk 1 [DetalleVentaCreate.mk 1 100 0 1;
                                              DetalleVentaCreate.mk 1 90 5 2]))
                        db_una_venta) as [[v|e] db'] eqn:E.
  - assert (Hfk : detalles_con_venta db_una_venta = true) by (vm_compute; reflexivity).
    destruct (create_venta_then_detalles _ _ _ _ _ _ Hfk E) as (dets & Hl & Hm & _).
    exists v, db', dets. split; [reflexivity|]. split; [exact Hl|exact Hm].
  - vm_compute in E. discriminate E.
Defined.
